(** * pycdp.gen.generate: the CDP-to-Python binding generator

    A shallow embedding of [src/pycdp/gen/generate.py].  The generator
    turns the Chrome DevTools Protocol description (domains, types,
    commands, events) into Python modules.  Its functions build Python
    source text; here each one builds the syntax tree of that text, a
    printer gives the text back, and a small evaluator for the Python
    fragment that the generator can emit gives the generated code its
    meaning. *)

From Stdlib Require Import ZArith Ascii String List Bool Lia.
From Stdlib Require Import Floats.SpecFloat.
From stdpp Require Import base option list strings gmap sorting.

Set Default Proof Using "Type".
Set Warnings "-register-all,-clear-no-such-hyp".
#[local] Open Scope Z_scope.
#[local] Open Scope nat_scope.

(** ** Python strings *)

Module Str.

Definition nl : string := String "010"%char EmptyString.
Definition dquote : string := String "034"%char EmptyString.

(** [sep.join(parts)] *)
Fixpoint join (sep : string) (parts : list string) : string :=
  match parts with
  | [] => EmptyString
  | [p] => p
  | p :: rest => p +:+ sep +:+ join sep rest
  end.

(** [c in s] for a one-character [c] *)
Fixpoint contains (c : ascii) (s : string) : bool :=
  match s with
  | EmptyString => false
  | String a s' => if Ascii.eqb a c then true else contains c s'
  end.

(** [s.split(c)] for a one-character separator: never the empty list *)
Fixpoint split (c : ascii) (s : string) : list string :=
  match s with
  | EmptyString => [EmptyString]
  | String a s' =>
      if Ascii.eqb a c then EmptyString :: split c s'
      else match split c s' with
           | [] => [String a EmptyString]
           | w :: ws => String a w :: ws
           end
  end.

(** [s.startswith(p)] *)
Definition startswith (p s : string) : bool := String.prefix p s.

(** [s[n:]] *)
Fixpoint drop (n : nat) (s : string) : string :=
  match n, s with
  | O, _ => s
  | S n', String _ s' => drop n' s'
  | S _, EmptyString => EmptyString
  end.

(** [s.replace(c, '')] for a one-character [c] *)
Fixpoint remove (c : ascii) (s : string) : string :=
  match s with
  | EmptyString => EmptyString
  | String a s' =>
      if Ascii.eqb a c then remove c s' else String a (remove c s')
  end.

Definition map_chars (f : ascii -> ascii) : string -> string :=
  fix go s :=
    match s with
    | EmptyString => EmptyString
    | String a s' => String (f a) (go s')
    end.

Definition is_upper (a : ascii) : bool :=
  (65 <=? nat_of_ascii a) && (nat_of_ascii a <=? 90).
Definition is_lower (a : ascii) : bool :=
  (97 <=? nat_of_ascii a) && (nat_of_ascii a <=? 122).
Definition is_digit (a : ascii) : bool :=
  (48 <=? nat_of_ascii a) && (nat_of_ascii a <=? 57).

Definition to_upper (a : ascii) : ascii :=
  if is_lower a then ascii_of_nat (nat_of_ascii a - 32) else a.
Definition to_lower (a : ascii) : ascii :=
  if is_upper a then ascii_of_nat (nat_of_ascii a + 32) else a.

(** [s.upper()] and [s.lower()], on ASCII text *)
Definition upper : string -> string := map_chars to_upper.
Definition lower : string -> string := map_chars to_lower.

(** [s.replace(c, t)] for a one-character [c] *)
Fixpoint replace (c : ascii) (t : string) (s : string) : string :=
  match s with
  | EmptyString => EmptyString
  | String a s' =>
      if Ascii.eqb a c then t +:+ replace c t s' else String a (replace c t s')
  end.

(** A character that [\w] matches, on ASCII text *)
Definition is_word (a : ascii) : bool :=
  is_upper a || is_lower a || is_digit a || Ascii.eqb a "_".

End Str.

(** ** The naming environment

    [snake_case] relies on two things that live outside the repository:
    [inflection.underscore] and the attribute table of Python's
    [builtins] module.  The generator below takes both as parameters.
    For closed examples the file also carries the usual instance: the
    rewriting rules of [inflection.underscore] on ASCII text and the
    lower-case names of CPython 3's [builtins]. *)

Class Naming : Type := {
  underscore : string -> string;    (* inflection.underscore *)
  is_builtin : string -> bool       (* hasattr(builtins, name) *)
}.

(** [CdpEvent.py_name] relies on a third one, [inflection.camelize] with
    its default [uppercase_first_letter=True]. *)
Class Camelize : Type := {
  camelize : string -> string
}.

Module Inflection.

(** [re.sub(r"([A-Z]+)([A-Z][a-z])", r'\1_\2', word)]: an underscore goes
    between two capitals that are followed by a lower-case letter. *)
Fixpoint acronym_boundary (s : string) : string :=
  match s with
  | String a ((String b (String c _)) as t) =>
      if Str.is_upper a && Str.is_upper b && Str.is_lower c
      then String a (String "_" (acronym_boundary t))
      else String a (acronym_boundary t)
  | String a t => String a (acronym_boundary t)
  | EmptyString => EmptyString
  end.

(** [re.sub(r"([a-z\d])([A-Z])", r'\1_\2', word)] *)
Fixpoint word_boundary (s : string) : string :=
  match s with
  | String a ((String b _) as t) =>
      if (Str.is_lower a || Str.is_digit a) && Str.is_upper b
      then String a (String "_" (word_boundary t))
      else String a (word_boundary t)
  | String a t => String a (word_boundary t)
  | EmptyString => EmptyString
  end.

Definition hyphen_to_underscore (a : ascii) : ascii :=
  if Ascii.eqb a "-" then "_"%char else a.

Definition underscore (word : string) : string :=
  Str.lower
    (Str.map_chars hyphen_to_underscore
       (word_boundary (acronym_boundary word))).

Definition builtin_names : list string :=
  [ "abs"; "aiter"; "all"; "anext"; "any"; "ascii"; "bin"; "bool";
    "breakpoint"; "bytearray"; "bytes"; "callable"; "chr"; "classmethod";
    "compile"; "complex"; "copyright"; "credits"; "delattr"; "dict"; "dir";
    "divmod"; "enumerate"; "eval"; "exec"; "exit"; "filter"; "float";
    "format"; "frozenset"; "getattr"; "globals"; "hasattr"; "hash"; "help";
    "hex"; "id"; "input"; "int"; "isinstance"; "issubclass"; "iter"; "len";
    "license"; "list"; "locals"; "map"; "max"; "memoryview"; "min"; "next";
    "object"; "oct"; "open"; "ord"; "pow"; "print"; "property"; "quit";
    "range"; "repr"; "reversed"; "round"; "set"; "setattr"; "slice";
    "sorted"; "staticmethod"; "str"; "sum"; "super"; "tuple"; "type";
    "vars"; "zip" ].

Definition is_builtin (name : string) : bool :=
  existsb (String.eqb name) builtin_names.

Definition naming : Naming :=
  Build_Naming underscore is_builtin.

(** [re.sub(r"(?:^|_)(.)", lambda m: m.group(1).upper(), string)]: the
    first character and every character behind an underscore are
    upper-cased and the underscore is dropped; [.] matches no newline.
    [camelize_from] is the scan behind the first position. *)
Fixpoint camelize_from (s : string) : string :=
  match s with
  | String a ((String b t') as t) =>
      if Ascii.eqb a "_" && negb (Ascii.eqb b "010")
      then String (Str.to_upper b) (camelize_from t')
      else String a (camelize_from t)
  | String a EmptyString => String a EmptyString
  | EmptyString => EmptyString
  end.

Definition camelize (s : string) : string :=
  match s with
  | String a t =>
      if Ascii.eqb a "010" then String a (camelize_from t)
      else String (Str.to_upper a) (camelize_from t)
  | EmptyString => EmptyString
  end.

Definition camel : Camelize := Build_Camelize camelize.

End Inflection.

(** ** Exceptions and results *)

Inductive pyexc : Type :=
| KeyError (key : string)
| IndexError
| ValueError
| TypeError
| AttributeError
| NameError (name : string).

Inductive result (A : Type) : Type :=
| Ok (a : A)
| Raise (e : pyexc).
Arguments Ok {A} a.
Arguments Raise {A} e.

#[global] Instance result_ret : MRet result := @Ok.
#[global] Instance result_bind : MBind result :=
  fun A B f m => match m with Ok a => f a | Raise e => Raise e end.
#[global] Instance result_fmap : FMap result :=
  fun A B f m => match m with Ok a => Ok (f a) | Raise e => Raise e end.

(** [[f(x) for x in l]]: left to right, the first exception ends the loop *)
Fixpoint traverse {A B : Type} (f : A -> result B) (l : list A)
  : result (list B) :=
  match l with
  | [] => Ok []
  | x :: l' => y ← f x; ys ← traverse f l'; Ok (y :: ys)
  end.

Definition is_ok {A : Type} (r : result A) : bool :=
  match r with Ok _ => true | Raise _ => false end.

(** ** The primitive kinds of the protocol *)

Module CdpPrimitiveType.

(** [class CdpPrimitiveType(Enum)]: member name and Python type *)
Inductive t : Type := boolean | integer | number | object | string_t.

Definition value (p : t) : string :=
  match p with
  | boolean => "bool"
  | integer => "int"
  | number => "float"
  | object => "dict"
  | string_t => "str"
  end.

(** [cls[cdp_type]]: a [KeyError] for any other key, [None] included *)
Definition lookup (cdp_type : option string) : result t :=
  match cdp_type with
  | Some "boolean" => Ok boolean
  | Some "integer" => Ok integer
  | Some "number" => Ok number
  | Some "object" => Ok object
  | Some "string" => Ok string_t
  | Some other => Raise (KeyError other)
  | None => Raise (KeyError "None")
  end.

Definition is_any (cdp_type : option string) : bool :=
  bool_decide (cdp_type = Some "any").

Definition get_annotation (cdp_type : option string) : result string :=
  if is_any cdp_type then Ok "typing.Any"
  else value <$> lookup cdp_type.

(** The source's [get_constructor], on text *)
Definition get_constructor_text (cdp_type : option string) (val : string)
  : result string :=
  if is_any cdp_type then Ok val
  else cons ← lookup cdp_type; Ok (value cons +:+ "(" +:+ val +:+ ")").

End CdpPrimitiveType.

(** ** The emitted Python fragment *)

Module Py.

(** The expressions that the property encoders and decoders emit *)
Inductive expr : Type :=
| EName (x : string)                              (* x *)
| EAttr (e : expr) (a : string)                   (* e.a *)
| EItem (e : expr) (k : string)                   (* e['k'] *)
| EGet (e : expr) (k : string)                    (* e.get('k', None) *)
| ECons (c : CdpPrimitiveType.t) (e : expr)       (* int(e), str(e), ... *)
| EFromJson (cls : string) (e : expr)             (* cls.from_json(e) *)
| EToJson (e : expr)                              (* e.to_json() *)
| EListComp (body : expr) (x : string) (it : expr) (* [body for x in it] *)
| EIfNotNone (e test : expr).         (* e if test is not None else None *)

Inductive stmt : Type :=
| SSetItem (d k : string) (e : expr)              (* d['k'] = e *)
| SIfNotNone (test : expr) (body : stmt).   (* if test is not None: body *)

Fixpoint render (e : expr) : string :=
  match e with
  | EName x => x
  | EAttr e a => render e +:+ "." +:+ a
  | EItem e k => render e +:+ "['" +:+ k +:+ "']"
  | EGet e k => render e +:+ ".get('" +:+ k +:+ "', None)"
  | ECons c e => CdpPrimitiveType.value c +:+ "(" +:+ render e +:+ ")"
  | EFromJson cls e => cls +:+ ".from_json(" +:+ render e +:+ ")"
  | EToJson e => render e +:+ ".to_json()"
  | EListComp body x it =>
      "[" +:+ render body +:+ " for " +:+ x +:+ " in " +:+ render it +:+ "]"
  | EIfNotNone e test =>
      render e +:+ " if " +:+ render test +:+ " is not None else None"
  end.

Fixpoint render_stmt (s : stmt) : string :=
  match s with
  | SSetItem d k e => d +:+ "['" +:+ k +:+ "'] = " +:+ render e
  | SIfNotNone test body =>
      "if " +:+ render test +:+ " is not None:" +:+ Str.nl
        +:+ "    " +:+ render_stmt body
  end.

(** The classes whose [from_json] an expression calls, by the names the
    expression gives them *)
Fixpoint classes_of (e : expr) : list string :=
  match e with
  | EName _ => []
  | EAttr e _ | EItem e _ | EGet e _ | ECons _ e | EToJson e => classes_of e
  | EFromJson cls e => cls :: classes_of e
  | EListComp body _ it => classes_of body ++ classes_of it
  | EIfNotNone e test => classes_of e ++ classes_of test
  end.

(** Python values.  A dict keeps its entries in insertion order; an
    instance of a generated class carries the class's qualified name
    [module.Class]. *)
Inductive value : Type :=
| VNone
| VBool (b : bool)
| VInt (z : Z)
| VFloat (f : spec_float)
| VStr (s : string)
| VList (l : list value)
| VTuple (l : list value)
| VDict (d : list (string * value))
| VEnum (cls : string) (member : string)  (* member of an enum.Enum class *)
| VNew (cls : string) (base : value)  (* instance of class cls(int), ... *)
| VObj (cls : string) (fields : list (string * value)). (* dataclass *)

Definition is_none (v : value) : bool :=
  match v with VNone => true | _ => false end.

(** Lookup in a dict or an attribute table *)
Fixpoint assoc {A : Type} (k : string) (d : list (string * A)) : option A :=
  match d with
  | [] => None
  | (k', v) :: d' => if String.eqb k k' then Some v else assoc k d'
  end.

(** [d[k] = v]: an existing key keeps its place *)
Fixpoint dict_set {A : Type} (k : string) (v : A) (d : list (string * A))
  : list (string * A) :=
  match d with
  | [] => [(k, v)]
  | (k', v') :: d' =>
      if String.eqb k k' then (k, v) :: d' else (k', v') :: dict_set k v d'
  end.

Definition chars (s : string) : list value :=
  (fun a => VStr (String a EmptyString)) <$> list_ascii_of_string s.

(** [for x in v] *)
Definition iterate (v : value) : result (list value) :=
  match v with
  | VList l | VTuple l | VNew _ (VList l) => Ok l
  | VDict d | VNew _ (VDict d) => Ok ((fun kv => VStr kv.1) <$> d)
  | VStr s | VNew _ (VStr s) => Ok (chars s)
  | _ => Raise TypeError
  end.

(** [v['k']] *)
Definition getitem (v : value) (k : string) : result value :=
  match v with
  | VDict d | VNew _ (VDict d) =>
      match assoc k d with Some x => Ok x | None => Raise (KeyError k) end
  | _ => Raise TypeError
  end.

(** [v.get('k', None)] *)
Definition get_or_none (v : value) (k : string) : result value :=
  match v with
  | VDict d | VNew _ (VDict d) => Ok (default VNone (assoc k d))
  | _ => Raise AttributeError
  end.

(** [v.a] *)
Definition getattr (v : value) (a : string) : result value :=
  match v with
  | VObj _ fields =>
      match assoc a fields with Some x => Ok x | None => Raise AttributeError end
  | _ => Raise AttributeError
  end.

(** The class of an instance of a generated class *)
Definition class_of (v : value) : option string :=
  match v with
  | VEnum cls _ | VNew cls _ | VObj cls _ => Some cls
  | _ => None
  end.

(** What [int], [float], [bool], [str] and [dict] return for a value
    that is not already of their own type ([int("3")], [float(3)],
    [str(3)], ...) belongs to the Python runtime, not to the repository:
    the evaluator takes it as a parameter. *)
Class Builtins : Type := { convert : CdpPrimitiveType.t -> value -> result value }.

(** A generated class, as far as the generated code uses one *)
Record class : Type := {
  cls_to_json : value -> result value;      (* self.to_json() *)
  cls_from_json : value -> result value     (* cls.from_json(json) *)
}.

(** The classes of all generated modules, by qualified name *)
Definition registry : Type := string -> option class.

(** The class that a name of the module [modname] refers to: [T] is the
    module's own class, [m.T] the class [T] of the imported module [m]. *)
Definition qualify (modname name : string) : string :=
  if Str.contains "." name then name else modname +:+ "." +:+ name.

Definition env : Type := list (string * value).

Section Eval.
Context `{Builtins}.
Variable reg : registry.
Variable modname : string.

(** [int(v)], [float(v)], [bool(v)], [str(v)], [dict(v)] *)
Definition construct (c : CdpPrimitiveType.t) (v : value) : result value :=
  match c, v with
  | CdpPrimitiveType.integer, (VInt z | VNew _ (VInt z)) => Ok (VInt z)
  | CdpPrimitiveType.integer, VBool b => Ok (VInt (if b then 1 else 0)%Z)
  | CdpPrimitiveType.number, (VFloat f | VNew _ (VFloat f)) => Ok (VFloat f)
  | CdpPrimitiveType.boolean, VBool b => Ok (VBool b)
  | CdpPrimitiveType.string_t, (VStr s | VNew _ (VStr s)) => Ok (VStr s)
  | CdpPrimitiveType.object, (VDict d | VNew _ (VDict d)) => Ok (VDict d)
  | _, _ => convert c v
  end.

(** [v.to_json()]: the method of the class of [v] *)
Definition call_to_json (v : value) : result value :=
  match class_of v with
  | Some cls =>
      match reg cls with
      | Some c => cls_to_json c v
      | None => Raise AttributeError
      end
  | None => Raise AttributeError
  end.

Fixpoint eval (rho : env) (e : expr) : result value :=
  match e with
  | EName x =>
      match assoc x rho with Some v => Ok v | None => Raise (NameError x) end
  | EAttr e a => v ← eval rho e; getattr v a
  | EItem e k => v ← eval rho e; getitem v k
  | EGet e k => v ← eval rho e; get_or_none v k
  | ECons c e => v ← eval rho e; construct c v
  | EFromJson cls e =>
      match reg (qualify modname cls) with
      | Some c => v ← eval rho e; cls_from_json c v
      | None => Raise (NameError cls)
      end
  | EToJson e => v ← eval rho e; call_to_json v
  | EListComp body x it =>
      v ← eval rho it;
      l ← iterate v;
      VList <$> traverse (fun i => eval ((x, i) :: rho) body) l
  | EIfNotNone e test =>
      t ← eval rho test;
      if is_none t then Ok VNone else eval rho e
  end.

Fixpoint exec (rho : env) (s : stmt) : result env :=
  match s with
  | SSetItem d k e =>
      v ← eval rho e;
      match assoc d rho with
      | Some (VDict entries) => Ok (dict_set d (VDict (dict_set k v entries)) rho)
      | Some _ => Raise TypeError
      | None => Raise (NameError d)
      end
  | SIfNotNone test body =>
      t ← eval rho test;
      if is_none t then Ok rho else exec rho body
  end.

Fixpoint exec_all (rho : env) (ss : list stmt) : result env :=
  match ss with
  | [] => Ok rho
  | s :: ss' => rho' ← exec rho s; exec_all rho' ss'
  end.

Definition read (x : string) (rho : env) : result value :=
  match assoc x rho with Some v => Ok v | None => Raise (NameError x) end.

End Eval.

End Py.

(** ** The protocol description

    A description as [json.load] reads it: an object is a dict.  The
    generator stores the entries of an object in dataclasses that
    declare the types of their fields ([name: str], [optional: bool],
    ...) and does not check them.  The embedding stores an entry when it
    has the declared type; for an entry of another type it answers
    [Untyped] and says nothing about the generator. *)

Module Json.

Inductive t : Type :=
| JNull
| JBool (b : bool)
| JInt (z : Z)
| JFloat (f : spec_float)
| JString (s : string)
| JArray (l : list t)
| JObject (d : list (string * t)).

Inductive parsed (A : Type) : Type :=
| Parsed (a : A)
| Fails (e : pyexc)
| Untyped.
Arguments Parsed {A} a.
Arguments Fails {A} e.
Arguments Untyped {A}.

#[global] Instance parsed_ret : MRet parsed := @Parsed.
#[global] Instance parsed_bind : MBind parsed :=
  fun A B f m =>
    match m with Parsed a => f a | Fails e => Fails e | Untyped => Untyped end.
#[global] Instance parsed_fmap : FMap parsed :=
  fun A B f m =>
    match m with Parsed a => Parsed (f a) | Fails e => Fails e | Untyped => Untyped end.

(** [[f(x) for x in l]] *)
Fixpoint each {A B : Type} (f : A -> parsed B) (l : list A) : parsed (list B) :=
  match l with
  | [] => Parsed []
  | x :: l' => y ← f x; ys ← each f l'; Parsed (y :: ys)
  end.

(** [d[k]], for a field declared [str] *)
Definition item_str (k : string) (d : list (string * t)) : parsed string :=
  match Py.assoc k d with
  | None => Fails (KeyError k)
  | Some (JString s) => Parsed s
  | Some _ => Untyped
  end.

(** [d.get(k)], for a field declared [Optional[str]] *)
Definition get_str (k : string) (d : list (string * t)) : parsed (option string) :=
  match Py.assoc k d with
  | None | Some JNull => Parsed None
  | Some (JString s) => Parsed (Some s)
  | Some _ => Untyped
  end.

(** [d.get(k, False)], for a field declared [bool] *)
Definition get_bool (k : string) (d : list (string * t)) : parsed bool :=
  match Py.assoc k d with
  | None => Parsed false
  | Some (JBool b) => Parsed b
  | Some _ => Untyped
  end.

Definition strings (l : list t) : option (list string) :=
  mapM (fun j => match j with JString s => Some s | _ => None end) l.

(** [d.get(k)], for a field declared [List[str]] *)
Definition get_strs (k : string) (d : list (string * t))
  : parsed (option (list string)) :=
  match Py.assoc k d with
  | None | Some JNull => Parsed None
  | Some (JArray l) =>
      match strings l with Some ss => Parsed (Some ss) | None => Untyped end
  | Some _ => Untyped
  end.

(** [d.get(k, list())], for a field declared [List[str]] *)
Definition get_strs_or_empty (k : string) (d : list (string * t))
  : parsed (list string) :=
  match Py.assoc k d with
  | None => Parsed []
  | Some (JArray l) =>
      match strings l with Some ss => Parsed ss | None => Untyped end
  | Some _ => Untyped
  end.

(** [for x in v]: a list gives its elements, a dict its keys, a string
    its characters; nothing else can be iterated *)
Definition iterate (v : t) : parsed (list t) :=
  match v with
  | JArray l => Parsed l
  | JObject d => Parsed (JString <$> d.*1)
  | JString s =>
      Parsed ((fun a => JString (String a EmptyString)) <$> list_ascii_of_string s)
  | _ => Fails TypeError
  end.

(** [d.get(k, list())], to be iterated later *)
Definition get_or_empty (k : string) (d : list (string * t)) : t :=
  default (JArray []) (Py.assoc k d).

End Json.

(** ** Names and references *)

Definition snake_case `{Naming} (name : string) : string :=
  let name := underscore name in
  if is_builtin name then name +:+ "_" else name.

(** [domain, subtype = ref.split('.')] needs exactly two parts *)
Definition ref_to_python `{Naming} (ref : string) : result string :=
  if Str.contains "." ref then
    match Str.split "." ref with
    | [domain; subtype] => Ok (snake_case domain +:+ "." +:+ subtype)
    | _ => Raise ValueError
    end
  else Ok ref.

Definition ref_to_python_domain `{Naming} (ref domain : string) : result string :=
  if Str.startswith (domain +:+ ".") ref
  then ref_to_python (Str.drop (String.length domain + 1) ref)
  else ref_to_python ref.

(** A truthy string is kept, [None] and [''] are not *)
Definition truthy (o : option string) : option string :=
  match o with
  | Some EmptyString | None => None
  | Some s => Some s
  end.

(** ** Documentation text

    [escape_backticks] rewrites the matches of
    [BACKTICK_RE = `([^`]+)`(\w+)?], from left to right.  A match starts
    at a backtick, runs over at least one character that is no backtick
    up to the next backtick, and takes the longest run of word
    characters behind it.  The scan below keeps what it has read of a
    match that has begun: nothing ([Outside]), the characters behind the
    opening backtick ([Inside]), or the whole inner text and the word
    characters behind the closing backtick ([Behind]).  A backtick that
    opens no match stays as it is. *)

Inductive backtick_scan : Type :=
| Outside
| Inside (inner : string)
| Behind (inner trailer : string).

(** [replace_one]: the text that replaces one match *)
Definition replace_one (inner trailer : string) : string :=
  if String.eqb trailer "s" then "``" +:+ inner +:+ "``'s"
  else if negb (String.eqb trailer "") then "``" +:+ inner +:+ "`` " +:+ trailer
  else "``" +:+ inner +:+ "``".

Fixpoint backtick_sub (st : backtick_scan) (s : string) : string :=
  match s with
  | EmptyString =>
      match st with
      | Outside => EmptyString
      | Inside inner => String "`" inner
      | Behind inner trailer => replace_one inner trailer
      end
  | String a s' =>
      match st with
      | Outside =>
          if Ascii.eqb a "`" then backtick_sub (Inside EmptyString) s'
          else String a (backtick_sub Outside s')
      | Inside inner =>
          if Ascii.eqb a "`" then
            if String.eqb inner EmptyString
            then String "`" (backtick_sub (Inside EmptyString) s')
            else backtick_sub (Behind inner EmptyString) s'
          else backtick_sub (Inside (inner +:+ String a EmptyString)) s'
      | Behind inner trailer =>
          if Str.is_word a
          then backtick_sub (Behind inner (trailer +:+ String a EmptyString)) s'
          else replace_one inner trailer
                 +:+ (if Ascii.eqb a "`" then backtick_sub (Inside EmptyString) s'
                      else String a (backtick_sub Outside s'))
      end
  end.

Definition escape_backticks (docstr : string) : string :=
  backtick_sub Outside (Str.replace "|" "`" docstr).

Definition inline_doc (description : option string) : string :=
  match truthy description with
  | None => EmptyString
  | Some description =>
      Str.join Str.nl
        ((fun l => "#: " +:+ l) <$> Str.split "010" (escape_backticks description))
  end.

(** One line of a dataclass body or of a call signature:
    [name: annotation] or [name: annotation = None] *)
Record decl : Type := Decl {
  decl_name : string;
  decl_annotation : string;
  decl_default_none : bool
}.

Definition render_decl (d : decl) : string :=
  decl_name d +:+ ": " +:+ decl_annotation d
    +:+ (if decl_default_none d then " = None" else "").

Module CdpItems.

Record t : Type := mk { type : option string; ref : option string }.

(** [type.get] needs a dict *)
Definition from_json (type : Json.t) : Json.parsed t :=
  match type with
  | Json.JObject d =>
      type_ ← Json.get_str "type" d;
      ref_ ← Json.get_str "$ref" d;
      Json.Parsed (mk type_ ref_)
  | _ => Json.Fails AttributeError
  end.

End CdpItems.

Module CdpProperty.

Record t : Type := mk {
  name : string;
  description : option string;
  type : option string;
  ref : option string;
  enum : option (list string);
  items : option CdpItems.t;
  optional : bool;
  experimental : bool;
  deprecated : bool;
  domain : string
}.

(** Also the [from_json] of [CdpParameter] and of [CdpReturn].
    [prop['name']] needs a dict. *)
Definition from_json (prop : Json.t) (domain : string) : Json.parsed t :=
  match prop with
  | Json.JObject d =>
      name_ ← Json.item_str "name" d;
      description_ ← Json.get_str "description" d;
      type_ ← Json.get_str "type" d;
      ref_ ← Json.get_str "$ref" d;
      enum_ ← Json.get_strs "enum" d;
      items_ ← match Py.assoc "items" d with
               | Some its => Some <$> CdpItems.from_json its
               | None => Json.Parsed None
               end;
      optional_ ← Json.get_bool "optional" d;
      experimental_ ← Json.get_bool "experimental" d;
      deprecated_ ← Json.get_bool "deprecated" d;
      Json.Parsed (mk name_ description_ type_ ref_ enum_ items_ optional_
                     experimental_ deprecated_ domain)
  | _ => Json.Fails TypeError
  end.

Section Generate.
Context `{Naming}.

Definition py_name (self : t) : string := snake_case (name self).

Definition py_annotation (self : t) : result string :=
  ann ← match items self with
        | Some its =>
            match truthy (CdpItems.ref its) with
            | Some r =>
                py_ref ← ref_to_python_domain r (domain self);
                Ok ("typing.List[" +:+ py_ref +:+ "]")
            | None =>
                a ← CdpPrimitiveType.get_annotation (CdpItems.type its);
                Ok ("typing.List[" +:+ a +:+ "]")
            end
        | None =>
            match truthy (ref self) with
            | Some r => ref_to_python_domain r (domain self)
            | None => CdpPrimitiveType.get_annotation (type self)
            end
        end;
  Ok (if optional self then "typing.Optional[" +:+ ann +:+ "]" else ann).

(** The description comment that the source puts above the line is
    left to the printer. *)
Definition generate_decl (self : t) : result decl :=
  ann ← py_annotation self;
  Ok (Decl (py_name self) ann (optional self)).

(** The declaration as the source writes it, under the comment lines of
    the description *)
Definition generate_decl_text (self : t) : result string :=
  let code := inline_doc (description self) in
  let code := if bool_decide (code = EmptyString) then code else code +:+ Str.nl in
  ann ← py_annotation self;
  let code := code +:+ py_name self +:+ ": " +:+ ann in
  Ok (if optional self then code +:+ " = None" else code).

(** [self.x], or [x] inside a command *)
Definition target (self : t) (use_self : bool) : Py.expr :=
  if use_self then Py.EAttr (Py.EName "self") (py_name self)
  else Py.EName (py_name self).

Definition generate_to_json (self : t) (dict_ : string) (use_self : bool)
  : Py.stmt :=
  let x := target self use_self in
  let rhs :=
    match items self with
    | Some its =>
        match truthy (CdpItems.ref its) with
        | Some _ => Py.EListComp (Py.EToJson (Py.EName "i")) "i" x
        | None => Py.EListComp (Py.EName "i") "i" x
        end
    | None =>
        match truthy (ref self) with
        | Some _ => Py.EToJson x
        | None => x
        end
    end in
  let assign := Py.SSetItem dict_ (name self) rhs in
  if optional self then Py.SIfNotNone x assign else assign.

(** [CdpPrimitiveType.get_constructor], on syntax *)
Definition get_constructor (cdp_type : option string) (val : Py.expr)
  : result Py.expr :=
  if CdpPrimitiveType.is_any cdp_type then Ok val
  else cons ← CdpPrimitiveType.lookup cdp_type; Ok (Py.ECons cons val).

Definition generate_from_json (self : t) (dict_ : string) : result Py.expr :=
  let item := Py.EItem (Py.EName dict_) (name self) in
  expr ← match items self with
         | Some its =>
             match truthy (CdpItems.ref its) with
             | Some r =>
                 py_ref ← ref_to_python_domain r (domain self);
                 Ok (Py.EListComp (Py.EFromJson py_ref (Py.EName "i")) "i" item)
             | None =>
                 cons ← get_constructor (CdpItems.type its) (Py.EName "i");
                 Ok (Py.EListComp cons "i" item)
             end
         | None =>
             match truthy (ref self) with
             | Some r =>
                 py_ref ← ref_to_python_domain r (domain self);
                 Ok (Py.EFromJson py_ref item)
             | None => get_constructor (type self) item
             end
         end;
  Ok (if optional self
      then Py.EIfNotNone expr (Py.EGet (Py.EName dict_) (name self))
      else expr).

(** The same two functions as the source writes them, on text *)
Definition generate_to_json_text (self : t) (dict_ : string) (use_self : bool)
  : string :=
  let self_ref := if use_self then "self." else "" in
  let assign := dict_ +:+ "['" +:+ name self +:+ "'] = " in
  let assign :=
    match items self with
    | Some its =>
        match truthy (CdpItems.ref its) with
        | Some _ =>
            assign +:+ "[i.to_json() for i in " +:+ self_ref +:+ py_name self +:+ "]"
        | None =>
            assign +:+ "[i for i in " +:+ self_ref +:+ py_name self +:+ "]"
        end
    | None =>
        match truthy (ref self) with
        | Some _ => assign +:+ self_ref +:+ py_name self +:+ ".to_json()"
        | None => assign +:+ self_ref +:+ py_name self
        end
    end in
  if optional self
  then "if " +:+ self_ref +:+ py_name self +:+ " is not None:" +:+ Str.nl
         +:+ "    " +:+ assign
  else assign.

Definition generate_from_json_text (self : t) (dict_ : string) : result string :=
  let item := dict_ +:+ "['" +:+ name self +:+ "']" in
  expr ← match items self with
         | Some its =>
             match truthy (CdpItems.ref its) with
             | Some r =>
                 py_ref ← ref_to_python_domain r (domain self);
                 Ok ("[" +:+ py_ref +:+ ".from_json(i) for i in " +:+ item +:+ "]")
             | None =>
                 cons ← CdpPrimitiveType.get_constructor_text (CdpItems.type its) "i";
                 Ok ("[" +:+ cons +:+ " for i in " +:+ item +:+ "]")
             end
         | None =>
             match truthy (ref self) with
             | Some r =>
                 py_ref ← ref_to_python_domain r (domain self);
                 Ok (py_ref +:+ ".from_json(" +:+ item +:+ ")")
             | None => CdpPrimitiveType.get_constructor_text (type self) item
             end
         end;
  Ok (if optional self
      then expr +:+ " if " +:+ dict_ +:+ ".get('" +:+ name self
             +:+ "', None) is not None else None"
      else expr).

(** The references of one property, as every [get_refs] collects them *)
Definition get_refs (self : t) : gset string :=
  match items self with
  | Some its =>
      match truthy (CdpItems.ref its) with
      | Some r => {[ r ]}
      | None =>
          match truthy (ref self) with Some r => {[ r ]} | None => ∅ end
      end
  | None =>
      match truthy (ref self) with Some r => {[ r ]} | None => ∅ end
  end.

End Generate.

End CdpProperty.

(** ** Sorting

    [list.sort(key=...)] and [sorted(..., key=...)] are stable: elements
    with equal keys keep their order.  Insertion from the right, each
    element going in front of the first one whose key is not smaller, is
    the stable sort. *)

Fixpoint insert_by {A : Type} (key : A -> nat) (x : A) (l : list A) : list A :=
  match l with
  | [] => [x]
  | y :: l' =>
      if key x <=? key y then x :: y :: l' else y :: insert_by key x l'
  end.

Definition sorted_by {A : Type} (key : A -> nat) (l : list A) : list A :=
  foldr (insert_by key) [] l.

(** The stable partition by a flag: the elements without it, then the
    elements with it *)
Definition by_flag {A : Type} (f : A -> bool) (l : list A) : list A :=
  List.filter (fun x => negb (f x)) l ++ List.filter f l.

(** ** Generated declarations *)

Inductive class_def : Type :=
| EnumDef (name : string) (members : list (string * string))
    (* class name(enum.Enum): one [NAME = "value"] per member *)
| DataclassDef (name : string) (fields : list decl)
    (to_json : list Py.stmt) (from_json : list (string * Py.expr))
    (* @dataclass class name: fields;
       to_json: json = dict(); statements; return json;
       from_json: return cls(k=e, ...) *)
| AliasDef (name superclass py_type : string).
    (* class name(superclass): to_json returns self, from_json cls(json) *)

Inductive return_stmt : Type :=
| RNone                                   (* no return statement *)
| ROne (e : Py.expr)                      (* return e *)
| RTuple (es : list Py.expr).             (* return (e1, e2, ...) *)

Record function_def : Type := FunctionDef {
  fn_deprecated : bool;             (* @deprecated(version=...) *)
  fn_name : string;
  fn_params : list decl;            (* the call signature *)
  fn_ret_type : string;
  fn_has_params : bool;             (* params: T_JSON_DICT = dict() *)
  fn_assigns : list Py.stmt;
  fn_method : string;               (* 'method': '...' *)
  fn_return : return_stmt           (* after json = yield cmd_dict *)
}.

Record event_def : Type := EventDef {
  ev_deprecated : bool;             (* @deprecated(version=...) *)
  ev_event : string;                (* @event_class('...') *)
  ev_name : string;                 (* @dataclass class name: *)
  ev_fields : list decl;
  ev_from_json : list (string * Py.expr)   (* return cls(k=e, ...) *)
}.

(** A generated module: the header with the name of the domain, the
    import lines, and the declarations of the types, the commands and the
    events, in this order *)
Inductive item_def : Type :=
| TypeItem (def : class_def)
| CommandItem (fn : function_def)
| EventItem (ev : event_def).

Record module_def : Type := ModuleDef {
  mod_domain : string;              (* # CDP domain: ... *)
  mod_experimental : bool;          (* ... (experimental) *)
  mod_imports : string;
  mod_items : list item_def
}.

(** The decoding expressions of a declaration: the arguments of
    [cls(...)] in a [from_json], the returned expressions of a command *)
Definition decoders (item : item_def) : list Py.expr :=
  match item with
  | TypeItem (DataclassDef _ _ _ from_json) => from_json.*2
  | TypeItem _ => []
  | CommandItem fn =>
      match fn_return fn with
      | RNone => []
      | ROne e => [e]
      | RTuple es => es
      end
  | EventItem ev => (ev_from_json ev).*2
  end.

(** A declaration under [@deprecated(version=...)] *)
Definition decorated (item : item_def) : bool :=
  match item with
  | TypeItem _ => false
  | CommandItem fn => fn_deprecated fn
  | EventItem ev => ev_deprecated ev
  end.

Module CdpType.

Record t : Type := mk {
  id : string;
  description : option string;
  type : string;
  items : option CdpItems.t;
  enum : option (list string);
  properties : list CdpProperty.t
}.

(** [type_['id']] needs a dict; the field [type] is declared [str]. *)
Definition from_json (type_ : Json.t) (domain : string) : Json.parsed t :=
  match type_ with
  | Json.JObject d =>
      id_ ← Json.item_str "id" d;
      description_ ← Json.get_str "description" d;
      ty ← Json.item_str "type" d;
      items_ ← match Py.assoc "items" d with
               | Some its => Some <$> CdpItems.from_json its
               | None => Json.Parsed None
               end;
      enum_ ← Json.get_strs "enum" d;
      ps ← Json.iterate (Json.get_or_empty "properties" d);
      properties_ ← Json.each (fun p => CdpProperty.from_json p domain) ps;
      Json.Parsed (mk id_ description_ ty items_ enum_ properties_)
  | _ => Json.Fails TypeError
  end.

Section Generate.
Context `{Naming}.

Definition generate_primitive_code (self : t) : result class_def :=
  match items self with
  | Some its =>
      nested_type ← match truthy (CdpItems.ref its) with
                    | Some r => ref_to_python r
                    | None => CdpPrimitiveType.get_annotation (CdpItems.type its)
                    end;
      Ok (AliasDef (id self) "list" ("typing.List[" +:+ nested_type +:+ "]"))
  | None =>
      py_type ← CdpPrimitiveType.get_annotation (Some (type self));
      Ok (AliasDef (id self) py_type py_type)
  end.

Definition generate_enum_code (self : t) : class_def :=
  EnumDef (id self)
    ((fun enum_member => (Str.upper (snake_case enum_member), enum_member))
       <$> default [] (enum self)).

Definition generate_class_code (self : t) : result class_def :=
  let props :=
    sorted_by (fun p => Nat.b2n (CdpProperty.optional p)) (properties self) in
  decls ← traverse CdpProperty.generate_decl props;
  let assigns := (fun p => CdpProperty.generate_to_json p "json" true) <$> props in
  from_jsons ← traverse
    (fun p => from_json ← CdpProperty.generate_from_json p "json";
              Ok (CdpProperty.py_name p, from_json)) props;
  Ok (DataclassDef (id self) decls assigns from_jsons).

Definition generate_code (self : t) : result class_def :=
  match enum self, properties self with
  | Some (_ :: _), _ => Ok (generate_enum_code self)
  | _, _ :: _ => generate_class_code self
  | _, [] => generate_primitive_code self
  end.

End Generate.

Definition get_refs (self : t) : gset string :=
  match enum self, properties self with
  | Some (_ :: _), _ => ∅
  | _, (_ :: _) as props => ⋃ (CdpProperty.get_refs <$> props)
  | _, [] =>
      match items self with
      | Some its =>
          match truthy (CdpItems.ref its) with Some r => {[ r ]} | None => ∅ end
      | None => ∅
      end
  end.

End CdpType.

Module CdpParameter.

Section Generate.
Context `{Naming}.

(** One parameter of the call signature *)
Definition generate_code (self : CdpProperty.t) : result decl :=
  py_type ← match CdpProperty.items self with
            | Some its =>
                nested_type ←
                  match truthy (CdpItems.ref its) with
                  | Some r => ref_to_python r
                  | None => CdpPrimitiveType.get_annotation (CdpItems.type its)
                  end;
                Ok ("typing.List[" +:+ nested_type +:+ "]")
            | None =>
                match truthy (CdpProperty.ref self) with
                | Some r => ref_to_python r
                | None => CdpPrimitiveType.get_annotation (CdpProperty.type self)
                end
            end;
  Ok (Decl (CdpProperty.py_name self)
        (if CdpProperty.optional self
         then "typing.Optional[" +:+ py_type +:+ "]" else py_type)
        (CdpProperty.optional self)).

Definition generate_from_json (self : CdpProperty.t) (dict_ : string)
  : result (string * Py.expr) :=
  code ← CdpProperty.generate_from_json self dict_;
  Ok (CdpProperty.py_name self, code).

(** One field of an event class: no default, whatever [optional] says.
    The description comment above the line is left to the printer. *)
Definition generate_decl (self : CdpProperty.t) : result decl :=
  ann ← CdpProperty.py_annotation self;
  Ok (Decl (CdpProperty.py_name self) ann false).

(** The [:param ...:] line of a parameter in the docstring of a command *)
Definition generate_doc (self : CdpProperty.t) : string :=
  let doc := ":param " +:+ CdpProperty.py_name self +:+ ":" in
  let doc := if CdpProperty.deprecated self then doc +:+ " **(DEPRECATED)**" else doc in
  let doc := if CdpProperty.experimental self then doc +:+ " **(EXPERIMENTAL)**" else doc in
  let doc := if CdpProperty.optional self then doc +:+ " *(Optional)*" else doc in
  match truthy (CdpProperty.description self) with
  | Some description =>
      let desc := Str.replace "010" " " (Str.replace "`" "``" description) in
      doc +:+ " " +:+ desc
  | None => doc
  end.

End Generate.

End CdpParameter.

Module CdpReturn.

Section Generate.
Context `{Naming}.

Definition py_annotation (self : CdpProperty.t) : result string :=
  ann ← match CdpProperty.items self with
        | Some its =>
            match truthy (CdpItems.ref its) with
            | Some r =>
                py_ref ← ref_to_python r;
                Ok ("typing.List[" +:+ py_ref +:+ "]")
            | None =>
                py_type ← CdpPrimitiveType.get_annotation (CdpItems.type its);
                Ok ("typing.List[" +:+ py_type +:+ "]")
            end
        | None =>
            match truthy (CdpProperty.ref self) with
            | Some r => ref_to_python r
            | None => CdpPrimitiveType.get_annotation (CdpProperty.type self)
            end
        end;
  Ok (if CdpProperty.optional self
      then "typing.Optional[" +:+ ann +:+ "]" else ann).

Definition generate_return (self : CdpProperty.t) (dict_ : string)
  : result Py.expr :=
  CdpProperty.generate_from_json self dict_.

(** The text behind [:returns:] in the docstring of a command *)
Definition generate_doc (self : CdpProperty.t) : string :=
  match truthy (CdpProperty.description self) with
  | Some description =>
      let doc := Str.replace "010" " " description in
      if CdpProperty.optional self then "*(Optional)* " +:+ doc else doc
  | None => EmptyString
  end.

End Generate.

End CdpReturn.

Module CdpCommand.

Record t : Type := mk {
  name : string;
  description : option string;
  experimental : bool;
  deprecated : bool;
  parameters : list CdpProperty.t;      (* CdpParameter *)
  returns : list CdpProperty.t;         (* CdpReturn *)
  domain : string
}.

(** [command.get] needs a dict. *)
Definition from_json (command : Json.t) (domain : string) : Json.parsed t :=
  match command with
  | Json.JObject d =>
      let parameters_ := Json.get_or_empty "parameters" d in
      let returns_ := Json.get_or_empty "returns" d in
      name_ ← Json.item_str "name" d;
      description_ ← Json.get_str "description" d;
      experimental_ ← Json.get_bool "experimental" d;
      deprecated_ ← Json.get_bool "deprecated" d;
      ps ← Json.iterate parameters_;
      ps ← Json.each (fun p => CdpProperty.from_json p domain) ps;
      rs ← Json.iterate returns_;
      rs ← Json.each (fun r => CdpProperty.from_json r domain) rs;
      Json.Parsed (mk name_ description_ experimental_ deprecated_ ps rs domain)
  | _ => Json.Fails AttributeError
  end.

Section Generate.
Context `{Naming}.

Definition py_name (self : t) : string := snake_case (name self).

(** The docstring that the source puts between header and body is left
    to the printer. *)
Definition generate_code (self : t) : result function_def :=
  (* the function header *)
  ret_type ← match returns self with
             | [] => Ok "None"
             | [r] => CdpReturn.py_annotation r
             | rs =>
                 nested_types ← traverse CdpReturn.py_annotation rs;
                 Ok ("typing.Tuple[" +:+ Str.join ", " nested_types +:+ "]")
             end;
  let ret_type :=
    "typing.Generator[T_JSON_DICT,T_JSON_DICT," +:+ ret_type +:+ "]" in
  sig ← match parameters self with
        | [] => Ok []
        | ps =>
            let sorted_params :=
              sorted_by (fun param => if CdpProperty.optional param then 1 else 0) ps in
            traverse CdpParameter.generate_code sorted_params
        end;
  (* the function body *)
  let assigns :=
    (fun p => CdpProperty.generate_to_json p "params" false) <$> parameters self in
  ret ← match returns self with
        | [] => Ok RNone
        | [r] => ROne <$> CdpReturn.generate_return r "json"
        | rs => RTuple <$> traverse (fun r => CdpReturn.generate_return r "json") rs
        end;
  Ok {| fn_deprecated := deprecated self;
        fn_name := py_name self;
        fn_params := sig;
        fn_ret_type := ret_type;
        fn_has_params := bool_decide (parameters self ≠ []);
        fn_assigns := assigns;
        fn_method := domain self +:+ "." +:+ name self;
        fn_return := ret |}.

End Generate.

Definition get_refs (self : t) : gset string :=
  ⋃ (CdpProperty.get_refs <$> (parameters self ++ returns self)).

End CdpCommand.

Module CdpEvent.

Record t : Type := mk {
  name : string;
  description : option string;
  deprecated : bool;
  experimental : bool;
  parameters : list CdpProperty.t;      (* CdpParameter *)
  domain : string
}.

(** [json['name']] needs a dict. *)
Definition from_json (json : Json.t) (domain : string) : Json.parsed t :=
  match json with
  | Json.JObject d =>
      name_ ← Json.item_str "name" d;
      description_ ← Json.get_str "description" d;
      deprecated_ ← Json.get_bool "deprecated" d;
      experimental_ ← Json.get_bool "experimental" d;
      ps ← Json.iterate (Json.get_or_empty "parameters" d);
      ps ← Json.each (fun p => CdpProperty.from_json p domain) ps;
      Json.Parsed (mk name_ description_ deprecated_ experimental_ ps domain)
  | _ => Json.Fails TypeError
  end.

Definition get_refs (self : t) : gset string :=
  ⋃ (CdpProperty.get_refs <$> parameters self).

Section Generate.
Context `{Naming} `{Camelize}.

Definition py_name (self : t) : string := camelize (name self).

(** The docstring between the class line and the fields is left to the
    printer. *)
Definition generate_code (self : t) : result event_def :=
  decls ← traverse CdpParameter.generate_decl (parameters self);
  from_json ← traverse (fun p => CdpParameter.generate_from_json p "json")
                 (parameters self);
  Ok {| ev_deprecated := deprecated self;
        ev_event := domain self +:+ "." +:+ name self;
        ev_name := py_name self;
        ev_fields := decls;
        ev_from_json := from_json |}.

End Generate.

End CdpEvent.

Module CdpDomain.

Record t : Type := mk {
  domain : string;
  description : option string;
  experimental : bool;
  dependencies : list string;
  types : list CdpType.t;
  commands : list CdpCommand.t;
  events : list CdpEvent.t
}.

(** [domain.get] needs a dict. *)
Definition from_json (domain : Json.t) : Json.parsed t :=
  match domain with
  | Json.JObject d =>
      let types_ := Json.get_or_empty "types" d in
      let commands_ := Json.get_or_empty "commands" d in
      let events_ := Json.get_or_empty "events" d in
      domain_name ← Json.item_str "domain" d;
      description_ ← Json.get_str "description" d;
      experimental_ ← Json.get_bool "experimental" d;
      dependencies_ ← Json.get_strs_or_empty "dependencies" d;
      tys ← Json.iterate types_;
      tys ← Json.each (fun ty => CdpType.from_json ty domain_name) tys;
      cmds ← Json.iterate commands_;
      cmds ← Json.each (fun command => CdpCommand.from_json command domain_name) cmds;
      evs ← Json.iterate events_;
      evs ← Json.each (fun event => CdpEvent.from_json event domain_name) evs;
      Json.Parsed (mk domain_name description_ experimental_ dependencies_
                     tys cmds evs)
  | _ => Json.Fails AttributeError
  end.

(** The local [refs] of [generate_imports] after its three loops *)
Definition refs (self : t) : gset string :=
  ⋃ (CdpType.get_refs <$> types self)
    ∪ ⋃ (CdpCommand.get_refs <$> commands self)
    ∪ ⋃ (CdpEvent.get_refs <$> events self).

Definition needs_deprecation (self : t) : bool :=
  existsb CdpCommand.deprecated (commands self)
    || existsb CdpEvent.deprecated (events self).

Section Generate.
Context `{Naming}.

Definition module (self : t) : string := snake_case (domain self).

(** One turn of [for ref in refs]: a [ValueError] of the unpacking
    skips the reference. *)
Definition dependency_of (self : t) (ref : string) : option string :=
  match Str.split "." ref with
  | [domain_; _] =>
      if bool_decide (domain_ ≠ domain self) then Some (snake_case domain_)
      else None
  | _ => None
  end.

(** The local [dependencies] of [generate_imports] *)
Definition imports (self : t) : gset string :=
  set_omap (dependency_of self) (refs self).

Definition import_lines (self : t) : list string :=
  (fun d => "from . import " +:+ d)
    <$> merge_sort (≤)%string (elements (imports self)).

Definition generate_imports (self : t) : string :=
  let code := Str.join Str.nl (import_lines self) in
  if needs_deprecation self
  then code +:+ Str.nl +:+ "from deprecated.sphinx import deprecated # type: ignore"
  else code.

End Generate.

Section GenerateCode.
Context `{Naming} `{Camelize}.

Definition generate_code (self : t) : result module_def :=
  let import_code := generate_imports self in
  types ← traverse CdpType.generate_code (types self);
  commands ← traverse CdpCommand.generate_code (commands self);
  events ← traverse CdpEvent.generate_code (events self);
  Ok {| mod_domain := domain self;
        mod_experimental := experimental self;
        mod_imports := import_code;
        mod_items := (TypeItem <$> types) ++ (CommandItem <$> commands)
                       ++ (EventItem <$> events) |}.

End GenerateCode.

(** Every property of the description of a domain: the properties of
    its types, the parameters and the returns of its commands and the
    parameters of its events *)
Definition all_properties (self : t) : list CdpProperty.t :=
  flat_map CdpType.properties (types self)
    ++ flat_map (fun cmd => CdpCommand.parameters cmd ++ CdpCommand.returns cmd)
         (commands self)
    ++ flat_map CdpEvent.parameters (events self).

End CdpDomain.

(** ** The schema patches *)

Definition set_ref (ref : string) (p : CdpProperty.t) : CdpProperty.t :=
  CdpProperty.mk (CdpProperty.name p) (CdpProperty.description p)
    (CdpProperty.type p) (Some ref) (CdpProperty.enum p) (CdpProperty.items p)
    (CdpProperty.optional p) (CdpProperty.experimental p)
    (CdpProperty.deprecated p) (CdpProperty.domain p).

Definition set_optional (b : bool) (p : CdpProperty.t) : CdpProperty.t :=
  CdpProperty.mk (CdpProperty.name p) (CdpProperty.description p)
    (CdpProperty.type p) (CdpProperty.ref p) (CdpProperty.enum p)
    (CdpProperty.items p) b (CdpProperty.experimental p)
    (CdpProperty.deprecated p) (CdpProperty.domain p).

Definition set_parameters (ps : list CdpProperty.t) (c : CdpCommand.t)
  : CdpCommand.t :=
  CdpCommand.mk (CdpCommand.name c) (CdpCommand.description c)
    (CdpCommand.experimental c) (CdpCommand.deprecated c) ps
    (CdpCommand.returns c) (CdpCommand.domain c).

Definition set_description (d : option string) (e : CdpEvent.t) : CdpEvent.t :=
  CdpEvent.mk (CdpEvent.name e) d (CdpEvent.deprecated e)
    (CdpEvent.experimental e) (CdpEvent.parameters e) (CdpEvent.domain e).

Definition set_properties (ps : list CdpProperty.t) (ty : CdpType.t) : CdpType.t :=
  CdpType.mk (CdpType.id ty) (CdpType.description ty) (CdpType.type ty)
    (CdpType.items ty) (CdpType.enum ty) ps.

(** Patch 1: the loop over [domain.commands], left at the first
    [resolveNode]; [cmd.parameters[1]] raises [IndexError] on a shorter
    list. *)
Fixpoint patch_resolve_node (cmds : list CdpCommand.t) : result (list CdpCommand.t) :=
  match cmds with
  | [] => Ok []
  | cmd :: rest =>
      if String.eqb (CdpCommand.name cmd) "resolveNode" then
        match CdpCommand.parameters cmd !! 1 with
        | Some p =>
            Ok (set_parameters
                  (<[1 := set_ref "BackendNodeId" p]> (CdpCommand.parameters cmd)) cmd
                :: rest)
        | None => Raise IndexError
        end
      else rest' ← patch_resolve_node rest; Ok (cmd :: rest')
  end.

(** Patch 2: the loop over [domain.events], left at the first match;
    [None.replace] raises [AttributeError]. *)
Fixpoint patch_screencast (events : list CdpEvent.t) : result (list CdpEvent.t) :=
  match events with
  | [] => Ok []
  | event :: rest =>
      if String.eqb (CdpEvent.name event) "screencastVisibilityChanged" then
        match CdpEvent.description event with
        | Some d => Ok (set_description (Some (Str.remove "`" d)) event :: rest)
        | None => Raise AttributeError
        end
      else rest' ← patch_screencast rest; Ok (event :: rest')
  end.

(** Patch 3: in every type [Cookie], the first property [expires] *)
Fixpoint patch_expires (props : list CdpProperty.t) : list CdpProperty.t :=
  match props with
  | [] => []
  | prop :: rest =>
      if String.eqb (CdpProperty.name prop) "expires"
      then set_optional true prop :: rest
      else prop :: patch_expires rest
  end.

Definition patch_cookie (ty : CdpType.t) : CdpType.t :=
  if String.eqb (CdpType.id ty) "Cookie"
  then set_properties (patch_expires (CdpType.properties ty)) ty
  else ty.

Definition fix_domain (d : CdpDomain.t) : result CdpDomain.t :=
  if String.eqb (CdpDomain.domain d) "DOM" then
    cmds ← patch_resolve_node (CdpDomain.commands d);
    Ok (CdpDomain.mk (CdpDomain.domain d) (CdpDomain.description d)
          (CdpDomain.experimental d) (CdpDomain.dependencies d)
          (CdpDomain.types d) cmds (CdpDomain.events d))
  else if String.eqb (CdpDomain.domain d) "Page" then
    evs ← patch_screencast (CdpDomain.events d);
    Ok (CdpDomain.mk (CdpDomain.domain d) (CdpDomain.description d)
          (CdpDomain.experimental d) (CdpDomain.dependencies d)
          (CdpDomain.types d) (CdpDomain.commands d) evs)
  else if String.eqb (CdpDomain.domain d) "Network" then
    Ok (CdpDomain.mk (CdpDomain.domain d) (CdpDomain.description d)
          (CdpDomain.experimental d) (CdpDomain.dependencies d)
          (patch_cookie <$> CdpDomain.types d) (CdpDomain.commands d)
          (CdpDomain.events d))
  else Ok d.

(** The domain objects are updated in place; the function returns the
    patched list, or the exception that ended the loop. *)
Definition fix_protocol_spec (domains : list CdpDomain.t) : result (list CdpDomain.t) :=
  traverse fix_domain domains.

(** ** What the generated declarations do when they run *)

Module Runtime.
Import Py.

(** A command is a generator function: it runs to its one [yield],
    hands out the request and, once resumed with the response, runs to
    its end. *)
Inductive coroutine : Type :=
| Done (r : result value)
| Yield (request : value) (resume : value -> coroutine).

(** Keyword arguments against a list of declared names: an unknown
    keyword and a missing argument without default are [TypeError]s. *)
Definition bind_args (fields : list decl) (kwargs : list (string * value))
  : result (list (string * value)) :=
  if forallb (fun kv => existsb (String.eqb kv.1) (decl_name <$> fields)) kwargs
  then traverse
         (fun d => match assoc (decl_name d) kwargs with
                   | Some v => Ok (decl_name d, v)
                   | None => if decl_default_none d
                             then Ok (decl_name d, VNone)
                             else Raise TypeError
                   end) fields
  else Raise TypeError.

Section Semantics.
Context `{Builtins}.
Variable reg : registry.
Variable modname : string.

(** [cls(json)] of an enum class: the member with that value *)
Definition enum_lookup (qual : string) (members : list (string * string))
  (json : value) : result value :=
  match json with
  | VStr s | VNew _ (VStr s) =>
      if existsb (String.eqb s) (snd <$> members)
      then Ok (VEnum qual s) else Raise ValueError
  | VEnum c s =>
      if String.eqb c qual && existsb (String.eqb s) (snd <$> members)
      then Ok json else Raise ValueError
  | _ => Raise ValueError
  end.

(** [cls(json)] of a class derived from a built-in type; [bool] and
    [typing.Any] give no class that can be instantiated this way *)
Definition alias_new (qual superclass : string) (json : value) : result value :=
  match superclass with
  | "list" => l ← iterate json; Ok (VNew qual (VList l))
  | "int" => VNew qual <$> construct CdpPrimitiveType.integer json
  | "float" => VNew qual <$> construct CdpPrimitiveType.number json
  | "str" => VNew qual <$> construct CdpPrimitiveType.string_t json
  | "dict" => VNew qual <$> construct CdpPrimitiveType.object json
  | _ => Raise TypeError
  end.

Definition dataclass_to_json (to_json : list stmt) (self : value) : result value :=
  rho ← exec_all reg modname [("json", VDict []); ("self", self)] to_json;
  read "json" rho.

Definition dataclass_from_json (qual : string) (fields : list decl)
  (from_json : list (string * expr)) (json : value) : result value :=
  kwargs ← traverse
    (fun ke => v ← eval reg modname [("json", json)] ke.2; Ok (ke.1, v)) from_json;
  VObj qual <$> bind_args fields kwargs.

(** The class that a definition in module [modname] creates *)
Definition class_sem (def : class_def) : class :=
  match def with
  | EnumDef name members =>
      {| cls_to_json := fun self =>
           match self with
           | VEnum _ v => Ok (VStr v)
           | _ => Raise AttributeError
           end;
         cls_from_json := enum_lookup (modname +:+ "." +:+ name) members |}
  | DataclassDef name fields to_json from_json =>
      {| cls_to_json := dataclass_to_json to_json;
         cls_from_json :=
           dataclass_from_json (modname +:+ "." +:+ name) fields from_json |}
  | AliasDef name superclass _ =>
      {| cls_to_json := fun self => Ok self;
         cls_from_json := alias_new (modname +:+ "." +:+ name) superclass |}
  end.

(** [cls.from_json(json)] of an event class of module [modname] *)
Definition event_from_json (ev : event_def) (json : value) : result value :=
  dataclass_from_json (modname +:+ "." +:+ ev_name ev) (ev_fields ev)
    (ev_from_json ev) json.

Definition request (fn : function_def) (rho : env) : result value :=
  if fn_has_params fn
  then params ← read "params" rho;
       Ok (VDict [("method", VStr (fn_method fn)); ("params", params)])
  else Ok (VDict [("method", VStr (fn_method fn))]).

(** The decoding rule of a field, applied to a mapping *)
Definition decoded `{Naming} (p : CdpProperty.t) (json : value) : result value :=
  e ← CdpProperty.generate_from_json p "json";
  eval reg modname [("json", json)] e.


Definition finish (fn : function_def) (rho : env) : result value :=
  match fn_return fn with
  | RNone => Ok VNone
  | ROne e => eval reg modname rho e
  | RTuple es => VTuple <$> traverse (eval reg modname rho) es
  end.

(** Calling the generated function with keyword arguments *)
Definition call (fn : function_def) (kwargs : list (string * value)) : coroutine :=
  match
    rho ← bind_args (fn_params fn) kwargs;
    rho ← exec_all reg modname
            (if fn_has_params fn then ("params", VDict []) :: rho else rho)
            (fn_assigns fn);
    cmd_dict ← request fn rho;
    Ok (rho, cmd_dict)
  with
  | Ok (rho, cmd_dict) =>
      Yield cmd_dict (fun json => Done (finish fn (("json", json) :: rho)))
  | Raise e => Done (Raise e)
  end.

End Semantics.

End Runtime.

(** ** Statements about the schema patches *)

(** What each patch looks for is not there *)
Definition target_absent (d : CdpDomain.t) : Prop :=
  (CdpDomain.domain d = "DOM" ->
   Forall (fun cmd => CdpCommand.name cmd <> "resolveNode") (CdpDomain.commands d))
  /\ (CdpDomain.domain d = "Page" ->
      Forall (fun ev => CdpEvent.name ev <> "screencastVisibilityChanged")
        (CdpDomain.events d))
  /\ (CdpDomain.domain d = "Network" ->
      Forall (fun ty => CdpType.id ty = "Cookie" ->
                        Forall (fun p => CdpProperty.name p <> "expires")
                          (CdpType.properties ty))
        (CdpDomain.types d)).

(** What patches 1 and 2 read is there *)
Definition target_complete (d : CdpDomain.t) : Prop :=
  (CdpDomain.domain d = "DOM" ->
   Forall (fun cmd => CdpCommand.name cmd = "resolveNode" ->
                      2 <= length (CdpCommand.parameters cmd))
     (CdpDomain.commands d))
  /\ (CdpDomain.domain d = "Page" ->
      Forall (fun ev => CdpEvent.name ev = "screencastVisibilityChanged" ->
                        CdpEvent.description ev <> None)
        (CdpDomain.events d)).

(** ** The references that a domain mentions

    Every [$ref] of the description of a domain, written down without
    looking at the generator: the reference of a property and the one of
    its items, over the properties of the types, the parameters and
    returns of the commands and the parameters of the events, and the
    reference of the items of a type. *)

Definition property_mentions (p : CdpProperty.t) (r : string) : Prop :=
  truthy (CdpProperty.ref p) = Some r
  \/ exists its, CdpProperty.items p = Some its /\ truthy (CdpItems.ref its) = Some r.

Definition type_mentions (ty : CdpType.t) (r : string) : Prop :=
  (exists p, p ∈ CdpType.properties ty /\ property_mentions p r)
  \/ exists its, CdpType.items ty = Some its /\ truthy (CdpItems.ref its) = Some r.

Definition mentions (d : CdpDomain.t) (r : string) : Prop :=
  (exists ty, ty ∈ CdpDomain.types d /\ type_mentions ty r)
  \/ (exists cmd p, cmd ∈ CdpDomain.commands d
                    /\ p ∈ CdpCommand.parameters cmd ++ CdpCommand.returns cmd
                    /\ property_mentions p r)
  \/ (exists ev p, ev ∈ CdpDomain.events d /\ p ∈ CdpEvent.parameters ev
                   /\ property_mentions p r).

(** The shapes of the data model: a property is a reference or a list,
    not both; a type is an enumeration, a record or an alias. *)
Definition one_shape (p : CdpProperty.t) : Prop :=
  forall its r, CdpProperty.items p = Some its ->
                truthy (CdpItems.ref its) = Some r ->
                truthy (CdpProperty.ref p) = None.

Definition one_shape_type (ty : CdpType.t) : Prop :=
  Forall one_shape (CdpType.properties ty)
  /\ (CdpType.properties ty <> [] -> CdpType.items ty = None)
  /\ (forall v vs, CdpType.enum ty = Some (v :: vs) ->
                   CdpType.properties ty = [] /\ CdpType.items ty = None).

Definition well_shaped (d : CdpDomain.t) : Prop :=
  Forall one_shape_type (CdpDomain.types d)
  /\ Forall (fun cmd => Forall one_shape
                          (CdpCommand.parameters cmd ++ CdpCommand.returns cmd))
       (CdpDomain.commands d)
  /\ Forall (fun ev => Forall one_shape (CdpEvent.parameters ev)) (CdpDomain.events d).


(** ** Legal values

    The values that a field may hold, relative to the known instances
    of the classes: a value of the declared primitive kind, an instance
    of the referenced class, or a list of these; [None] as well when the
    field is optional. *)

Module Legal.
Import Py.

Definition of_kind (c : CdpPrimitiveType.t) (v : value) : Prop :=
  match c, v with
  | CdpPrimitiveType.boolean, VBool _
  | CdpPrimitiveType.integer, VInt _
  | CdpPrimitiveType.number, VFloat _
  | CdpPrimitiveType.object, VDict _
  | CdpPrimitiveType.string_t, VStr _ => True
  | _, _ => False
  end.

(** [any] admits every value *)
Definition primitive (cdp_type : option string) (v : value) : Prop :=
  if CdpPrimitiveType.is_any cdp_type then True
  else exists c, CdpPrimitiveType.lookup cdp_type = Ok c /\ of_kind c v.

(** An instance of the class [cls] that the class writes out and
    reads back *)
Definition instance (reg : registry) (cls : string) (v : value) : Prop :=
  class_of v = Some cls
  /\ exists c j, reg cls = Some c /\ cls_to_json c v = Ok j
                 /\ j <> VNone /\ cls_from_json c j = Ok v.

Section Legal.
Context `{Naming}.
Variable known : string -> value -> Prop.       (* the instances of a class *)
Variable modname : string.

Definition present (p : CdpProperty.t) (v : value) : Prop :=
  match CdpProperty.items p with
  | Some its =>
      match truthy (CdpItems.ref its) with
      | Some r =>
          exists py_ref l,
            ref_to_python_domain r (CdpProperty.domain p) = Ok py_ref
            /\ v = VList l /\ Forall (known (qualify modname py_ref)) l
      | None => exists l, v = VList l /\ Forall (primitive (CdpItems.type its)) l
      end
  | None =>
      match truthy (CdpProperty.ref p) with
      | Some r =>
          exists py_ref,
            ref_to_python_domain r (CdpProperty.domain p) = Ok py_ref
            /\ known (qualify modname py_ref) v
      | None => primitive (CdpProperty.type p) v
      end
  end.

Definition field (p : CdpProperty.t) (v : value) : Prop :=
  if CdpProperty.optional p then v = VNone \/ present p v else present p v.

(** The attributes of a dataclass instance, or the arguments of a
    call: one legal value per member, under its Python name *)
Definition members (ps : list CdpProperty.t) (kvs : list (string * value)) : Prop :=
  Forall2 (fun p kv => kv.1 = CdpProperty.py_name p /\ field p kv.2) ps kvs.

End Legal.

End Legal.


(** The shapes of the decoder of a field: what [generate_from_json] can
    return for a property that is not optional *)
Inductive decoder (dict_ name : string) : Py.expr -> Prop :=
| decoder_list_ref cls :
    decoder dict_ name
      (Py.EListComp (Py.EFromJson cls (Py.EName "i")) "i" (Py.EItem (Py.EName dict_) name))
| decoder_list_cons c :
    decoder dict_ name
      (Py.EListComp (Py.ECons c (Py.EName "i")) "i" (Py.EItem (Py.EName dict_) name))
| decoder_list_any :
    decoder dict_ name
      (Py.EListComp (Py.EName "i") "i" (Py.EItem (Py.EName dict_) name))
| decoder_ref cls :
    decoder dict_ name (Py.EFromJson cls (Py.EItem (Py.EName dict_) name))
| decoder_cons c :
    decoder dict_ name (Py.ECons c (Py.EItem (Py.EName dict_) name))
| decoder_any :
    decoder dict_ name (Py.EItem (Py.EName dict_) name).

(** ** Statements about the documentation text *)

(** A run of word characters, and a text that does not go on with one *)
Definition word (s : string) : Prop :=
  forallb Str.is_word (list_ascii_of_string s) = true.

Definition no_word_ahead (s : string) : Prop :=
  match s with
  | EmptyString => True
  | String a _ => Str.is_word a = false
  end.

(** The character [c] is in nothing that the scan has read *)
Definition scan_clean (c : ascii) (st : backtick_scan) : Prop :=
  match st with
  | Outside => True
  | Inside inner => Str.contains c inner = false
  | Behind inner trailer =>
      Str.contains c inner = false /\ Str.contains c trailer = false
  end.

(** ** Examples *)

Module Scenario.

(** No conversion of a foreign value happens in the examples. *)
Definition builtins : Py.Builtins := Py.Build_Builtins (fun _ _ => Raise TypeError).

Definition no_classes : Py.registry := fun _ => None.

Definition primitive (name type : string) (optional : bool) (domain : string)
  : CdpProperty.t :=
  CdpProperty.mk name None (Some type) None None None optional false false domain.

Definition reference (name ref : string) (optional : bool) (domain : string)
  : CdpProperty.t :=
  CdpProperty.mk name None None (Some ref) None None optional false false domain.

(** Domain [Foo]: the record [Bar] with an integer [x] and an optional
    string [y] *)
Definition x : CdpProperty.t := primitive "x" "integer" false "Foo".
Definition y : CdpProperty.t := primitive "y" "string" true "Foo".
Definition Bar : CdpType.t := CdpType.mk "Bar" None "object" None None [x; y].

(** A record that lists an optional field first *)
Definition Mixed : CdpType.t :=
  CdpType.mk "Mixed" None "object" None None
    [primitive "note" "string" true "Foo"; primitive "width" "integer" false "Foo";
     primitive "tag" "string" true "Foo"; primitive "height" "integer" false "Foo"].

(** The command [Foo.doThing] with an integer [a] and an optional string [b] *)
Definition a : CdpProperty.t := primitive "a" "integer" false "Foo".
Definition b : CdpProperty.t := primitive "b" "string" true "Foo".
Definition doThing : CdpCommand.t :=
  CdpCommand.mk "doThing" None false false [a; b] [] "Foo".

(** A command that lists an optional parameter first and returns two values *)
Definition measure : CdpCommand.t :=
  CdpCommand.mk "measure" None false false
    [primitive "unit" "string" true "Foo"; primitive "nodeId" "integer" false "Foo"]
    [primitive "width" "integer" false "Foo"; primitive "label" "string" true "Foo"]
    "Foo".

(** Domain [B], whose command refers to the type [Widget] of domain [A] *)
Definition B : CdpDomain.t :=
  CdpDomain.mk "B" None false [] []
    [CdpCommand.mk "show" None false false [reference "widget" "A.Widget" false "B"] [] "B"]
    [].

(** Domain [Page], whose command refers to the type [Lower] of a domain
    named [page] *)
Definition Page : CdpDomain.t :=
  CdpDomain.mk "Page" None false [] []
    [CdpCommand.mk "show" None false false [reference "lower" "page.Lower" false "Page"] []
       "Page"]
    [].

(** Enumerations: one whose values get the same constant name, one whose
    values do not *)
Definition Mode : CdpType.t :=
  CdpType.mk "Mode" None "string" None (Some ["fooBar"; "foo_bar"]) [].
Definition Colour : CdpType.t :=
  CdpType.mk "Colour" None "string" None (Some ["red"; "darkBlue"]) [].

(** Domains [DOM]: [resolveNode] without parameters, and as the protocol
    has it *)
Definition DOM_bare : CdpDomain.t :=
  CdpDomain.mk "DOM" None false [] []
    [CdpCommand.mk "resolveNode" None false false [] [] "DOM"] [].
Definition DOM : CdpDomain.t :=
  CdpDomain.mk "DOM" None false [] []
    [CdpCommand.mk "resolveNode" None false false
       [reference "nodeId" "NodeId" true "DOM";
        reference "backendNodeId" "DOM.BackendNodeId" true "DOM"] [] "DOM"] [].

(** Domain [Foo] as a whole: [Bar], the enumeration [Colour], and the
    record [Box] that holds a [Bar] and a list of [Colour]s *)
Definition Box : CdpType.t :=
  CdpType.mk "Box" None "object" None None
    [reference "bar" "Bar" false "Foo";
     CdpProperty.mk "colours" None (Some "array") None None
       (Some (CdpItems.mk None (Some "Foo.Colour"))) true false false "Foo"].

Definition Foo : CdpDomain.t :=
  CdpDomain.mk "Foo" None false [] [Bar; Colour; Box] [doThing; measure] [].

Definition a_box : Py.value :=
  Py.VObj "foo.Box"
    [("bar", Py.VObj "foo.Bar" [("x", Py.VInt 3); ("y", Py.VNone)]);
     ("colours", Py.VList [Py.VEnum "foo.Colour" "red"])].

(** The generated declarations of the examples *)
Definition Bar_fields : list decl :=
  [Decl "x" "int" false; Decl "y" "typing.Optional[str]" true].

Definition Bar_to_json : list Py.stmt :=
  [Py.SSetItem "json" "x" (Py.EAttr (Py.EName "self") "x");
   Py.SIfNotNone (Py.EAttr (Py.EName "self") "y")
     (Py.SSetItem "json" "y" (Py.EAttr (Py.EName "self") "y"))].

Definition Bar_from_json : list (string * Py.expr) :=
  [("x", Py.ECons CdpPrimitiveType.integer (Py.EItem (Py.EName "json") "x"));
   ("y", Py.EIfNotNone
           (Py.ECons CdpPrimitiveType.string_t (Py.EItem (Py.EName "json") "y"))
           (Py.EGet (Py.EName "json") "y"))].

Definition do_thing : function_def :=
  {| fn_deprecated := false;
     fn_name := "do_thing";
     fn_params := [Decl "a" "int" false; Decl "b" "typing.Optional[str]" true];
     fn_ret_type := "typing.Generator[T_JSON_DICT,T_JSON_DICT,None]";
     fn_has_params := true;
     fn_assigns :=
       [Py.SSetItem "params" "a" (Py.EName "a");
        Py.SIfNotNone (Py.EName "b") (Py.SSetItem "params" "b" (Py.EName "b"))];
     fn_method := "Foo.doThing";
     fn_return := RNone |}.

Definition measure_fn : function_def :=
  {| fn_deprecated := false;
     fn_name := "measure";
     fn_params := [Decl "node_id" "int" false; Decl "unit" "typing.Optional[str]" true];
     fn_ret_type :=
       "typing.Generator[T_JSON_DICT,T_JSON_DICT,typing.Tuple[int, typing.Optional[str]]]";
     fn_has_params := true;
     fn_assigns :=
       [Py.SIfNotNone (Py.EName "unit") (Py.SSetItem "params" "unit" (Py.EName "unit"));
        Py.SSetItem "params" "nodeId" (Py.EName "node_id")];
     fn_method := "Foo.measure";
     fn_return :=
       RTuple
         [Py.ECons CdpPrimitiveType.integer (Py.EItem (Py.EName "json") "width");
          Py.EIfNotNone
            (Py.ECons CdpPrimitiveType.string_t (Py.EItem (Py.EName "json") "label"))
            (Py.EGet (Py.EName "json") "label")] |}.



(** Domain [Shop]: a record that refers to a type of the domain [Foo] and
    to a list of a type of its own, a deprecated command, and the event
    [noteChanged] *)
Definition Cart : CdpType.t :=
  CdpType.mk "Cart" None "object" None None
    [reference "owner" "Foo.Bar" false "Shop";
     CdpProperty.mk "items" None (Some "array") None None
       (Some (CdpItems.mk None (Some "Shop.Item"))) false false false "Shop"].

Definition Shop : CdpDomain.t :=
  CdpDomain.mk "Shop" None false [] [Cart]
    [CdpCommand.mk "close" None false true [] [] "Shop"]
    [CdpEvent.mk "noteChanged" None true false
       [primitive "y" "string" true "Shop"] "Shop"].

(** Domain [Network] with the record [Cookie] *)
Definition expires : CdpProperty.t := primitive "expires" "number" false "Network".
Definition Cookie : CdpType.t :=
  CdpType.mk "Cookie" None "object" None None
    [primitive "name" "string" false "Network"; expires].
Definition Network : CdpDomain.t :=
  CdpDomain.mk "Network" None false [] [Cookie] [] [].

(** A type that is a list of strings, and a property of a type that the
    protocol does not have *)
Definition ArrayOfStrings : CdpType.t :=
  CdpType.mk "ArrayOfStrings" None "array"
    (Some (CdpItems.mk (Some "string") None)) None [].
Definition blob : CdpProperty.t := primitive "blob" "binary" false "Foo".

(** The description of a domain with the record [Bar], as read from JSON,
    and one without the name of a type *)
Definition Bar_json : Json.t :=
  Json.JObject
    [("id", Json.JString "Bar"); ("type", Json.JString "object");
     ("properties",
      Json.JArray
        [Json.JObject [("name", Json.JString "x"); ("type", Json.JString "integer")];
         Json.JObject [("name", Json.JString "y"); ("type", Json.JString "string");
                       ("optional", Json.JBool true)]])].
Definition Foo_json : Json.t :=
  Json.JObject [("domain", Json.JString "Foo"); ("types", Json.JArray [Bar_json])].
Definition nameless_json : Json.t :=
  Json.JObject
    [("domain", Json.JString "Foo");
     ("types", Json.JArray [Json.JObject [("type", Json.JString "object")]])].

(** The description of a domain whose record refers to a type of the
    domain [Foo] and to a type of its own *)
Definition Shop_json : Json.t :=
  Json.JObject
    [("domain", Json.JString "Shop");
     ("types",
      Json.JArray
        [Json.JObject
           [("id", Json.JString "Cart"); ("type", Json.JString "object");
            ("properties",
             Json.JArray
               [Json.JObject [("name", Json.JString "owner");
                              ("$ref", Json.JString "Foo.Bar")];
                Json.JObject [("name", Json.JString "item");
                              ("$ref", Json.JString "Shop.Item")]])]])].

(** A property with a description of two lines *)
Definition documented : CdpProperty.t :=
  CdpProperty.mk "nodeId"
    (Some ("Id of the `Node`s." +:+ Str.nl +:+ "See |DOM|."))
    (Some "integer") None None None true false true "Foo".

End Scenario.

(** ** The generated package

    The classes of all generated modules, as Python's imports make them
    reachable: the class of a type is known under the qualified name
    [module.Type], and a later definition of a name replaces an earlier
    one.  The methods of a class call the methods of other classes, so
    the classes are built in rounds: a class of round [n + 1] calls the
    classes of round [n]. *)

Module Package.
Import Py.


Section Package.
Context `{Naming} `{Builtins}.
Variable domains : list CdpDomain.t.

Definition classes : list (string * (string * CdpType.t)) :=
  flat_map
    (fun d => (fun ty => (CdpDomain.module d +:+ "." +:+ CdpType.id ty,
                          (CdpDomain.module d, ty))) <$> CdpDomain.types d)
    domains.

Definition find_class (qual : string) : option (string * CdpType.t) :=
  assoc qual (reverse classes).

Fixpoint load (n : nat) : registry :=
  match n with
  | O => fun _ => None
  | S n' => fun qual =>
      match find_class qual with
      | Some (m, ty) =>
          match CdpType.generate_code ty with
          | Ok def => Some (Runtime.class_sem (load n') m def)
          | Raise _ => None
          end
      | None => None
      end
  end.


End Package.

End Package.

(** * Properties *)

(** ** Results *)

Lemma bind_Ok {A B : Type} (m : result A) (f : A -> result B) (b : B) :
  m ≫= f = Ok b -> exists a, m = Ok a /\ f a = Ok b.
Proof. destruct m as [a|e]; simpl; [eauto | discriminate]. Qed.

Lemma fmap_Ok {A B : Type} (m : result A) (f : A -> B) (b : B) :
  f <$> m = Ok b -> exists a, m = Ok a /\ b = f a.
Proof. destruct m as [a|e]; simpl; [intros [= <-]; eauto | discriminate]. Qed.

Ltac inv_result :=
  repeat match goal with
    | H : Ok _ = Ok _ |- _ => injection H as H; subst
    | H : Raise _ = Ok _ |- _ => discriminate H
    | H : Ok _ = Raise _ |- _ => discriminate H
    | H : _ ≫= _ = Ok _ |- _ =>
        let a := fresh "a" in
        let Ha := fresh "Ha" in
        apply bind_Ok in H as (a & Ha & H)
    | H : _ <$> _ = Ok _ |- _ =>
        let a := fresh "a" in
        let Ha := fresh "Ha" in
        apply fmap_Ok in H as (a & Ha & H)
    end.

(** Run the monad and the total operations, leave the evaluator folded *)
Ltac rsimpl :=
  cbn [mbind result_bind fmap result_fmap mret result_ret
       Py.iterate Py.is_none default from_option].
Tactic Notation "rsimpl" "in" hyp(H) :=
  cbn [mbind result_bind fmap result_fmap mret result_ret
       Py.iterate Py.is_none default from_option] in H.

Lemma traverse_Ok {A B : Type} (f : A -> result B) (l : list A) (r : list B) :
  traverse f l = Ok r <-> Forall2 (fun x y => f x = Ok y) l r.
Proof.
  revert r. induction l as [|x l IH]; intros r; simpl.
  - split; [intros [= <-]; constructor | by inversion 1].
  - split.
    + intros Hr. inv_result. constructor; [done | by apply IH].
    + inversion 1 as [|? y ? ys Hx Hl]; subst.
      rewrite Hx. simpl. apply IH in Hl. by rewrite Hl.
Qed.

Lemma traverse_total {A B : Type} (f : A -> B) (l : list A) :
  traverse (fun x => Ok (f x)) l = Ok (f <$> l).
Proof. induction l as [|x l IH]; simpl; [done | by rewrite IH]. Qed.

Lemma traverse_ext {A B : Type} (f g : A -> result B) (l : list A) :
  Forall (fun x => f x = g x) l -> traverse f l = traverse g l.
Proof.
  induction 1 as [|x l Hx _ IH]; simpl; [done | by rewrite Hx, IH].
Qed.

(** ** The stable sort on a two-valued key *)

Section Partition.
Context {A : Type} (f : A -> bool).

Lemma insert_by_front (x : A) (l : list A) :
  f x = false -> insert_by (fun a => Nat.b2n (f a)) x l = x :: l.
Proof. intros Hx. destruct l as [|y l]; simpl; [done | by rewrite Hx]. Qed.

Lemma insert_by_behind (x : A) (l1 l2 : list A) :
  f x = true ->
  Forall (fun a => f a = false) l1 ->
  Forall (fun a => f a = true) l2 ->
  insert_by (fun a => Nat.b2n (f a)) x (l1 ++ l2) = l1 ++ x :: l2.
Proof.
  intros Hx H1 H2. induction H1 as [|y l1 Hy _ IH]; simpl.
  - destruct H2 as [|z l2 Hz _]; simpl; [done | by rewrite Hx, Hz].
  - by rewrite Hx, Hy, IH.
Qed.

Lemma sorted_by_flag (l : list A) :
  sorted_by (fun a => Nat.b2n (f a)) l = by_flag f l.
Proof.
  unfold sorted_by, by_flag. induction l as [|x l IH]; simpl; [done|].
  rewrite IH. destruct (f x) eqn:Hx; simpl.
  - apply insert_by_behind; [done | |];
      apply List.Forall_forall; intros a [_ Ha]%filter_In;
      [by apply negb_true_iff | done].
  - by apply insert_by_front.
Qed.

End Partition.

(** C3.  The fields of a generated dataclass are declared, and the
    parameters of a generated command function are listed, in the order
    that a stable partition by [optional] gives: every member that is not
    optional, in the order of the protocol description, then every
    optional member, in that order too.  Here [by_flag optional l] is
    [filter (not optional) l ++ filter optional l]. *)
Theorem declaration_order_stable_partition `{Naming} :
  (forall (ty : CdpType.t) name fields to_json from_json,
      CdpType.generate_class_code ty = Ok (DataclassDef name fields to_json from_json) ->
      Forall2 (fun p d => CdpProperty.generate_decl p = Ok d
                          /\ decl_default_none d = CdpProperty.optional p)
        (List.filter (fun p => negb (CdpProperty.optional p)) (CdpType.properties ty)
           ++ List.filter CdpProperty.optional (CdpType.properties ty))
        fields)
  /\ (forall (cmd : CdpCommand.t) fn,
      CdpCommand.generate_code cmd = Ok fn ->
      Forall2 (fun p d => CdpParameter.generate_code p = Ok d
                          /\ decl_default_none d = CdpProperty.optional p)
        (List.filter (fun p => negb (CdpProperty.optional p)) (CdpCommand.parameters cmd)
           ++ List.filter CdpProperty.optional (CdpCommand.parameters cmd))
        (fn_params fn)).
Proof.
  split.
  - intros ty name fields to_json from_json Hgen.
    unfold CdpType.generate_class_code in Hgen.
    rewrite sorted_by_flag in Hgen. inv_result.
    apply traverse_Ok in Ha. fold (by_flag CdpProperty.optional (CdpType.properties ty)).
    eapply Forall2_impl; [exact Ha|]. intros p d Hd. split; [done|].
    unfold CdpProperty.generate_decl in Hd. by inv_result.
  - intros cmd fn Hgen. unfold CdpCommand.generate_code in Hgen. inv_result. simpl.
    assert (traverse CdpParameter.generate_code
              (by_flag CdpProperty.optional (CdpCommand.parameters cmd)) = Ok a0) as Hsig.
    { destruct (CdpCommand.parameters cmd) as [|p ps] eqn:Hps; [done|].
      rewrite <- Ha0, <- sorted_by_flag. done. }
    apply traverse_Ok in Hsig. eapply Forall2_impl; [exact Hsig|].
    intros p d Hd. split; [done|].
    unfold CdpParameter.generate_code in Hd. by inv_result.
Qed.

(** ** Dotted references *)

Lemma contains_app (c : ascii) (s1 s2 : string) :
  Str.contains c (s1 +:+ s2) = Str.contains c s1 || Str.contains c s2.
Proof.
  induction s1 as [|a s1 IH]; simpl; [done|]. by destruct (Ascii.eqb a c).
Qed.

Lemma split_no_sep (c : ascii) (s : string) :
  Str.contains c s = false -> Str.split c s = [s].
Proof.
  induction s as [|a s IH]; simpl; [done|].
  destruct (Ascii.eqb a c); [done|]. intros Hs. by rewrite IH.
Qed.

Lemma split_app (c : ascii) (s1 s2 : string) :
  Str.contains c s1 = false ->
  Str.split c (s1 +:+ String c s2) = s1 :: Str.split c s2.
Proof.
  induction s1 as [|a s1 IH]; simpl.
  - by rewrite Ascii.eqb_refl.
  - destruct (Ascii.eqb a c); [done|]. intros Hs. by rewrite IH.
Qed.

Lemma split_qualified (d ty : string) :
  Str.contains "." d = false -> Str.contains "." ty = false ->
  Str.split "." (d +:+ "." +:+ ty) = [d; ty].
Proof.
  intros Hd Hty. change ("." +:+ ty) with (String "." ty).
  by rewrite split_app, split_no_sep.
Qed.

Lemma prefix_cons (a b : ascii) (p s : string) :
  String.prefix (String a p) (String b s) = Ascii.eqb a b && String.prefix p s.
Proof.
  change (String.prefix (String a p) (String b s))
    with (if ascii_dec a b then String.prefix p s else false).
  destruct (ascii_dec a b) as [->|Hne].
  - by rewrite Ascii.eqb_refl.
  - apply Ascii.eqb_neq in Hne. by rewrite Hne.
Qed.

Lemma prefix_contains (c : ascii) (p s : string) :
  String.prefix p s = true -> Str.contains c p = true -> Str.contains c s = true.
Proof.
  revert s. induction p as [|a p IH]; intros [|b s]; try done.
  rewrite prefix_cons. intros [Hab Hp]%andb_true_iff.
  apply Ascii.eqb_eq in Hab as ->. simpl.
  destruct (Ascii.eqb b c); [done | by apply IH].
Qed.

Lemma startswith_own (d ty : string) :
  Str.startswith (d +:+ ".") (d +:+ "." +:+ ty) = true.
Proof.
  unfold Str.startswith. induction d as [|a d IH].
  { change (String.prefix (String "." "") (String "." ty) = true).
    rewrite prefix_cons. by destruct ty. }
  change (String.prefix (String a (d +:+ ".")) (String a (d +:+ "." +:+ ty)) = true).
  by rewrite prefix_cons, Ascii.eqb_refl.
Qed.

Lemma drop_own (d ty : string) :
  Str.drop (String.length d + 1) (d +:+ "." +:+ ty) = ty.
Proof.
  rewrite Nat.add_1_r. induction d as [|a d IH]; simpl; [by destruct ty | done].
Qed.

Lemma startswith_foreign (d d' ty : string) :
  Str.contains "." d' = false -> Str.contains "." ty = false -> d' <> d ->
  Str.startswith (d +:+ ".") (d' +:+ "." +:+ ty) = false.
Proof.
  unfold Str.startswith. intros Hd' Hty. revert d' Hd'.
  induction d as [|a d IH]; intros [|b d'] Hd' Hne; try done.
  - change (String.prefix (String "." "") (String b (d' +:+ "." +:+ ty)) = false).
    rewrite prefix_cons. simpl in Hd'. rewrite Ascii.eqb_sym.
    by destruct (Ascii.eqb b ".").
  - change (String.prefix (String a (d +:+ ".")) (String "." ty) = false).
    rewrite prefix_cons. apply andb_false_iff. right.
    destruct (String.prefix (d +:+ ".") ty) eqn:Hp; [|done].
    apply (prefix_contains ".") in Hp; [congruence|].
    rewrite contains_app. simpl. by rewrite orb_true_r.
  - change (String.prefix (String a (d +:+ ".")) (String b (d' +:+ "." +:+ ty)) = false).
    rewrite prefix_cons. simpl in Hd'.
    destruct (Ascii.eqb b ".") eqn:Hb; [done|].
    destruct (Ascii.eqb a b) eqn:Hab; [|done].
    apply Ascii.eqb_eq in Hab as ->. apply IH; [done | congruence].
Qed.

(** The resolver of [CdpProperty]: a reference into another domain keeps
    its qualifier, in module form; a reference into the current domain
    loses it. *)
Lemma ref_to_python_domain_foreign `{Naming} (d d' ty : string) :
  Str.contains "." d' = false -> Str.contains "." ty = false -> d' <> d ->
  ref_to_python_domain (d' +:+ "." +:+ ty) d = Ok (snake_case d' +:+ "." +:+ ty).
Proof.
  intros Hd' Hty Hne. unfold ref_to_python_domain, ref_to_python.
  rewrite startswith_foreign by done.
  rewrite contains_app. simpl. rewrite orb_true_r.
  by rewrite split_qualified.
Qed.

Lemma ref_to_python_domain_own `{Naming} (d ty : string) :
  Str.contains "." ty = false ->
  ref_to_python_domain (d +:+ "." +:+ ty) d = Ok ty.
Proof.
  intros Hty. unfold ref_to_python_domain, ref_to_python.
  by rewrite startswith_own, drop_own, Hty.
Qed.

Lemma ref_to_python_qualified `{Naming} (d ty : string) :
  Str.contains "." d = false -> Str.contains "." ty = false ->
  ref_to_python (d +:+ "." +:+ ty) = Ok (snake_case d +:+ "." +:+ ty).
Proof.
  intros Hd Hty. unfold ref_to_python.
  rewrite contains_app. simpl. rewrite orb_true_r.
  by rewrite split_qualified.
Qed.

(** C7.  A command of domain [DOM] returns [nodeId], a reference
    [DOM.BackendNodeId] into its own domain.  The decoder of the return
    value and the annotation of a property drop the qualifier; the return
    annotation of the command and the parameter line of a call signature
    keep it, in module form. *)
Theorem own_domain_reference_in_command `{Naming} :
  let r := CdpProperty.mk "nodeId" None None (Some "DOM.BackendNodeId")
             None None false false false "DOM" in
  CdpReturn.py_annotation r = Ok (snake_case "DOM" +:+ ".BackendNodeId")
  /\ CdpParameter.generate_code r
     = Ok (Decl (snake_case "nodeId") (snake_case "DOM" +:+ ".BackendNodeId") false)
  /\ CdpProperty.py_annotation r = Ok "BackendNodeId"
  /\ CdpReturn.generate_return r "json"
     = Ok (Py.EFromJson "BackendNodeId" (Py.EItem (Py.EName "json") "nodeId"))
  /\ snake_case "DOM" +:+ ".BackendNodeId" <> "BackendNodeId".
Proof.
  repeat split; try reflexivity.
  intros Heq. apply (f_equal (Str.contains ".")) in Heq.
  rewrite contains_app in Heq. simpl in Heq. by rewrite orb_true_r in Heq.
Qed.

(** ** Enumerations *)

(** C8.  An enumeration type always compiles: the generator makes no
    check of the constant names.  It emits one constant per declared
    value, in the order of the declaration, named by the upper-cased
    snake-case form of the value and bound to the value.  When no two of
    the declared values share that form, the constant names are pairwise
    different. *)
Theorem enum_constants `{Naming} (ty : CdpType.t) (v : string) (vs : list string) :
  CdpType.enum ty = Some (v :: vs) ->
  let constant := fun w => Str.upper (snake_case w) in
  CdpType.generate_code ty
    = Ok (EnumDef (CdpType.id ty) ((fun w => (constant w, w)) <$> v :: vs))
  /\ (NoDup (v :: vs) ->
      (forall w1 w2, w1 ∈ v :: vs -> w2 ∈ v :: vs ->
                     constant w1 = constant w2 -> w1 = w2) ->
      NoDup (constant <$> v :: vs)).
Proof.
  intros Henum constant. split.
  - unfold CdpType.generate_code, CdpType.generate_enum_code. by rewrite Henum.
  - intros Hnd Hinj. apply NoDup_fmap_2_strong; [|done].
    intros w1 w2 H1 H2. by apply Hinj.
Qed.

(** ** The patches *)

Lemma patch_resolve_node_absent (cmds : list CdpCommand.t) :
  Forall (fun cmd => CdpCommand.name cmd <> "resolveNode") cmds ->
  patch_resolve_node cmds = Ok cmds.
Proof.
  induction 1 as [|cmd cmds Hcmd _ IH]; simpl; [done|].
  apply String.eqb_neq in Hcmd. by rewrite Hcmd, IH.
Qed.

Lemma patch_screencast_absent (events : list CdpEvent.t) :
  Forall (fun ev => CdpEvent.name ev <> "screencastVisibilityChanged") events ->
  patch_screencast events = Ok events.
Proof.
  induction 1 as [|ev events Hev _ IH]; simpl; [done|].
  apply String.eqb_neq in Hev. by rewrite Hev, IH.
Qed.

Lemma patch_expires_absent (props : list CdpProperty.t) :
  Forall (fun p => CdpProperty.name p <> "expires") props ->
  patch_expires props = props.
Proof.
  induction 1 as [|p props Hp _ IH]; simpl; [done|].
  apply String.eqb_neq in Hp. by rewrite Hp, IH.
Qed.

Lemma patch_cookie_absent (types : list CdpType.t) :
  Forall (fun ty => CdpType.id ty = "Cookie" ->
                    Forall (fun p => CdpProperty.name p <> "expires")
                      (CdpType.properties ty)) types ->
  patch_cookie <$> types = types.
Proof.
  induction 1 as [|ty types Hty _ IH]; [done|]. rewrite fmap_cons, IH. f_equal.
  unfold patch_cookie. destruct (String.eqb_spec (CdpType.id ty) "Cookie") as [Hid|]; [|done].
  rewrite patch_expires_absent by auto. by destruct ty.
Qed.

Lemma fix_domain_absent (d : CdpDomain.t) : target_absent d -> fix_domain d = Ok d.
Proof.
  intros (Hdom & Hpage & Hnet). unfold fix_domain.
  destruct (String.eqb_spec (CdpDomain.domain d) "DOM") as [Hd|_].
  { rewrite patch_resolve_node_absent by auto. by destruct d. }
  destruct (String.eqb_spec (CdpDomain.domain d) "Page") as [Hd|_].
  { rewrite patch_screencast_absent by auto. by destruct d. }
  destruct (String.eqb_spec (CdpDomain.domain d) "Network") as [Hd|_]; [|done].
  rewrite patch_cookie_absent by auto. by destruct d.
Qed.

Lemma patch_resolve_node_complete (cmds : list CdpCommand.t) :
  Forall (fun cmd => CdpCommand.name cmd = "resolveNode" ->
                     2 <= length (CdpCommand.parameters cmd)) cmds ->
  exists cmds', patch_resolve_node cmds = Ok cmds'.
Proof.
  induction 1 as [|cmd cmds Hcmd _ [cmds' IH]]; simpl; [by eexists|].
  destruct (String.eqb_spec (CdpCommand.name cmd) "resolveNode") as [Hn|_].
  - destruct (lookup_lt_is_Some_2 (CdpCommand.parameters cmd) 1) as [p ->];
      [specialize (Hcmd Hn); lia | by eexists].
  - rewrite IH. by eexists.
Qed.

Lemma patch_screencast_complete (events : list CdpEvent.t) :
  Forall (fun ev => CdpEvent.name ev = "screencastVisibilityChanged" ->
                    CdpEvent.description ev <> None) events ->
  exists events', patch_screencast events = Ok events'.
Proof.
  induction 1 as [|ev events Hev _ [events' IH]]; simpl; [by eexists|].
  destruct (String.eqb_spec (CdpEvent.name ev) "screencastVisibilityChanged") as [Hn|_].
  - destruct (CdpEvent.description ev); [by eexists | by destruct Hev].
  - rewrite IH. by eexists.
Qed.

Lemma fix_domain_complete (d : CdpDomain.t) :
  target_complete d -> exists d', fix_domain d = Ok d'.
Proof.
  intros (Hdom & Hpage). unfold fix_domain.
  destruct (String.eqb_spec (CdpDomain.domain d) "DOM") as [Hd|_].
  { destruct (patch_resolve_node_complete (CdpDomain.commands d)) as [? ->]; [auto|].
    by eexists. }
  destruct (String.eqb_spec (CdpDomain.domain d) "Page") as [Hd|_].
  { destruct (patch_screencast_complete (CdpDomain.events d)) as [? ->]; [auto|].
    by eexists. }
  destruct (String.eqb (CdpDomain.domain d) "Network"); by eexists.
Qed.

(** C9.  The patches go through without an exception on every list of
    domains in which each [resolveNode] command of a domain [DOM] has at
    least two parameters and each [screencastVisibilityChanged] event of a
    domain [Page] has a description.  On a list in which no domain holds
    what its patch looks for, they change nothing. *)
Theorem fix_protocol_spec_safe (domains : list CdpDomain.t) :
  (Forall target_complete domains ->
   exists domains', fix_protocol_spec domains = Ok domains')
  /\ (Forall target_absent domains -> fix_protocol_spec domains = Ok domains).
Proof.
  unfold fix_protocol_spec. split.
  - induction 1 as [|d domains Hd _ [domains' IH]]; simpl; [by eexists|].
    destruct (fix_domain_complete d Hd) as [d' ->]. simpl. rewrite IH. by eexists.
  - induction 1 as [|d domains Hd _ IH]; simpl; [done|].
    by rewrite (fix_domain_absent d Hd), IH.
Qed.

(** ** Imports *)

Lemma truthy_Some (o : option string) (r : string) :
  truthy o = Some r -> o = Some r.
Proof. destruct o as [[|a s]|]; simpl; congruence. Qed.

Lemma property_refs_sound (p : CdpProperty.t) (r : string) :
  r ∈ CdpProperty.get_refs p -> property_mentions p r.
Proof.
  unfold CdpProperty.get_refs, property_mentions.
  destruct (CdpProperty.items p) as [its|].
  - destruct (truthy (CdpItems.ref its)) as [r'|] eqn:Hits.
    + intros ->%elem_of_singleton. right. by exists its.
    + destruct (truthy (CdpProperty.ref p)); set_solver.
  - destruct (truthy (CdpProperty.ref p)); set_solver.
Qed.


Lemma properties_refs_sound (ps : list CdpProperty.t) (r : string) :
  r ∈ ⋃ (CdpProperty.get_refs <$> ps) ->
  exists p, p ∈ ps /\ property_mentions p r.
Proof.
  intros (X & (p & -> & Hp)%list_elem_of_fmap & Hr)%elem_of_union_list.
  exists p. eauto using property_refs_sound.
Qed.


Lemma type_refs_sound (ty : CdpType.t) (r : string) :
  r ∈ CdpType.get_refs ty -> type_mentions ty r.
Proof.
  unfold CdpType.get_refs, type_mentions. intros Hr.
  assert (r ∈ ⋃ (CdpProperty.get_refs <$> CdpType.properties ty)
          \/ exists its, CdpType.items ty = Some its
                         /\ truthy (CdpItems.ref its) = Some r) as [Hp|Hits].
  { destruct (CdpType.enum ty) as [[|v vs]|]; [| set_solver |];
      (destruct (CdpType.properties ty) as [|p ps]; [|by left]);
      (destruct (CdpType.items ty) as [its|]; [|set_solver]);
      (destruct (truthy (CdpItems.ref its)) eqn:Hits; [|set_solver]);
      apply elem_of_singleton in Hr as ->; right; by exists its. }
  - left. by apply properties_refs_sound.
  - by right.
Qed.


Lemma refs_sound (d : CdpDomain.t) (r : string) :
  r ∈ CdpDomain.refs d -> mentions d r.
Proof.
  unfold CdpDomain.refs, mentions. rewrite !elem_of_union, !elem_of_union_list.
  intros [[(X & (ty & -> & Hty)%list_elem_of_fmap & Hr)
          |(X & (cmd & -> & Hcmd)%list_elem_of_fmap & Hr)]
         |(X & (ev & -> & Hev)%list_elem_of_fmap & Hr)].
  - left. exists ty. eauto using type_refs_sound.
  - right. left. apply properties_refs_sound in Hr as (p & Hp & Hr). by exists cmd, p.
  - right. right. apply properties_refs_sound in Hr as (p & Hp & Hr). by exists ev, p.
Qed.


Lemma dependency_of_Some `{Naming} (d : CdpDomain.t) (r m : string) :
  CdpDomain.dependency_of d r = Some m <->
  exists d' ty, Str.split "." r = [d'; ty] /\ d' <> CdpDomain.domain d
                /\ m = snake_case d'.
Proof.
  unfold CdpDomain.dependency_of. split.
  - destruct (Str.split "." r) as [|d' [|ty [|? ?]]]; try done.
    case_bool_decide; [|done]. intros [= <-]. by exists d', ty.
  - intros (d' & ty & -> & Hne & ->). by rewrite bool_decide_true.
Qed.


(** ** Decoding one field *)

Section Decode.
Import Py.
Context `{Naming} `{Builtins}.
Variable reg : registry.
Variable modname : string.

Lemma eval_item (rho : env) (dict_ name : string) (d : list (string * value)) :
  assoc dict_ rho = Some (VDict d) ->
  eval reg modname rho (EItem (EName dict_) name)
  = match assoc name d with Some v => Ok v | None => Raise (KeyError name) end.
Proof. intros Hd. simpl. by rewrite Hd. Qed.

Lemma eval_get (rho : env) (dict_ name : string) (d : list (string * value)) :
  assoc dict_ rho = Some (VDict d) ->
  eval reg modname rho (EGet (EName dict_) name) = Ok (default VNone (assoc name d)).
Proof. intros Hd. simpl. by rewrite Hd. Qed.

Lemma eval_if_not_none (rho : env) (e test : expr) :
  eval reg modname rho (EIfNotNone e test)
  = t ← eval reg modname rho test;
    if is_none t then Ok VNone else eval reg modname rho e.
Proof. done. Qed.

Lemma eval_list_comp (rho : env) (body it : expr) (x : string) :
  eval reg modname rho (EListComp body x it)
  = v ← eval reg modname rho it;
    l ← iterate v;
    VList <$> traverse (fun i => eval reg modname ((x, i) :: rho) body) l.
Proof. done. Qed.

Lemma eval_from_json (rho : env) (cls : string) (e : expr) :
  eval reg modname rho (EFromJson cls e)
  = match reg (qualify modname cls) with
    | Some c => v ← eval reg modname rho e; cls_from_json c v
    | None => Raise (NameError cls)
    end.
Proof. done. Qed.

Lemma eval_cons (rho : env) (c : CdpPrimitiveType.t) (e : expr) :
  eval reg modname rho (ECons c e) = v ← eval reg modname rho e; construct c v.
Proof. done. Qed.

Lemma from_json_shape (p : CdpProperty.t) (dict_ : string) (e : expr) :
  CdpProperty.generate_from_json p dict_ = Ok e ->
  exists e0,
    e = (if CdpProperty.optional p
         then EIfNotNone e0 (EGet (EName dict_) (CdpProperty.name p)) else e0)
    /\ decoder dict_ (CdpProperty.name p) e0.
Proof.
  unfold CdpProperty.generate_from_json, CdpProperty.get_constructor.
  intros He. apply bind_Ok in He as (e0 & He0 & [= <-]). exists e0. split; [done|].
  destruct (CdpProperty.items p) as [its|].
  - destruct (truthy (CdpItems.ref its)).
    + apply bind_Ok in He0 as (py_ref & _ & [= <-]). constructor.
    + apply bind_Ok in He0 as (body & Hbody & [= <-]).
      destruct (CdpPrimitiveType.is_any (CdpItems.type its)).
      * injection Hbody as <-. constructor.
      * apply bind_Ok in Hbody as (c & _ & [= <-]). constructor.
  - destruct (truthy (CdpProperty.ref p)).
    + apply bind_Ok in He0 as (py_ref & _ & [= <-]). constructor.
    + destruct (CdpPrimitiveType.is_any (CdpProperty.type p)).
      * injection He0 as <-. constructor.
      * apply bind_Ok in He0 as (c & _ & [= <-]). constructor.
Qed.

(** An optional field without a value in the mapping *)
Lemma optional_without_value (p : CdpProperty.t) (dict_ : string)
  (e : expr) (rho : env) (d : list (string * value)) :
  CdpProperty.optional p = true ->
  CdpProperty.generate_from_json p dict_ = Ok e ->
  assoc dict_ rho = Some (VDict d) ->
  assoc (CdpProperty.name p) d = Some VNone \/ assoc (CdpProperty.name p) d = None ->
  eval reg modname rho e = Ok VNone.
Proof.
  intros Hopt (e0 & -> & _)%from_json_shape Hd Hentry. rewrite Hopt.
  rewrite eval_if_not_none, (eval_get _ _ _ d Hd). by destruct Hentry as [-> | ->].
Qed.

(** C10.  The decoder of an optional property makes no difference between
    a mapping whose entry for the property is [None] and a mapping
    without the entry: on both it gives [None], whatever the kind of the
    property, with no exception and no call of a constructor. *)
Theorem optional_null_decodes_as_missing (p : CdpProperty.t) (dict_ : string)
  (e : expr) (rho rho' : env) (d d' : list (string * value)) :
  CdpProperty.optional p = true ->
  CdpProperty.generate_from_json p dict_ = Ok e ->
  assoc dict_ rho = Some (VDict d) ->
  assoc (CdpProperty.name p) d = Some VNone ->
  assoc dict_ rho' = Some (VDict d') ->
  assoc (CdpProperty.name p) d' = None ->
  eval reg modname rho e = Ok VNone /\ eval reg modname rho' e = Ok VNone.
Proof.
  intros Hopt He Hd Hnull Hd' Hmissing.
  split; eapply optional_without_value; eauto.
Qed.

Lemma required_missing_raises (p : CdpProperty.t) (dict_ : string)
  (e : expr) (rho : env) (d : list (string * value)) :
  CdpProperty.optional p = false ->
  CdpProperty.generate_from_json p dict_ = Ok e ->
  assoc dict_ rho = Some (VDict d) ->
  assoc (CdpProperty.name p) d = None ->
  eval reg modname rho e = Raise (KeyError (CdpProperty.name p))
  \/ exists cls arg, e = EFromJson cls arg /\ reg (qualify modname cls) = None
                     /\ eval reg modname rho e = Raise (NameError cls).
Proof.
  intros Hopt (e0 & -> & Hshape)%from_json_shape Hd Hentry. rewrite Hopt.
  pose proof (eval_item rho dict_ (CdpProperty.name p) d Hd) as Hitem.
  rewrite Hentry in Hitem.
  destruct Hshape as [cls|c| |cls|c|].
  - left. by rewrite eval_list_comp, Hitem.
  - left. by rewrite eval_list_comp, Hitem.
  - left. by rewrite eval_list_comp, Hitem.
  - rewrite eval_from_json. destruct (reg (qualify modname cls)) eqn:Hcls.
    + left. by rewrite Hitem.
    + right. by exists cls, (EItem (EName dict_) (CdpProperty.name p)).
  - left. by rewrite eval_cons, Hitem.
  - by left.
Qed.

End Decode.

Lemma traverse_Raise {A B : Type} (f : A -> result B) (l : list A) (x : A) :
  x ∈ l -> (exists exc, f x = Raise exc) -> exists exc, traverse f l = Raise exc.
Proof.
  intros Hx [exc Hexc]. induction l as [|y l IH]; [by apply elem_of_nil in Hx|].
  simpl. apply elem_of_cons in Hx as [<-|Hx].
  - rewrite Hexc. by eexists.
  - destruct (f y); [|by eexists]. simpl. destruct (IH Hx) as [exc' ->]. by eexists.
Qed.

Lemma elem_of_by_flag {A : Type} (f : A -> bool) (l : list A) (x : A) :
  x ∈ by_flag f l <-> x ∈ l.
Proof.
  unfold by_flag. rewrite elem_of_app, !list_elem_of_In, !filter_In.
  destruct (f x); simpl; intuition congruence.
Qed.

Lemma generate_class_code_Ok `{Naming} (ty : CdpType.t) name fields to_json from_json :
  CdpType.generate_class_code ty = Ok (DataclassDef name fields to_json from_json) ->
  let ps := by_flag CdpProperty.optional (CdpType.properties ty) in
  name = CdpType.id ty
  /\ Forall2 (fun p d => CdpProperty.generate_decl p = Ok d) ps fields
  /\ to_json = (fun p => CdpProperty.generate_to_json p "json" true) <$> ps
  /\ Forall2 (fun p ke => exists e, CdpProperty.generate_from_json p "json" = Ok e
                                    /\ ke = (CdpProperty.py_name p, e)) ps from_json.
Proof.
  unfold CdpType.generate_class_code. rewrite sorted_by_flag. intros Hgen.
  apply bind_Ok in Hgen as (decls & Hdecls & Hgen).
  apply bind_Ok in Hgen as (from_jsons & Hfrom & Hgen).
  injection Hgen as <- <- <- <-.
  apply traverse_Ok in Hdecls. apply traverse_Ok in Hfrom.
  repeat split; try done.
  eapply Forall2_impl; [exact Hfrom|]. intros p ke Hke.
  apply bind_Ok in Hke as (e & He & [= <-]). by exists e.
Qed.

Section MissingField.
Import Py.
Context `{Naming} `{Builtins}.
Variable reg : registry.
Variable modname : string.

(** C2.  When the input mapping has no entry for a field, the decoder
    of a field that is not optional raises [KeyError] for the key, and
    the decoder of an optional field gives [None].  (A decoder of the
    form [T.from_json(json['k'])] looks up the class [T] first, so [T]
    is taken to be defined.)  The [from_json] of a generated dataclass
    raises an exception whenever the entry of one of its fields that are
    not optional is missing. *)
Theorem missing_field_decoding :
  (forall (p : CdpProperty.t) (dict_ : string) (e : expr) (rho : env)
          (d : list (string * value)),
      CdpProperty.generate_from_json p dict_ = Ok e ->
      assoc dict_ rho = Some (VDict d) ->
      assoc (CdpProperty.name p) d = None ->
      (forall cls arg, e = EFromJson cls arg -> is_Some (reg (qualify modname cls))) ->
      eval reg modname rho e
      = if CdpProperty.optional p then Ok VNone
        else Raise (KeyError (CdpProperty.name p)))
  /\ (forall (ty : CdpType.t) name fields to_json from_json
             (p : CdpProperty.t) (d : list (string * value)) (qual : string),
      CdpType.generate_class_code ty = Ok (DataclassDef name fields to_json from_json) ->
      p ∈ CdpType.properties ty ->
      CdpProperty.optional p = false ->
      assoc (CdpProperty.name p) d = None ->
      exists exc,
        Runtime.dataclass_from_json reg modname qual fields from_json (VDict d)
        = Raise exc).
Proof.
  split.
  - intros p dict_ e rho d He Hd Hentry Hcls.
    destruct (CdpProperty.optional p) eqn:Hopt.
    + eapply optional_without_value; eauto.
    + destruct (required_missing_raises reg modname p dict_ e rho d)
        as [Hkey|(cls & arg & -> & Hnone & _)]; try done.
      destruct (Hcls cls arg eq_refl) as [c Hc]. congruence.
  - intros ty name fields to_json from_json p d qual Hgen Hp Hopt Hentry.
    apply generate_class_code_Ok in Hgen as (_ & _ & _ & Hfrom).
    assert (p ∈ by_flag CdpProperty.optional (CdpType.properties ty)) as Hp'
      by by apply elem_of_by_flag.
    destruct (proj1 (list_elem_of_lookup _ _) Hp') as [i Hi].
    destruct (Forall2_lookup_l _ _ _ _ _ Hfrom Hi) as (ke & Hke & e & Hgen & ->).
    unfold Runtime.dataclass_from_json.
    destruct (traverse_Raise
                (fun ke => v ← eval reg modname [("json", VDict d)] ke.2; Ok (ke.1, v))
                from_json (CdpProperty.py_name p, e)) as [exc ->].
    + by eapply list_elem_of_lookup_2.
    + simpl.
      destruct (required_missing_raises reg modname p "json" e
                  [("json", VDict d)] d) as [->|(? & ? & _ & _ & ->)]; try done;
        by eexists.
    + by eexists.
Qed.

End MissingField.

(** ** Mappings *)

Section Assoc.
Import Py.
Context {A : Type}.
Implicit Types (d : list (string * A)) (k : string) (v : A).


Lemma assoc_dict_set_ne d k k' v : k <> k' -> assoc k' (dict_set k v d) = assoc k' d.
Proof.
  intros Hne. induction d as [|[k0 v0] d IH]; simpl.
  - apply not_eq_sym, String.eqb_neq in Hne. by rewrite Hne.
  - destruct (String.eqb_spec k k0) as [->|Hk0]; simpl.
    + apply not_eq_sym, String.eqb_neq in Hne. by rewrite Hne.
    + by rewrite IH.
Qed.






End Assoc.

(** ** Encoding a field and decoding it again *)

Section RoundTrip.
Import Py.
Context `{Naming} `{Builtins}.
Variable reg : registry.
Variable modname : string.


Lemma of_kind_not_none (c : CdpPrimitiveType.t) (v : value) :
  Legal.of_kind c v -> v <> VNone.
Proof. by destruct c, v. Qed.

Lemma instance_not_none (cls : string) (v : value) :
  Legal.instance reg cls v -> v <> VNone.
Proof. intros [Hcls _] ->. done. Qed.

Lemma traverse_cons {A B : Type} (f : A -> result B) (x : A) (l : list A) :
  traverse f (x :: l) = y ← f x; ys ← traverse f l; Ok (y :: ys).
Proof. done. Qed.










Lemma from_json_optional (p : CdpProperty.t) (dict_ : string) :
  CdpProperty.generate_from_json p dict_
  = e ← CdpProperty.generate_from_json (set_optional false p) dict_;
    Ok (if CdpProperty.optional p
        then EIfNotNone e (EGet (EName dict_) (CdpProperty.name p)) else e).
Proof.
  unfold CdpProperty.generate_from_json. cbn.
  by destruct (match CdpProperty.items p with Some _ => _ | None => _ end).
Qed.



End RoundTrip.

(** ** Encoding the members of a record or of a call *)




Section Members.
Import Py.
Context `{Naming} `{Builtins}.
Variable reg : registry.
Variable modname : string.



End Members.




Section Record.
Import Py.
Context `{Naming} `{Builtins}.
Variable reg : registry.
Variable modname : string.



End Record.

(** ** Commands *)

Section Command.
Import Py.
Context `{Naming} `{Builtins}.
Variable reg : registry.
Variable modname : string.


Lemma generate_code_Ok (cmd : CdpCommand.t) (fn : function_def) :
  CdpCommand.generate_code cmd = Ok fn ->
  fn_has_params fn = bool_decide (CdpCommand.parameters cmd <> [])
  /\ fn_assigns fn
     = (fun p => CdpProperty.generate_to_json p "params" false)
         <$> CdpCommand.parameters cmd
  /\ fn_method fn = CdpCommand.domain cmd +:+ "." +:+ CdpCommand.name cmd
  /\ match CdpCommand.returns cmd with
     | [] => fn_return fn = RNone
     | [r] => exists e, CdpReturn.generate_return r "json" = Ok e
                        /\ fn_return fn = ROne e
     | rs => exists es,
               traverse (fun r => CdpReturn.generate_return r "json") rs = Ok es
               /\ fn_return fn = RTuple es
     end.
Proof.
  unfold CdpCommand.generate_code. intros Hgen.
  apply bind_Ok in Hgen as (ret_type & _ & Hgen).
  apply bind_Ok in Hgen as (sig & _ & Hgen).
  apply bind_Ok in Hgen as (ret & Hret & [= <-]). cbn.
  repeat split.
  destruct (CdpCommand.returns cmd) as [|r [|r' rs]].
  - by injection Hret as <-.
  - apply fmap_Ok in Hret as (e & He & ->). by exists e.
  - apply fmap_Ok in Hret as (es & Hes & ->). by exists es.
Qed.



End Command.

(** ** The classes of a package *)



Lemma generate_code_dataclass `{Naming} (ty : CdpType.t) name fields to_json from_json :
  CdpType.generate_code ty = Ok (DataclassDef name fields to_json from_json) ->
  CdpType.generate_class_code ty = Ok (DataclassDef name fields to_json from_json).
Proof.
  unfold CdpType.generate_code, CdpType.generate_primitive_code.
  destruct (CdpType.enum ty) as [[|v vs]|], (CdpType.properties ty) as [|p ps] eqn:Hps;
    try done; rewrite <- ?Hps; try done;
    destruct (CdpType.items ty); intros Hgen; by inv_result.
Qed.


Section Package.
Import Py.
Context `{Naming} `{Builtins}.
Variable domains : list CdpDomain.t.






End Package.

(** ** Round trip *)


(** ** The text of the generated code *)

Lemma append_assoc (s1 s2 s3 : string) : (s1 +:+ s2) +:+ s3 = s1 +:+ s2 +:+ s3.
Proof.
  induction s1 as [|c s1 IH]; [done|].
  change (String c ((s1 +:+ s2) +:+ s3) = String c (s1 +:+ s2 +:+ s3)).
  by rewrite IH.
Qed.

(** Printing the syntax that the embedding builds gives the text that
    the source builds. *)
Lemma render_generate_to_json `{Naming} (p : CdpProperty.t) (dict_ : string)
  (use_self : bool) :
  Py.render_stmt (CdpProperty.generate_to_json p dict_ use_self)
  = CdpProperty.generate_to_json_text p dict_ use_self.
Proof.
  unfold CdpProperty.generate_to_json, CdpProperty.generate_to_json_text,
    CdpProperty.target.
  destruct (CdpProperty.optional p), use_self, (CdpProperty.items p) as [its|];
    try destruct (truthy (CdpItems.ref its));
    try destruct (truthy (CdpProperty.ref p));
    cbn [Py.render_stmt Py.render]; by rewrite ?append_assoc.
Qed.

Lemma render_get_constructor (cdp_type : option string) (val : Py.expr) :
  Py.render <$> CdpProperty.get_constructor cdp_type val
  = CdpPrimitiveType.get_constructor_text cdp_type (Py.render val).
Proof.
  unfold CdpProperty.get_constructor, CdpPrimitiveType.get_constructor_text.
  destruct (CdpPrimitiveType.is_any cdp_type); [done|].
  by destruct (CdpPrimitiveType.lookup cdp_type).
Qed.

Lemma render_generate_from_json `{Naming} (p : CdpProperty.t) (dict_ : string) :
  Py.render <$> CdpProperty.generate_from_json p dict_
  = CdpProperty.generate_from_json_text p dict_.
Proof.
  unfold CdpProperty.generate_from_json, CdpProperty.generate_from_json_text.
  destruct (CdpProperty.items p) as [its|].
  - destruct (truthy (CdpItems.ref its)) as [r|].
    + destruct (ref_to_python_domain r (CdpProperty.domain p)); [|done].
      destruct (CdpProperty.optional p); cbn; by rewrite ?append_assoc.
    + rewrite <- (render_get_constructor _ (Py.EName "i")).
      destruct (CdpProperty.get_constructor (CdpItems.type its) (Py.EName "i")); [|done].
      destruct (CdpProperty.optional p); cbn; by rewrite ?append_assoc.
  - destruct (truthy (CdpProperty.ref p)) as [r|].
    + destruct (ref_to_python_domain r (CdpProperty.domain p)); [|done].
      destruct (CdpProperty.optional p); cbn; by rewrite ?append_assoc.
    + rewrite <- (render_get_constructor _ (Py.EItem (Py.EName dict_) (CdpProperty.name p))).
      destruct (CdpProperty.get_constructor (CdpProperty.type p) _); [|done].
      destruct (CdpProperty.optional p); cbn; by rewrite ?append_assoc.
Qed.

(** ** Events *)

Lemma event_generate_code_Ok `{Naming} `{Camelize} (ev : CdpEvent.t) (def : event_def) :
  CdpEvent.generate_code ev = Ok def ->
  ev_name def = CdpEvent.py_name ev
  /\ ev_event def = CdpEvent.domain ev +:+ "." +:+ CdpEvent.name ev
  /\ ev_deprecated def = CdpEvent.deprecated ev
  /\ Forall2 (fun p d => CdpParameter.generate_decl p = Ok d)
       (CdpEvent.parameters ev) (ev_fields def)
  /\ Forall2 (fun p ke => exists e, CdpProperty.generate_from_json p "json" = Ok e
                                    /\ ke = (CdpProperty.py_name p, e))
       (CdpEvent.parameters ev) (ev_from_json def).
Proof.
  unfold CdpEvent.generate_code. intros Hgen.
  apply bind_Ok in Hgen as (decls & Hdecls & Hgen).
  apply bind_Ok in Hgen as (from_json & Hfrom & [= <-]). cbn.
  apply traverse_Ok in Hdecls. apply traverse_Ok in Hfrom.
  repeat split; try done.
  eapply Forall2_impl; [exact Hfrom|]. intros p ke Hke.
  unfold CdpParameter.generate_from_json in Hke.
  apply bind_Ok in Hke as (e & He & [= <-]). by exists e.
Qed.

Section Event.
Import Py.
Context `{Naming} `{Camelize} `{Builtins}.
Variable reg : registry.
Variable modname : string.






(** ** The entries that a decoder reads *)

Lemma decoder_reads_entry (p : CdpProperty.t) (dict_ : string) (e : expr)
  (rho rho' : env) (d d' : list (string * value)) :
  CdpProperty.generate_from_json p dict_ = Ok e ->
  assoc dict_ rho = Some (VDict d) ->
  assoc dict_ rho' = Some (VDict d') ->
  assoc (CdpProperty.name p) d = assoc (CdpProperty.name p) d' ->
  eval reg modname rho e = eval reg modname rho' e.
Proof.
  intros (e0 & -> & Hshape)%from_json_shape Hd Hd' Hsame.
  assert (eval reg modname rho (EItem (EName dict_) (CdpProperty.name p))
          = eval reg modname rho' (EItem (EName dict_) (CdpProperty.name p))) as Hitem.
  { by rewrite (eval_item _ _ _ _ _ d Hd), (eval_item _ _ _ _ _ d' Hd'), Hsame. }
  assert (eval reg modname rho (EGet (EName dict_) (CdpProperty.name p))
          = eval reg modname rho' (EGet (EName dict_) (CdpProperty.name p))) as Hget.
  { by rewrite (eval_get _ _ _ _ _ d Hd), (eval_get _ _ _ _ _ d' Hd'), Hsame. }
  assert (eval reg modname rho e0 = eval reg modname rho' e0) as He0.
  { destruct Hshape as [cls|c| |cls|c|].
    - rewrite !eval_list_comp, Hitem.
      destruct (eval reg modname rho' (EItem _ _)) as [v|]; [|done]. rsimpl.
      destruct (iterate v) as [l|]; [|done]. rsimpl. by f_equal.
    - rewrite !eval_list_comp, Hitem.
      destruct (eval reg modname rho' (EItem _ _)) as [v|]; [|done]. rsimpl.
      destruct (iterate v) as [l|]; [|done]. rsimpl. by f_equal.
    - rewrite !eval_list_comp, Hitem.
      destruct (eval reg modname rho' (EItem _ _)) as [v|]; [|done]. rsimpl.
      destruct (iterate v) as [l|]; [|done]. rsimpl. by f_equal.
    - by rewrite !eval_from_json, Hitem.
    - by rewrite !eval_cons, Hitem.
    - apply Hitem. }
  destruct (CdpProperty.optional p); [|done].
  by rewrite !eval_if_not_none, Hget, He0.
Qed.

Lemma decoded_reads_entry (p : CdpProperty.t) (d d' : list (string * value)) :
  assoc (CdpProperty.name p) d = assoc (CdpProperty.name p) d' ->
  Runtime.decoded reg modname p (VDict d) = Runtime.decoded reg modname p (VDict d').
Proof.
  intros Hsame. unfold Runtime.decoded.
  destruct (CdpProperty.generate_from_json p "json") as [e|exc] eqn:He; [|done].
  cbn. by eapply decoder_reads_entry.
Qed.

Lemma kwargs_read_entries (ps : list CdpProperty.t) (from_json : list (string * expr))
  (d d' : list (string * value)) :
  Forall2 (fun p ke => exists e, CdpProperty.generate_from_json p "json" = Ok e
                                 /\ ke = (CdpProperty.py_name p, e)) ps from_json ->
  (forall p, p ∈ ps -> assoc (CdpProperty.name p) d = assoc (CdpProperty.name p) d') ->
  traverse (fun ke => v ← eval reg modname [("json", VDict d)] ke.2; Ok (ke.1, v)) from_json
  = traverse (fun ke => v ← eval reg modname [("json", VDict d')] ke.2; Ok (ke.1, v))
      from_json.
Proof.
  induction 1 as [|p ke ps kes (e & He & ->) _ IH]; intros Hsame; [done|].
  rewrite !traverse_cons, IH by (intros p' Hp'; apply Hsame; by right).
  cbn [snd fst].
  rewrite (decoder_reads_entry p "json" e [("json", VDict d)] [("json", VDict d')] d d');
    try done.
  apply Hsame. left.
Qed.

(** X3.  A decoder reads the entry under the wire name of its field and
    nothing else of the mapping.  So two mappings that agree on the wire
    names of the fields of a record, of the parameters of an event or of
    a return of a command decode alike, to the same value or the same
    exception: entries under other keys and the order of the entries
    make no difference. *)
Theorem decoding_reads_own_keys (d d' : list (string * value)) :
  (forall p : CdpProperty.t,
      assoc (CdpProperty.name p) d = assoc (CdpProperty.name p) d' ->
      Runtime.decoded reg modname p (VDict d) = Runtime.decoded reg modname p (VDict d'))
  /\ (forall (ty : CdpType.t) name fields to_json from_json (qual : string),
      CdpType.generate_class_code ty = Ok (DataclassDef name fields to_json from_json) ->
      (forall p, p ∈ CdpType.properties ty ->
                 assoc (CdpProperty.name p) d = assoc (CdpProperty.name p) d') ->
      Runtime.dataclass_from_json reg modname qual fields from_json (VDict d)
      = Runtime.dataclass_from_json reg modname qual fields from_json (VDict d'))
  /\ (forall (ev : CdpEvent.t) (def : event_def),
      CdpEvent.generate_code ev = Ok def ->
      (forall p, p ∈ CdpEvent.parameters ev ->
                 assoc (CdpProperty.name p) d = assoc (CdpProperty.name p) d') ->
      Runtime.event_from_json reg modname def (VDict d)
      = Runtime.event_from_json reg modname def (VDict d')).
Proof.
  split; [|split].
  - intros p. apply decoded_reads_entry.
  - intros ty name fields to_json from_json qual Hgen Hsame.
    apply generate_class_code_Ok in Hgen as (_ & _ & _ & Hfrom).
    unfold Runtime.dataclass_from_json.
    rewrite (kwargs_read_entries _ _ d d' Hfrom); [done|].
    intros p Hp. apply Hsame. by apply elem_of_by_flag in Hp.
  - intros ev def Hgen Hsame.
    apply event_generate_code_Ok in Hgen as (_ & _ & _ & _ & Hfrom).
    unfold Runtime.event_from_json, Runtime.dataclass_from_json.
    by rewrite (kwargs_read_entries _ _ d d' Hfrom).
Qed.

End Event.

(** ** More on dotted references *)

Lemma split_length_pos (c : ascii) (s : string) : 1 <= length (Str.split c s).
Proof.
  induction s as [|a s IH]; simpl; [lia|].
  destruct (Ascii.eqb a c); simpl; [lia|].
  destruct (Str.split c s); simpl in *; lia.
Qed.

Lemma split_length_app (c : ascii) (s1 s2 : string) :
  length (Str.split c (s1 +:+ String c s2))
  = length (Str.split c s1) + length (Str.split c s2).
Proof.
  induction s1 as [|a s1 IH].
  - change (length (Str.split c (String c s2)) = 1 + length (Str.split c s2)).
    simpl. by rewrite Ascii.eqb_refl.
  - change (length (Str.split c (String a (s1 +:+ String c s2)))
            = length (Str.split c (String a s1)) + length (Str.split c s2)).
    simpl. destruct (Ascii.eqb a c); simpl; [by rewrite IH|].
    pose proof (split_length_pos c s1).
    destruct (Str.split c (s1 +:+ String c s2)), (Str.split c s1); simpl in *; lia.
Qed.

Lemma split_one (c : ascii) (s b : string) :
  Str.split c s = [b] -> s = b /\ Str.contains c b = false.
Proof.
  revert b. induction s as [|x s IH]; intros b; simpl; [by intros [= <-]|].
  destruct (Ascii.eqb x c) eqn:Hx.
  - pose proof (split_length_pos c s). intros [= _ Hs]. rewrite Hs in *. simpl in *. lia.
  - destruct (Str.split c s) as [|w [|? ?]] eqn:Hs; try done.
    + pose proof (split_length_pos c s). rewrite Hs in *. simpl in *. lia.
    + intros [= <-]. destruct (IH w eq_refl) as [-> Hw]. simpl. by rewrite Hx.
Qed.

Lemma split_two (c : ascii) (s a b : string) :
  Str.split c s = [a; b] ->
  s = a +:+ String c b /\ Str.contains c a = false /\ Str.contains c b = false.
Proof.
  revert a. induction s as [|x s IH]; intros a; simpl; [done|].
  destruct (Ascii.eqb x c) eqn:Hx.
  - apply Ascii.eqb_eq in Hx as ->. intros [= <- Hb].
    apply split_one in Hb as [-> Hb]. done.
  - destruct (Str.split c s) as [|w [|w' [|? ?]]] eqn:Hs; try done.
    intros [= <- <-]. destruct (IH w eq_refl) as (-> & Hw & Hb).
    split; [done|]. split; [|done]. simpl. by rewrite Hx.
Qed.

Lemma contains_split (c : ascii) (s : string) :
  Str.contains c s = true -> 2 <= length (Str.split c s).
Proof.
  induction s as [|x s IH]; simpl; [done|].
  destruct (Ascii.eqb x c).
  - intros _. simpl. pose proof (split_length_pos c s). lia.
  - intros Hs%IH. destruct (Str.split c s); simpl in *; lia.
Qed.

Lemma ref_to_python_domain_plain `{Naming} (ref domain : string) :
  Str.contains "." ref = false -> ref_to_python_domain ref domain = Ok ref.
Proof.
  intros Href. unfold ref_to_python_domain, ref_to_python.
  destruct (Str.startswith (domain +:+ ".") ref) eqn:Hpre.
  - apply (prefix_contains ".") in Hpre; [congruence|].
    rewrite contains_app. simpl. by rewrite orb_true_r.
  - by rewrite Href.
Qed.

Lemma ref_to_python_domain_prefix `{Naming} (d ty : string) :
  ref_to_python_domain (d +:+ "." +:+ ty) d = ref_to_python ty.
Proof. unfold ref_to_python_domain. by rewrite startswith_own, drop_own. Qed.

(** X6.  What the two resolvers do depends on the dots of the reference.
    A reference without a dot stays as it is.  A reference with one dot
    gets its first part as a module name.  A reference with two dots or
    more makes [ref_to_python] raise [ValueError].  The resolver of a
    property first takes off the name of the current domain and the dot
    behind it, whatever comes then. *)
Theorem ref_to_python_by_dots `{Naming} :
  (forall ref domain,
      Str.contains "." ref = false ->
      ref_to_python ref = Ok ref /\ ref_to_python_domain ref domain = Ok ref)
  /\ (forall d ty,
      Str.contains "." d = false -> Str.contains "." ty = false ->
      ref_to_python (d +:+ "." +:+ ty) = Ok (snake_case d +:+ "." +:+ ty))
  /\ (forall a b c, ref_to_python (a +:+ "." +:+ b +:+ "." +:+ c) = Raise ValueError)
  /\ (forall d ty, ref_to_python_domain (d +:+ "." +:+ ty) d = ref_to_python ty).
Proof.
  split; [|split; [|split]].
  - intros ref domain Href. split.
    + unfold ref_to_python. by rewrite Href.
    + by apply ref_to_python_domain_plain.
  - apply ref_to_python_qualified.
  - intros a b c. unfold ref_to_python.
    rewrite contains_app. simpl. rewrite orb_true_r.
    pose proof (split_length_app "." a (b +:+ "." +:+ c)) as Hlen.
    change ("." +:+ c) with (String "." c) in *.
    rewrite (split_length_app "." b c) in Hlen.
    pose proof (split_length_pos "." a). pose proof (split_length_pos "." b).
    pose proof (split_length_pos "." c).
    change ("." +:+ b +:+ String "." c) with (String "." (b +:+ String "." c)).
    destruct (Str.split "." (a +:+ String "." (b +:+ String "." c)))
      as [|? [|? [|? ?]]]; simpl in *; try done; lia.
  - apply ref_to_python_domain_prefix.
Qed.

(** ** Types outside the table *)

Lemma lookup_unknown (s : string) :
  s ∉ ["boolean"; "integer"; "number"; "object"; "string"] ->
  CdpPrimitiveType.lookup (Some s) = Raise (KeyError s).
Proof.
  intros Hs.
  destruct (CdpPrimitiveType.lookup (Some s)) as [c|e] eqn:Hlook.
  - exfalso. apply Hs. clear Hs. unfold CdpPrimitiveType.lookup in Hlook.
    repeat (destruct s as [|[[] [] [] [] [] [] [] []] s]; try discriminate Hlook);
      rewrite !elem_of_cons; tauto.
  - unfold CdpPrimitiveType.lookup in Hlook.
    repeat (destruct s as [|[[] [] [] [] [] [] [] []] s]; try discriminate Hlook;
            try (injection Hlook as <-; reflexivity)).
Qed.

(** X7.  A property without a reference and without items whose type is
    none of [any], [boolean], [integer], [number], [object] and [string]
    (an [array] without items, say) cannot be compiled: its annotation,
    its decoder, its line in a call signature and its return annotation
    raise [KeyError] for the type, and so does the record type that has
    such a property. *)
Theorem unknown_type_raises `{Naming} (p : CdpProperty.t) (t dict_ : string) :
  CdpProperty.items p = None ->
  truthy (CdpProperty.ref p) = None ->
  CdpProperty.type p = Some t ->
  t ∉ ["any"; "boolean"; "integer"; "number"; "object"; "string"] ->
  CdpProperty.py_annotation p = Raise (KeyError t)
  /\ CdpProperty.generate_from_json p dict_ = Raise (KeyError t)
  /\ CdpParameter.generate_code p = Raise (KeyError t)
  /\ CdpReturn.py_annotation p = Raise (KeyError t)
  /\ (forall ty, p ∈ CdpType.properties ty ->
                 exists exc, CdpType.generate_class_code ty = Raise exc).
Proof.
  intros Hitems Href Htype Ht.
  assert (CdpPrimitiveType.is_any (Some t) = false) as Hany.
  { unfold CdpPrimitiveType.is_any. apply bool_decide_eq_false. intros [= ->].
    apply Ht. left. }
  assert (CdpPrimitiveType.lookup (Some t) = Raise (KeyError t)) as Hlook.
  { apply lookup_unknown. intros Hin. apply Ht. by right. }
  assert (CdpProperty.py_annotation p = Raise (KeyError t)) as Hann.
  { unfold CdpProperty.py_annotation, CdpPrimitiveType.get_annotation.
    by rewrite Hitems, Href, Htype, Hany, Hlook. }
  split; [done|]. split; [|split; [|split]].
  - unfold CdpProperty.generate_from_json, CdpProperty.get_constructor.
    by rewrite Hitems, Href, Htype, Hany, Hlook.
  - unfold CdpParameter.generate_code, CdpPrimitiveType.get_annotation.
    by rewrite Hitems, Href, Htype, Hany, Hlook.
  - unfold CdpReturn.py_annotation, CdpPrimitiveType.get_annotation.
    by rewrite Hitems, Href, Htype, Hany, Hlook.
  - intros ty Hp. unfold CdpType.generate_class_code. rewrite sorted_by_flag.
    destruct (traverse_Raise CdpProperty.generate_decl
                (by_flag CdpProperty.optional (CdpType.properties ty)) p) as [exc ->].
    + by apply elem_of_by_flag.
    + unfold CdpProperty.generate_decl. rewrite Hann. by eexists.
    + by eexists.
Qed.

(** ** When a record type compiles *)

Lemma get_constructor_Ok (cdp_type : option string) (val : Py.expr) :
  (exists e, CdpProperty.get_constructor cdp_type val = Ok e)
  <-> exists a, CdpPrimitiveType.get_annotation cdp_type = Ok a.
Proof.
  unfold CdpProperty.get_constructor, CdpPrimitiveType.get_annotation.
  destruct (CdpPrimitiveType.is_any cdp_type).
  { split; intros _; [by exists "typing.Any" | by exists val]. }
  destruct (CdpPrimitiveType.lookup cdp_type) as [c|exc]; cbn.
  - split; intros _; [by exists (CdpPrimitiveType.value c) | by exists (Py.ECons c val)].
  - split; by intros [? ?].
Qed.

Lemma annotation_iff_decoder `{Naming} (p : CdpProperty.t) (dict_ : string) :
  (exists a, CdpProperty.py_annotation p = Ok a)
  <-> exists e, CdpProperty.generate_from_json p dict_ = Ok e.
Proof.
  assert (forall (A B C : Type) (m : result A) (f : A -> B) (g : A -> C),
             (exists b, (x ← m; Ok (f x)) = Ok b) <-> (exists c, (x ← m; Ok (g x)) = Ok c))
    as Hmap.
  { intros A B C [x|exc] f g; cbn; split; intros [? Heq];
      first [discriminate Heq | by eexists]. }
  assert (forall (A B C D : Type) (m : result A) (m' : result B) (f : A -> C) (g : B -> D),
             ((exists a, m = Ok a) <-> (exists b, m' = Ok b)) ->
             (exists c, (x ← m; Ok (f x)) = Ok c) <-> (exists d, (x ← m'; Ok (g x)) = Ok d))
    as Hmap2.
  { intros A B C D [x|exc] [x'|exc'] f g Hiff; cbn; split; intros [? Heq];
      first [discriminate Heq | by eexists | exfalso].
    - destruct (proj1 Hiff) as [? ?]; [by eexists | done].
    - destruct (proj2 Hiff) as [? ?]; [by eexists | done]. }
  unfold CdpProperty.py_annotation, CdpProperty.generate_from_json.
  apply Hmap2.
  destruct (CdpProperty.items p) as [its|].
  - destruct (truthy (CdpItems.ref its)) as [r|]; [apply Hmap|].
    apply Hmap2. symmetry. apply get_constructor_Ok.
  - destruct (truthy (CdpProperty.ref p)) as [r|].
    + destruct (ref_to_python_domain r (CdpProperty.domain p)); cbn; split;
        intros [? Heq]; first [discriminate Heq | by eexists].
    + symmetry. apply get_constructor_Ok.
Qed.

Lemma traverse_Ok_iff {A B : Type} (f : A -> result B) (l : list A) :
  (exists r, traverse f l = Ok r) <-> Forall (fun x => exists y, f x = Ok y) l.
Proof.
  induction l as [|x l IH]; simpl.
  - split; [constructor | by eexists].
  - rewrite Forall_cons, <- IH. destruct (f x) as [y|exc]; cbn.
    + destruct (traverse f l) as [ys|exc]; cbn.
      * split; [intros _; split; by eexists | by eexists].
      * split; [by intros [? ?] | by intros [_ [? ?]]].
    + split; [by intros [? ?] | by intros [[? ?] _]].
Qed.

(** X8.  A record type compiles exactly when the annotation of each of
    its properties can be computed; the decoder of a property can be
    generated exactly when its annotation can. *)
Theorem class_code_succeeds_iff `{Naming} (ty : CdpType.t) :
  ((exists def, CdpType.generate_class_code ty = Ok def)
   <-> Forall (fun p => exists a, CdpProperty.py_annotation p = Ok a)
         (CdpType.properties ty))
  /\ (forall p dict_,
         (exists a, CdpProperty.py_annotation p = Ok a)
         <-> exists e, CdpProperty.generate_from_json p dict_ = Ok e).
Proof.
  split; [|apply annotation_iff_decoder].
  unfold CdpType.generate_class_code. rewrite sorted_by_flag.
  set (ps := by_flag CdpProperty.optional (CdpType.properties ty)).
  assert (Forall (fun p => exists a, CdpProperty.py_annotation p = Ok a)
            (CdpType.properties ty)
          <-> Forall (fun p => exists a, CdpProperty.py_annotation p = Ok a) ps) as ->.
  { rewrite !Forall_forall. unfold ps. split; intros Hall p Hp; apply Hall.
    - by apply elem_of_by_flag in Hp.
    - by apply elem_of_by_flag. }
  split.
  - intros [def Hdef]. apply bind_Ok in Hdef as (decls & Hdecls & _).
    apply traverse_Ok in Hdecls. apply Forall_forall. intros p Hp.
    destruct (proj1 (list_elem_of_lookup _ _) Hp) as [i Hi].
    destruct (Forall2_lookup_l _ _ _ _ _ Hdecls Hi) as (d & _ & Hd).
    unfold CdpProperty.generate_decl in Hd. apply bind_Ok in Hd as (a & Ha & _).
    by exists a.
  - intros Hall.
    destruct (proj2 (traverse_Ok_iff CdpProperty.generate_decl ps)) as [decls ->].
    { eapply Forall_impl; [exact Hall|]. intros p [a Ha].
      unfold CdpProperty.generate_decl. rewrite Ha. by eexists. }
    destruct (proj2 (traverse_Ok_iff
                (fun p => from_json ← CdpProperty.generate_from_json p "json";
                          Ok (CdpProperty.py_name p, from_json)) ps)) as [from_jsons ->].
    { eapply Forall_impl; [exact Hall|]. intros p Hp.
      apply (annotation_iff_decoder p "json") in Hp as [e ->]. by eexists. }
    by eexists.
Qed.

(** ** The classes of enumerations and of arrays *)

Lemma existsb_eqb (s : string) (l : list string) :
  existsb (String.eqb s) l = true <-> s ∈ l.
Proof.
  rewrite existsb_exists, list_elem_of_In. split.
  - by intros (x & Hx & ->%String.eqb_eq).
  - intros Hs. exists s. by rewrite String.eqb_refl.
Qed.

Section Classes.
Import Py.
Context `{Naming} `{Builtins}.
Variable reg : registry.
Variable modname : string.

(** X9.  The class of an enumeration whose constants have different
    names accepts the declared wire values and nothing else: [from_json]
    of a declared value is the member with that value, which [to_json]
    turns into the value again, and [from_json] of any other string
    raises [ValueError]. *)
Theorem enum_accepts_declared_values (ty : CdpType.t) (v : string) (vs : list string)
  (def : class_def) (s : string) :
  CdpType.enum ty = Some (v :: vs) ->
  NoDup ((fun w => Str.upper (snake_case w)) <$> v :: vs) ->
  CdpType.generate_code ty = Ok def ->
  let c := Runtime.class_sem reg modname def in
  let qual := modname +:+ "." +:+ CdpType.id ty in
  (s ∈ v :: vs ->
   cls_from_json c (VStr s) = Ok (VEnum qual s)
   /\ cls_to_json c (VEnum qual s) = Ok (VStr s))
  /\ (s ∉ v :: vs -> cls_from_json c (VStr s) = Raise ValueError).
Proof.
  intros Henum _ Hgen c qual.
  assert (def = EnumDef (CdpType.id ty)
                  ((fun w => (Str.upper (snake_case w), w)) <$> v :: vs)) as ->.
  { unfold CdpType.generate_code, CdpType.generate_enum_code in Hgen.
    rewrite Henum in Hgen. by injection Hgen as <-. }
  assert (((fun w => (Str.upper (snake_case w), w)) <$> v :: vs).*2 = v :: vs) as Hvalues.
  { rewrite <- list_fmap_compose. apply list_fmap_id. }
  subst c qual. cbn [Runtime.class_sem cls_from_json cls_to_json Runtime.enum_lookup].
  rewrite Hvalues. split.
  - intros Hs%existsb_eqb. by rewrite Hs.
  - intros Hs. destruct (existsb (String.eqb s) (v :: vs)) eqn:Hex; [|done].
    by apply existsb_eqb in Hex.
Qed.

(** X10.  The class of a type that is an array derives from [list]; its
    [from_json] wraps the list as it is, and its [to_json] returns the
    instance.  No item is decoded or encoded, also when the items are
    references to a type with a [from_json] of its own. *)
Theorem array_alias_keeps_items (ty : CdpType.t) (its : CdpItems.t)
  (def : class_def) (l : list value) :
  CdpType.enum ty = None \/ CdpType.enum ty = Some [] ->
  CdpType.properties ty = [] ->
  CdpType.items ty = Some its ->
  CdpType.generate_code ty = Ok def ->
  let c := Runtime.class_sem reg modname def in
  let qual := modname +:+ "." +:+ CdpType.id ty in
  (exists py_type, def = AliasDef (CdpType.id ty) "list" py_type)
  /\ cls_from_json c (VList l) = Ok (VNew qual (VList l))
  /\ cls_to_json c (VNew qual (VList l)) = Ok (VNew qual (VList l)).
Proof.
  intros Henum Hprops Hitems Hgen c qual.
  assert (exists py_type, def = AliasDef (CdpType.id ty) "list" py_type) as [py_type ->].
  { unfold CdpType.generate_code, CdpType.generate_primitive_code in Hgen.
    rewrite Hprops, Hitems in Hgen.
    destruct Henum as [Hnone|Hnil]; rewrite ?Hnone, ?Hnil in Hgen;
      apply bind_Ok in Hgen as (nested & _ & [= <-]); by eexists. }
  split; [by eexists | done].
Qed.

End Classes.

(** ** The modules that the decoders name *)

Lemma resolved_reference `{Naming} (r domain cls : string) :
  ref_to_python_domain r domain = Ok cls ->
  length (Str.split "." r) <= 2 ->
  Str.contains "." cls = false
  \/ exists a ty, Str.split "." r = [a; ty] /\ a <> domain
                  /\ cls = snake_case a +:+ "." +:+ ty /\ Str.contains "." ty = false.
Proof.
  intros Hcls Hlen. destruct (Str.contains "." r) eqn:Hr.
  2:{ rewrite ref_to_python_domain_plain in Hcls by done. injection Hcls as <-. by left. }
  apply contains_split in Hr.
  destruct (Str.split "." r) as [|a [|ty [|? ?]]] eqn:Hsplit; simpl in *; try lia.
  destruct (split_two _ _ _ _ Hsplit) as (-> & Ha & Hty).
  change (String "." ty) with ("." +:+ ty) in *.
  destruct (decide (a = domain)) as [->|Hne].
  - rewrite ref_to_python_domain_prefix in Hcls. unfold ref_to_python in Hcls.
    rewrite Hty in Hcls. injection Hcls as <-. by left.
  - rewrite ref_to_python_domain_foreign in Hcls by done. injection Hcls as <-.
    right. by exists a, ty.
Qed.

(** The class that a decoder names comes from a reference of the property *)
Lemma decoder_classes `{Naming} (p : CdpProperty.t) (dict_ : string) (e : Py.expr)
  (cls : string) :
  CdpProperty.generate_from_json p dict_ = Ok e ->
  cls ∈ Py.classes_of e ->
  exists r, r ∈ CdpProperty.get_refs p
            /\ ref_to_python_domain r (CdpProperty.domain p) = Ok cls.
Proof.
  unfold CdpProperty.generate_from_json, CdpProperty.get_refs, CdpProperty.get_constructor.
  intros He Hcls. apply bind_Ok in He as (e0 & He0 & [= <-]).
  assert (cls ∈ Py.classes_of e0) as Hcls0.
  { destruct (CdpProperty.optional p); [|done]. cbn in Hcls. by rewrite app_nil_r in Hcls. }
  clear Hcls.
  destruct (CdpProperty.items p) as [its|].
  - destruct (truthy (CdpItems.ref its)) as [r|].
    + apply bind_Ok in He0 as (py_ref & Hr & [= <-]). cbn in Hcls0.
      apply list_elem_of_singleton in Hcls0 as ->. exists r.
      split; [by apply elem_of_singleton | done].
    + apply bind_Ok in He0 as (body & Hbody & [= <-]).
      destruct (CdpPrimitiveType.is_any (CdpItems.type its)).
      * injection Hbody as <-. by apply elem_of_nil in Hcls0.
      * apply bind_Ok in Hbody as (c & _ & [= <-]). by apply elem_of_nil in Hcls0.
  - destruct (truthy (CdpProperty.ref p)) as [r|].
    + apply bind_Ok in He0 as (py_ref & Hr & [= <-]). cbn in Hcls0.
      apply list_elem_of_singleton in Hcls0 as ->. exists r.
      split; [by apply elem_of_singleton | done].
    + destruct (CdpPrimitiveType.is_any (CdpProperty.type p)).
      * injection He0 as <-. by apply elem_of_nil in Hcls0.
      * apply bind_Ok in He0 as (c & _ & [= <-]). by apply elem_of_nil in Hcls0.
Qed.

Lemma domain_generate_code_Ok `{Naming} `{Camelize} (d : CdpDomain.t) (m : module_def) :
  CdpDomain.generate_code d = Ok m ->
  exists types commands events,
    Forall2 (fun ty def => CdpType.generate_code ty = Ok def) (CdpDomain.types d) types
    /\ Forall2 (fun cmd fn => CdpCommand.generate_code cmd = Ok fn)
         (CdpDomain.commands d) commands
    /\ Forall2 (fun ev def => CdpEvent.generate_code ev = Ok def)
         (CdpDomain.events d) events
    /\ m = {| mod_domain := CdpDomain.domain d;
              mod_experimental := CdpDomain.experimental d;
              mod_imports := CdpDomain.generate_imports d;
              mod_items := (TypeItem <$> types) ++ (CommandItem <$> commands)
                             ++ (EventItem <$> events) |}.
Proof.
  unfold CdpDomain.generate_code. intros Hgen.
  apply bind_Ok in Hgen as (types & Htypes & Hgen).
  apply bind_Ok in Hgen as (commands & Hcommands & Hgen).
  apply bind_Ok in Hgen as (events & Hevents & [= <-]).
  exists types, commands, events.
  by repeat split; try apply traverse_Ok.
Qed.

Lemma Forall2_elem_l {A B : Type} (P : A -> B -> Prop) (l : list A) (k : list B) (y : B) :
  Forall2 P l k -> y ∈ k -> exists x, x ∈ l /\ P x y.
Proof.
  intros HP Hy. destruct (proj1 (list_elem_of_lookup _ _) Hy) as [i Hi].
  destruct (Forall2_lookup_r _ _ _ _ _ HP Hi) as (x & Hx & Hxy).
  exists x. split; [by eapply list_elem_of_lookup_2 | done].
Qed.

(** The property behind a decoding expression of a declaration *)
Lemma decoder_property `{Naming} `{Camelize} (d : CdpDomain.t) (m : module_def)
  (item : item_def) (e : Py.expr) :
  CdpDomain.generate_code d = Ok m ->
  item ∈ mod_items m -> e ∈ decoders item ->
  exists p, p ∈ CdpDomain.all_properties d
            /\ CdpProperty.get_refs p ⊆ CdpDomain.refs d
            /\ CdpProperty.generate_from_json p "json" = Ok e.
Proof.
  intros (types & commands & events & Htypes & Hcommands & Hevents & ->)%domain_generate_code_Ok.
  cbn [mod_items]. rewrite !elem_of_app, !list_elem_of_fmap.
  unfold CdpDomain.all_properties, CdpDomain.refs.
  intros [(def & -> & Hdef)|[(fn & -> & Hfn)|(ev & -> & Hev)]] He.
  - destruct (Forall2_elem_l _ _ _ _ Htypes Hdef) as (ty & Hty & Hgen).
    destruct def as [| name fields to_json from_json |]; try by apply elem_of_nil in He.
    cbn in He. apply list_elem_of_fmap in He as ([k e'] & -> & Hke).
    pose proof Hgen as Hclass%generate_code_dataclass.
    apply generate_class_code_Ok in Hclass as (_ & _ & _ & Hfrom).
    destruct (Forall2_elem_l _ _ _ _ Hfrom Hke)
      as (p & Hp%elem_of_by_flag & e0 & He0 & [= -> ->]).
    exists p. split; [|split; [|done]].
    + rewrite elem_of_app. left. apply list_elem_of_In, in_flat_map.
      exists ty. by rewrite <- !list_elem_of_In.
    + assert (CdpProperty.get_refs p ⊆ CdpType.get_refs ty) as Hsub.
      { unfold CdpType.get_refs. unfold CdpType.generate_code in Hgen.
        destruct (CdpType.enum ty) as [[|v vs]|], (CdpType.properties ty) as [|q qs] eqn:Hqs;
          try done; try (by apply elem_of_nil in Hp);
          rewrite <- Hqs in *; intros r Hr; apply elem_of_union_list;
          exists (CdpProperty.get_refs p); split; try done; by apply list_elem_of_fmap_2. }
      intros r Hr%Hsub. apply elem_of_union. left. apply elem_of_union. left.
      apply elem_of_union_list. exists (CdpType.get_refs ty).
      split; [by apply list_elem_of_fmap_2 | done].
  - destruct (Forall2_elem_l _ _ _ _ Hcommands Hfn) as (cmd & Hcmd & Hgen).
    apply generate_code_Ok in Hgen as (_ & _ & _ & Hret). cbn in He.
    assert (exists p, p ∈ CdpCommand.returns cmd
                      /\ CdpProperty.generate_from_json p "json" = Ok e) as (p & Hp & Hpe).
    { destruct (CdpCommand.returns cmd) as [|r [|r' rs]].
      - rewrite Hret in He. by apply elem_of_nil in He.
      - destruct Hret as (e' & He' & Hret). rewrite Hret in He.
        apply list_elem_of_singleton in He as ->. exists r. split; [left | done].
      - destruct Hret as (es & Hes & Hret). rewrite Hret in He.
        apply traverse_Ok in Hes.
        destruct (Forall2_elem_l _ _ _ _ Hes He) as (p & Hp & Hpe). by exists p. }
    exists p. split; [|split; [|done]].
    + rewrite !elem_of_app. right. left. apply list_elem_of_In, in_flat_map.
      exists cmd. rewrite <- !list_elem_of_In, elem_of_app. auto.
    + intros r Hr. apply elem_of_union. left. apply elem_of_union. right.
      apply elem_of_union_list. exists (CdpCommand.get_refs cmd).
      split; [by apply list_elem_of_fmap_2|].
      unfold CdpCommand.get_refs. apply elem_of_union_list.
      exists (CdpProperty.get_refs p). split; [|done].
      apply list_elem_of_fmap_2, elem_of_app. by right.
  - destruct (Forall2_elem_l _ _ _ _ Hevents Hev) as (event & Hevent & Hgen).
    apply event_generate_code_Ok in Hgen as (_ & _ & _ & _ & Hfrom). cbn in He.
    apply list_elem_of_fmap in He as ([k e'] & -> & Hke).
    destruct (Forall2_elem_l _ _ _ _ Hfrom Hke) as (p & Hp & e0 & He0 & [= -> ->]).
    exists p. split; [|split; [|done]].
    + rewrite !elem_of_app. right. right. apply list_elem_of_In, in_flat_map.
      exists event. by rewrite <- !list_elem_of_In.
    + intros r Hr. apply elem_of_union. right.
      apply elem_of_union_list. exists (CdpEvent.get_refs event).
      split; [by apply list_elem_of_fmap_2|].
      unfold CdpEvent.get_refs. apply elem_of_union_list.
      exists (CdpProperty.get_refs p). split; [|done]. by apply list_elem_of_fmap_2.
Qed.

Lemma decoders_imported `{Naming} `{Camelize} (d : CdpDomain.t)
  (m : module_def) (item : item_def) (e : Py.expr) (cls : string) :
  CdpDomain.generate_code d = Ok m ->
  Forall (fun p => CdpProperty.domain p = CdpDomain.domain d)
    (CdpDomain.all_properties d) ->
  (forall r, r ∈ CdpDomain.refs d -> length (Str.split "." r) <= 2) ->
  item ∈ mod_items m -> e ∈ decoders item -> cls ∈ Py.classes_of e ->
  Str.contains "." cls = false
  \/ exists module ty,
       cls = module +:+ "." +:+ ty /\ Str.contains "." ty = false
       /\ module ∈ CdpDomain.imports d.
Proof.
  intros Hgen Hdomain Hdots Hitem He Hcls.
  destruct (decoder_property d m item e Hgen Hitem He) as (p & Hp & Hrefs & Hpe).
  destruct (decoder_classes p "json" e cls Hpe Hcls) as (r & Hr%Hrefs & Hres).
  rewrite Forall_forall in Hdomain. rewrite (Hdomain p Hp) in Hres.
  destruct (resolved_reference r _ cls Hres (Hdots r Hr))
    as [Hown|(a & ty & Hsplit & Hne & -> & Hty)]; [by left|].
  right. exists (snake_case a), ty. split; [done|]. split; [done|].
  unfold CdpDomain.imports. apply elem_of_set_omap. exists r. split; [done|].
  apply dependency_of_Some. by exists a, ty.
Qed.

(** X4.  The decoders of a generated module name only classes that the
    module can see.  When each property carries the name of the domain
    and no reference has more than one dot, every class that a
    [from_json] of a record or of an event, or the return of a command,
    calls by name is a class of the module itself (a name without a dot)
    or a class [module.Type] of a module that [generate_imports] imports. *)
Theorem decoders_use_imported_modules `{Naming} `{Camelize} (d : CdpDomain.t)
  (m : module_def) (item : item_def) (e : Py.expr) (cls : string) :
  CdpDomain.generate_code d = Ok m ->
  Forall (fun p => CdpProperty.domain p = CdpDomain.domain d)
    (CdpDomain.all_properties d) ->
  (forall r, r ∈ CdpDomain.refs d -> length (Str.split "." r) <= 2) ->
  item ∈ mod_items m -> e ∈ decoders item -> cls ∈ Py.classes_of e ->
  Str.contains "." cls = false
  \/ exists module ty,
       cls = module +:+ "." +:+ ty /\ Str.contains "." ty = false
       /\ module ∈ CdpDomain.imports d.
Proof. apply decoders_imported. Qed.

(** X5.  A generated module holds the types, then the commands, then
    the events of the domain, and its import text ends with the import
    of [deprecated] exactly when one of these declarations stands under
    the decorator [@deprecated]. *)
Theorem deprecated_import_iff_decorated `{Naming} `{Camelize} (d : CdpDomain.t)
  (m : module_def) :
  CdpDomain.generate_code d = Ok m ->
  (exists types commands events,
      Forall2 (fun ty def => CdpType.generate_code ty = Ok def) (CdpDomain.types d) types
      /\ Forall2 (fun cmd fn => CdpCommand.generate_code cmd = Ok fn)
           (CdpDomain.commands d) commands
      /\ Forall2 (fun ev def => CdpEvent.generate_code ev = Ok def)
           (CdpDomain.events d) events
      /\ mod_items m = (TypeItem <$> types) ++ (CommandItem <$> commands)
                         ++ (EventItem <$> events))
  /\ mod_imports m
     = let code := Str.join Str.nl (CdpDomain.import_lines d) in
       if existsb decorated (mod_items m)
       then code +:+ Str.nl +:+ "from deprecated.sphinx import deprecated # type: ignore"
       else code.
Proof.
  intros (types & commands & events & Htypes & Hcommands & Hevents & ->)%domain_generate_code_Ok.
  split; [by exists types, commands, events|].
  cbn [mod_imports mod_items]. unfold CdpDomain.generate_imports, CdpDomain.needs_deprecation.
  rewrite !existsb_app.
  assert (existsb decorated (TypeItem <$> types) = false) as ->.
  { clear. induction types as [|def types IH]; [done|]. by rewrite fmap_cons. }
  assert (existsb decorated (CommandItem <$> commands)
          = existsb CdpCommand.deprecated (CdpDomain.commands d)) as ->.
  { clear -Hcommands. induction Hcommands as [|cmd fn cmds fns Hfn _ IH]; [done|].
    rewrite fmap_cons. cbn. rewrite IH. f_equal.
    unfold CdpCommand.generate_code in Hfn.
    apply bind_Ok in Hfn as (? & _ & Hfn). apply bind_Ok in Hfn as (? & _ & Hfn).
    apply bind_Ok in Hfn as (? & _ & [= <-]). done. }
  assert (existsb decorated (EventItem <$> events)
          = existsb CdpEvent.deprecated (CdpDomain.events d)) as ->.
  { clear -Hevents. induction Hevents as [|ev def evs defs Hdef _ IH]; [done|].
    rewrite fmap_cons. cbn. rewrite IH. f_equal.
    by apply event_generate_code_Ok in Hdef as (_ & _ & -> & _). }
  done.
Qed.

(** ** The patches, applied twice and followed by the generator *)

Lemma remove_remove (c : ascii) (s : string) :
  Str.remove c (Str.remove c s) = Str.remove c s.
Proof.
  induction s as [|a s IH]; simpl; [done|].
  destruct (Ascii.eqb a c) eqn:Ha; [done|]. simpl. by rewrite Ha, IH.
Qed.

Lemma patch_resolve_node_twice (cmds cmds' : list CdpCommand.t) :
  patch_resolve_node cmds = Ok cmds' -> patch_resolve_node cmds' = Ok cmds'.
Proof.
  revert cmds'. induction cmds as [|cmd cmds IH]; intros cmds'; simpl.
  { by intros [= <-]. }
  destruct (String.eqb (CdpCommand.name cmd) "resolveNode") eqn:Hname.
  - destruct (CdpCommand.parameters cmd !! 1) as [p|] eqn:Hp; [|done].
    intros [= <-]. simpl. rewrite Hname.
    rewrite list_lookup_insert_eq by (by eapply lookup_lt_Some).
    by rewrite list_insert_insert_eq.
  - intros (rest & Hrest & [= <-])%bind_Ok. simpl. by rewrite Hname, (IH rest Hrest).
Qed.

Lemma patch_screencast_twice (events events' : list CdpEvent.t) :
  patch_screencast events = Ok events' -> patch_screencast events' = Ok events'.
Proof.
  revert events'. induction events as [|ev events IH]; intros events'; simpl.
  { by intros [= <-]. }
  destruct (String.eqb (CdpEvent.name ev) "screencastVisibilityChanged") eqn:Hname.
  - destruct (CdpEvent.description ev) as [descr|] eqn:Hd; [|done].
    intros [= <-]. simpl. rewrite Hname. unfold set_description. simpl.
    by rewrite remove_remove.
  - intros (rest & Hrest & [= <-])%bind_Ok. simpl. by rewrite Hname, (IH rest Hrest).
Qed.

Lemma patch_expires_twice (props : list CdpProperty.t) :
  patch_expires (patch_expires props) = patch_expires props.
Proof.
  induction props as [|p props IH]; simpl; [done|].
  destruct (String.eqb (CdpProperty.name p) "expires") eqn:Hname; simpl.
  - by rewrite Hname.
  - by rewrite Hname, IH.
Qed.

Lemma patch_cookie_twice (ty : CdpType.t) :
  patch_cookie (patch_cookie ty) = patch_cookie ty.
Proof.
  unfold patch_cookie.
  destruct (String.eqb (CdpType.id ty) "Cookie") eqn:Hid; simpl; rewrite Hid; [|done].
  unfold set_properties. simpl. by rewrite patch_expires_twice.
Qed.

Lemma fix_domain_twice (d d' : CdpDomain.t) :
  fix_domain d = Ok d' -> fix_domain d' = Ok d'.
Proof.
  unfold fix_domain.
  destruct (String.eqb (CdpDomain.domain d) "DOM") eqn:Hdom.
  { intros (cmds & Hcmds & [= <-])%bind_Ok. simpl. rewrite Hdom.
    by rewrite (patch_resolve_node_twice _ _ Hcmds). }
  destruct (String.eqb (CdpDomain.domain d) "Page") eqn:Hpage.
  { intros (evs & Hevs & [= <-])%bind_Ok. simpl. rewrite Hdom, Hpage.
    by rewrite (patch_screencast_twice _ _ Hevs). }
  destruct (String.eqb (CdpDomain.domain d) "Network") eqn:Hnet.
  { intros [= <-]. simpl. rewrite Hdom, Hpage, Hnet. do 2 f_equal.
    rewrite <- list_fmap_compose. apply list_fmap_ext. intros _ ty _.
    apply patch_cookie_twice. }
  intros [= <-]. by rewrite Hdom, Hpage, Hnet.
Qed.

(** X11.  Patching a list of domains that has been patched changes
    nothing any more and raises no exception. *)
Theorem fix_protocol_spec_idempotent (domains domains' : list CdpDomain.t) :
  fix_protocol_spec domains = Ok domains' ->
  fix_protocol_spec domains' = Ok domains'.
Proof.
  unfold fix_protocol_spec. intros Hfix%traverse_Ok.
  induction Hfix as [|d d' ds ds' Hd _ IH]; [done|].
  simpl. by rewrite (fix_domain_twice d d' Hd), IH.
Qed.

Lemma traverse_elem {A B : Type} (f : A -> result B) (l : list A) (r : list B) (x : A) :
  traverse f l = Ok r -> x ∈ l -> exists y, y ∈ r /\ f x = Ok y.
Proof.
  intros Hall%traverse_Ok Hx.
  destruct (proj1 (list_elem_of_lookup _ _) Hx) as [i Hi].
  destruct (Forall2_lookup_l _ _ _ _ _ Hall Hi) as (y & Hy & Hxy).
  exists y. split; [by eapply list_elem_of_lookup_2 | done].
Qed.

Lemma patch_expires_elem (props : list CdpProperty.t) (p : CdpProperty.t) :
  NoDup (CdpProperty.name <$> props) ->
  p ∈ props -> CdpProperty.name p = "expires" ->
  set_optional true p ∈ patch_expires props.
Proof.
  intros Hnodup Hp Hname. induction props as [|q props IH]; [by apply elem_of_nil in Hp|].
  rewrite fmap_cons in Hnodup. apply NoDup_cons in Hnodup as [Hq Hnodup]. simpl.
  apply elem_of_cons in Hp as [<-|Hp].
  - rewrite Hname. simpl. left.
  - destruct (String.eqb_spec (CdpProperty.name q) "expires") as [Heq|_].
    + destruct Hq. rewrite Heq, <- Hname. by apply list_elem_of_fmap_2.
    + right. by apply IH.
Qed.

Lemma patch_expires_names (props : list CdpProperty.t) :
  CdpProperty.name <$> patch_expires props = CdpProperty.name <$> props.
Proof.
  induction props as [|q props IH]; [done|]. simpl.
  destruct (String.eqb (CdpProperty.name q) "expires"); [done|].
  by rewrite !fmap_cons, IH.
Qed.

Section Cookie.
Import Py.
Context `{Naming} `{Builtins}.
Variable reg : registry.
Variable modname : string.

(** X12.  After the patches, the property [expires] of a record
    [Cookie] of the domain [Network] is optional, whatever the
    description said, and the other properties are as before.  So its
    decoder gives [None] for a mapping in which [expires] is [None] or
    missing. *)
Theorem cookie_expires_after_fix (domains domains' : list CdpDomain.t)
  (d : CdpDomain.t) (ty : CdpType.t) (p : CdpProperty.t) (e : expr) :
  fix_protocol_spec domains = Ok domains' ->
  d ∈ domains -> CdpDomain.domain d = "Network" ->
  ty ∈ CdpDomain.types d -> CdpType.id ty = "Cookie" ->
  NoDup (CdpProperty.name <$> CdpType.properties ty) ->
  p ∈ CdpType.properties ty -> CdpProperty.name p = "expires" ->
  CdpProperty.generate_from_json p "json" = Ok e ->
  exists d' ty',
    d' ∈ domains' /\ CdpDomain.domain d' = "Network"
    /\ ty' ∈ CdpDomain.types d' /\ CdpType.id ty' = "Cookie"
    /\ CdpProperty.name <$> CdpType.properties ty'
       = CdpProperty.name <$> CdpType.properties ty
    /\ set_optional true p ∈ CdpType.properties ty'
    /\ forall js, assoc "expires" js = None \/ assoc "expires" js = Some VNone ->
                  Runtime.decoded reg modname (set_optional true p) (VDict js) = Ok VNone.
Proof.
  intros Hfix Hd Hnet Hty Hid Hnodup Hp Hname He.
  destruct (traverse_elem _ _ _ d Hfix Hd) as (d' & Hd' & Hfixd).
  unfold fix_domain in Hfixd. rewrite Hnet in Hfixd. cbn in Hfixd. injection Hfixd as <-.
  eexists _, (patch_cookie ty). split; [exact Hd'|].
  split; [done|]. split; [by apply list_elem_of_fmap_2|].
  assert (patch_cookie ty = set_properties (patch_expires (CdpType.properties ty)) ty)
    as -> by (unfold patch_cookie; by rewrite Hid).
  split; [done|]. split; [apply patch_expires_names|].
  split; [by apply patch_expires_elem|].
  assert (exists e', CdpProperty.generate_from_json (set_optional true p) "json" = Ok e')
    as [e' He'].
  { rewrite from_json_optional in He. apply bind_Ok in He as (e0 & He0 & _).
    eexists. rewrite from_json_optional.
    change (set_optional false (set_optional true p)) with (set_optional false p).
    rewrite He0. reflexivity. }
  intros js Hentry. unfold Runtime.decoded. rewrite He'.
  change (eval reg modname [("json", VDict js)] e' = Ok VNone).
  eapply (optional_without_value reg modname (set_optional true p) "json" e'
            [("json", VDict js)] js); try done.
  cbn. rewrite Hname. tauto.
Qed.

End Cookie.

Lemma patch_resolve_node_elem (cmds cmds' : list CdpCommand.t) (cmd : CdpCommand.t)
  (p : CdpProperty.t) :
  patch_resolve_node cmds = Ok cmds' ->
  NoDup (CdpCommand.name <$> cmds) ->
  cmd ∈ cmds -> CdpCommand.name cmd = "resolveNode" ->
  CdpCommand.parameters cmd !! 1 = Some p ->
  set_parameters (<[1 := set_ref "BackendNodeId" p]> (CdpCommand.parameters cmd)) cmd
    ∈ cmds'.
Proof.
  intros Hpatch Hnodup Hcmd Hname Hp. revert cmds' Hpatch.
  induction cmds as [|c cmds IH]; intros cmds' Hpatch; [by apply elem_of_nil in Hcmd|].
  rewrite fmap_cons in Hnodup. apply NoDup_cons in Hnodup as [Hc Hnodup]. simpl in Hpatch.
  apply elem_of_cons in Hcmd as [<-|Hcmd].
  - rewrite Hname in Hpatch. cbn in Hpatch. rewrite Hp in Hpatch.
    injection Hpatch as <-. left.
  - destruct (String.eqb_spec (CdpCommand.name c) "resolveNode") as [Heq|_].
    + destruct Hc. rewrite Heq, <- Hname. by apply list_elem_of_fmap_2.
    + apply bind_Ok in Hpatch as (rest & Hrest & [= <-]). right. by apply IH.
Qed.

(** X13.  After the patches, the second parameter of the command
    [resolveNode] of the domain [DOM] refers to [BackendNodeId] without
    the name of a domain.  When it has no items, its line in the call
    signature is annotated [BackendNodeId] and nothing of a module, and
    its decoder calls [BackendNodeId.from_json]. *)
Theorem resolve_node_after_fix `{Naming} (domains domains' : list CdpDomain.t)
  (d : CdpDomain.t) (cmd : CdpCommand.t) (p : CdpProperty.t) :
  fix_protocol_spec domains = Ok domains' ->
  d ∈ domains -> CdpDomain.domain d = "DOM" ->
  NoDup (CdpCommand.name <$> CdpDomain.commands d) ->
  cmd ∈ CdpDomain.commands d -> CdpCommand.name cmd = "resolveNode" ->
  CdpCommand.parameters cmd !! 1 = Some p ->
  CdpProperty.items p = None ->
  exists d' cmd',
    d' ∈ domains' /\ CdpDomain.domain d' = "DOM"
    /\ cmd' ∈ CdpDomain.commands d' /\ CdpCommand.name cmd' = "resolveNode"
    /\ CdpCommand.parameters cmd'
       = <[1 := set_ref "BackendNodeId" p]> (CdpCommand.parameters cmd)
    /\ CdpParameter.generate_code (set_ref "BackendNodeId" p)
       = Ok (Decl (CdpProperty.py_name p)
               (if CdpProperty.optional p
                then "typing.Optional[BackendNodeId]" else "BackendNodeId")
               (CdpProperty.optional p))
    /\ CdpProperty.generate_from_json (set_ref "BackendNodeId" p) "json"
       = Ok (let e := Py.EFromJson "BackendNodeId"
                        (Py.EItem (Py.EName "json") (CdpProperty.name p)) in
             if CdpProperty.optional p
             then Py.EIfNotNone e (Py.EGet (Py.EName "json") (CdpProperty.name p))
             else e).
Proof.
  intros Hfix Hd Hdom Hnodup Hcmd Hname Hp Hitems.
  destruct (traverse_elem _ _ _ d Hfix Hd) as (d' & Hd' & Hfixd).
  unfold fix_domain in Hfixd. rewrite Hdom in Hfixd. cbn in Hfixd.
  apply bind_Ok in Hfixd as (cmds' & Hcmds' & [= <-]).
  eexists _, _. split; [exact Hd'|]. split; [done|].
  split; [exact (patch_resolve_node_elem _ _ cmd p Hcmds' Hnodup Hcmd Hname Hp)|].
  split; [done|]. split; [done|].
  unfold CdpParameter.generate_code, CdpProperty.generate_from_json. cbn.
  rewrite Hitems. cbn. split; [by destruct (CdpProperty.optional p)|].
  by rewrite ref_to_python_domain_plain.
Qed.

(** ** Reading the description *)

Lemma parsed_bind_Parsed {A B : Type} (m : Json.parsed A) (f : A -> Json.parsed B) (b : B) :
  m ≫= f = Json.Parsed b -> exists a, m = Json.Parsed a /\ f a = Json.Parsed b.
Proof. destruct m as [a|e|]; simpl; [eauto | discriminate | discriminate]. Qed.

Lemma parsed_bind_Fails {A B : Type} (m : Json.parsed A) (f : A -> Json.parsed B)
  (e : pyexc) :
  m ≫= f = Json.Fails e ->
  m = Json.Fails e \/ exists a, m = Json.Parsed a /\ f a = Json.Fails e.
Proof. destruct m as [a|e'|]; simpl; [eauto | intros [= ->]; eauto | discriminate]. Qed.

Lemma each_Parsed {A B : Type} (f : A -> Json.parsed B) (l : list A) (r : list B) :
  Json.each f l = Json.Parsed r -> Forall2 (fun x y => f x = Json.Parsed y) l r.
Proof.
  revert r. induction l as [|x l IH]; intros r; simpl.
  - intros [= <-]. constructor.
  - intros (y & Hy & Hr)%parsed_bind_Parsed.
    apply parsed_bind_Parsed in Hr as (ys & Hys & [= <-]). constructor; auto.
Qed.

Lemma each_Fails {A B : Type} (f : A -> Json.parsed B) (l : list A) (e : pyexc) :
  Json.each f l = Json.Fails e -> exists x, x ∈ l /\ f x = Json.Fails e.
Proof.
  induction l as [|x l IH]; simpl; [done|].
  intros [Hx|(y & Hy & Hrest)]%parsed_bind_Fails.
  - exists x. split; [left | done].
  - apply parsed_bind_Fails in Hrest as [Hrest|(ys & _ & Hno)]; [|done].
    destruct (IH Hrest) as (x' & Hx' & Hfx'). exists x'. split; [by right | done].
Qed.

Ltac parsed_inv H :=
  repeat match type of H with
         | _ ≫= _ = Json.Parsed _ =>
             let a := fresh "a" in let Ha := fresh "Ha" in
             apply parsed_bind_Parsed in H as (a & Ha & H)
         end.

Lemma property_from_json_domain (j : Json.t) (domain : string) (p : CdpProperty.t) :
  CdpProperty.from_json j domain = Json.Parsed p -> CdpProperty.domain p = domain.
Proof.
  destruct j; try done. cbn [CdpProperty.from_json]. intros H.
  parsed_inv H. by injection H as <-.
Qed.

Lemma properties_from_json_domain (js : list Json.t) (domain : string)
  (ps : list CdpProperty.t) :
  Json.each (fun p => CdpProperty.from_json p domain) js = Json.Parsed ps ->
  Forall (fun p => CdpProperty.domain p = domain) ps.
Proof.
  intros Hall%each_Parsed. induction Hall as [|j p js ps Hp _ IH]; constructor; [|done].
  by eapply property_from_json_domain.
Qed.

Lemma type_from_json_domain (j : Json.t) (domain : string) (ty : CdpType.t) :
  CdpType.from_json j domain = Json.Parsed ty ->
  Forall (fun p => CdpProperty.domain p = domain) (CdpType.properties ty).
Proof.
  destruct j; try done. cbn [CdpType.from_json]. intros H.
  parsed_inv H. injection H as <-. cbn. by eapply properties_from_json_domain.
Qed.

Lemma command_from_json_domain (j : Json.t) (domain : string) (cmd : CdpCommand.t) :
  CdpCommand.from_json j domain = Json.Parsed cmd ->
  CdpCommand.domain cmd = domain
  /\ Forall (fun p => CdpProperty.domain p = domain)
       (CdpCommand.parameters cmd ++ CdpCommand.returns cmd).
Proof.
  destruct j; try done. cbn [CdpCommand.from_json]. intros H.
  parsed_inv H. injection H as <-. cbn. split; [done|].
  apply Forall_app. split; by eapply properties_from_json_domain.
Qed.

Lemma event_from_json_domain (j : Json.t) (domain : string) (ev : CdpEvent.t) :
  CdpEvent.from_json j domain = Json.Parsed ev ->
  CdpEvent.domain ev = domain
  /\ Forall (fun p => CdpProperty.domain p = domain) (CdpEvent.parameters ev).
Proof.
  destruct j; try done. cbn [CdpEvent.from_json]. intros H.
  parsed_inv H. injection H as <-. cbn. split; [done|].
  by eapply properties_from_json_domain.
Qed.

Lemma Forall_flat_map {A B : Type} (P : B -> Prop) (f : A -> list B) (l : list A) :
  Forall (fun x => Forall P (f x)) l -> Forall P (flat_map f l).
Proof.
  induction 1 as [|x l Hx _ IH]; simpl; [constructor|]. apply Forall_app. by split.
Qed.

Lemma domain_from_json_Parsed (j : Json.t) (d : CdpDomain.t) :
  CdpDomain.from_json j = Json.Parsed d ->
  (exists entries, j = Json.JObject entries
                   /\ Py.assoc "domain" entries = Some (Json.JString (CdpDomain.domain d)))
  /\ Forall (fun p => CdpProperty.domain p = CdpDomain.domain d)
       (CdpDomain.all_properties d)
  /\ Forall (fun cmd => CdpCommand.domain cmd = CdpDomain.domain d)
       (CdpDomain.commands d)
  /\ Forall (fun ev => CdpEvent.domain ev = CdpDomain.domain d) (CdpDomain.events d).
Proof.
  destruct j as [| | | | | |entries]; try done. cbn [CdpDomain.from_json]. intros H.
  apply parsed_bind_Parsed in H as (domain_name & Hname & H).
  apply parsed_bind_Parsed in H as (description & _ & H).
  apply parsed_bind_Parsed in H as (experimental & _ & H).
  apply parsed_bind_Parsed in H as (dependencies & _ & H).
  apply parsed_bind_Parsed in H as (tys & _ & H).
  apply parsed_bind_Parsed in H as (types & Htypes%each_Parsed & H).
  apply parsed_bind_Parsed in H as (cmds & _ & H).
  apply parsed_bind_Parsed in H as (commands & Hcommands%each_Parsed & H).
  apply parsed_bind_Parsed in H as (evs & _ & H).
  apply parsed_bind_Parsed in H as (events & Hevents%each_Parsed & H).
  injection H as <-. cbn [CdpDomain.domain CdpDomain.commands CdpDomain.events].
  split; [|split; [|split]].
  - exists entries. split; [done|]. unfold Json.item_str in Hname.
    destruct (Py.assoc "domain" entries) as [[]|]; try done. by injection Hname as ->.
  - unfold CdpDomain.all_properties. cbn. rewrite !Forall_app. split; [|split].
    + apply Forall_flat_map. clear -Htypes.
      induction Htypes as [|x ty xs tys' Hty _ IH]; constructor; [|done].
      by eapply type_from_json_domain.
    + apply Forall_flat_map. clear -Hcommands.
      induction Hcommands as [|x cmd xs cmds' Hcmd _ IH]; constructor; [|done].
      by apply command_from_json_domain in Hcmd as [_ ?].
    + apply Forall_flat_map. clear -Hevents.
      induction Hevents as [|x ev xs evs' Hev _ IH]; constructor; [|done].
      by apply event_from_json_domain in Hev as [_ ?].
  - clear -Hcommands. induction Hcommands as [|x cmd xs cmds' Hcmd _ IH]; constructor; [|done].
    by apply command_from_json_domain in Hcmd as [? _].
  - clear -Hevents. induction Hevents as [|x ev xs evs' Hev _ IH]; constructor; [|done].
    by apply event_from_json_domain in Hev as [? _].
Qed.

(** X14.  A domain read from its description has the name under the
    key [domain], and every property of its types, every parameter and
    return of its commands and every parameter of its events carries
    that name as its domain, as do the commands and the events. *)
Theorem from_json_carries_domain (j : Json.t) (d : CdpDomain.t) :
  CdpDomain.from_json j = Json.Parsed d ->
  (exists entries, j = Json.JObject entries
                   /\ Py.assoc "domain" entries = Some (Json.JString (CdpDomain.domain d)))
  /\ Forall (fun p => CdpProperty.domain p = CdpDomain.domain d)
       (CdpDomain.all_properties d)
  /\ Forall (fun cmd => CdpCommand.domain cmd = CdpDomain.domain d)
       (CdpDomain.commands d)
  /\ Forall (fun ev => CdpEvent.domain ev = CdpDomain.domain d) (CdpDomain.events d).
Proof. apply domain_from_json_Parsed. Qed.

Lemma item_str_Fails (k : string) (d : list (string * Json.t)) (e : pyexc) :
  Json.item_str k d = Json.Fails e -> e = KeyError k.
Proof. unfold Json.item_str. destruct (Py.assoc k d) as [[]|]; try done. by intros [= <-]. Qed.

Lemma get_str_Fails (k : string) (d : list (string * Json.t)) (e : pyexc) :
  Json.get_str k d = Json.Fails e -> False.
Proof. unfold Json.get_str. by destruct (Py.assoc k d) as [[]|]. Qed.

Lemma get_bool_Fails (k : string) (d : list (string * Json.t)) (e : pyexc) :
  Json.get_bool k d = Json.Fails e -> False.
Proof. unfold Json.get_bool. by destruct (Py.assoc k d) as [[]|]. Qed.

Lemma get_strs_Fails (k : string) (d : list (string * Json.t)) (e : pyexc) :
  Json.get_strs k d = Json.Fails e -> False.
Proof.
  unfold Json.get_strs. destruct (Py.assoc k d) as [[| | | | |l|]|]; try done.
  by destruct (Json.strings l).
Qed.

Lemma get_strs_or_empty_Fails (k : string) (d : list (string * Json.t)) (e : pyexc) :
  Json.get_strs_or_empty k d = Json.Fails e -> False.
Proof.
  unfold Json.get_strs_or_empty. destruct (Py.assoc k d) as [[| | | | |l|]|]; try done.
  by destruct (Json.strings l).
Qed.

Lemma iterate_Fails (v : Json.t) (e : pyexc) :
  Json.iterate v = Json.Fails e -> e = TypeError.
Proof. destruct v; try done; by intros [= <-]. Qed.

Lemma items_from_json_Fails (o : option Json.t) (e : pyexc) :
  match o with
  | Some its => Some <$> CdpItems.from_json its
  | None => Json.Parsed None
  end = Json.Fails e ->
  e = AttributeError.
Proof.
  destruct o as [its|]; [|done]. destruct its as [| | | | | |d]; try by intros [= <-].
  cbn [CdpItems.from_json].
  destruct (Json.get_str "type" d) eqn:H1; try done; [|by apply get_str_Fails in H1].
  cbn. destruct (Json.get_str "$ref" d) eqn:H2; try done. by apply get_str_Fails in H2.
Qed.

Ltac fails_leaf H :=
  first [ apply item_str_Fails in H
        | apply get_str_Fails in H; destruct H
        | apply get_bool_Fails in H; destruct H
        | apply get_strs_Fails in H; destruct H
        | apply get_strs_or_empty_Fails in H; destruct H
        | apply iterate_Fails in H
        | apply items_from_json_Fails in H
        | discriminate H ].

Ltac fails_inv H :=
  repeat (apply parsed_bind_Fails in H as [H|(? & _ & H)]; [try fails_leaf H|]);
  try fails_leaf H.

Lemma property_from_json_Fails (j : Json.t) (domain : string) (e : pyexc) :
  CdpProperty.from_json j domain = Json.Fails e ->
  e ∈ [KeyError "name"; AttributeError; TypeError].
Proof.
  destruct j; try (intros [= <-]; rewrite !elem_of_cons; tauto).
  cbn [CdpProperty.from_json]. intros H.
  fails_inv H; subst; rewrite !elem_of_cons; tauto.
Qed.

Lemma properties_from_json_Fails (js : list Json.t) (domain : string) (e : pyexc) :
  Json.each (fun p => CdpProperty.from_json p domain) js = Json.Fails e ->
  e ∈ [KeyError "name"; AttributeError; TypeError].
Proof. intros (j & _ & Hj)%each_Fails. by eapply property_from_json_Fails. Qed.

(** X15.  Reading the description of a domain raises no other exception
    than [KeyError] for one of the keys [domain], [id], [type] and [name]
    that an object must have, [AttributeError] for something else than
    an object where [.get] is called, and [TypeError] for something that
    cannot be iterated or indexed; a description without the key
    [domain] raises [KeyError] for it before anything else is read. *)
Theorem from_json_exceptions (j : Json.t) (e : pyexc) :
  (CdpDomain.from_json j = Json.Fails e ->
   e ∈ [KeyError "domain"; KeyError "id"; KeyError "type"; KeyError "name";
        AttributeError; TypeError])
  /\ (forall entries, j = Json.JObject entries -> Py.assoc "domain" entries = None ->
                      CdpDomain.from_json j = Json.Fails (KeyError "domain")).
Proof.
  split.
  2:{ intros entries -> Hnone. cbn [CdpDomain.from_json]. unfold Json.item_str.
      by rewrite Hnone. }
  assert (forall e, e ∈ [KeyError "name"; AttributeError; TypeError] ->
            e ∈ [KeyError "domain"; KeyError "id"; KeyError "type"; KeyError "name";
                 AttributeError; TypeError]) as Hsub.
  { intros e'. rewrite !elem_of_cons. tauto. }
  destruct j as [| | | | | |entries]; try (intros [= <-]; rewrite !elem_of_cons; tauto).
  cbn [CdpDomain.from_json]. intros H. fails_inv H; subst; try (rewrite !elem_of_cons; tauto).
  - apply each_Fails in H as (ty & _ & H).
    destruct ty; try (injection H as <-; rewrite !elem_of_cons; tauto).
    cbn [CdpType.from_json] in H. fails_inv H; subst; try (rewrite !elem_of_cons; tauto).
    apply properties_from_json_Fails in H. by apply Hsub.
  - apply each_Fails in H as (cmd & _ & H).
    destruct cmd; try (injection H as <-; rewrite !elem_of_cons; tauto).
    cbn [CdpCommand.from_json] in H. fails_inv H; subst; try (rewrite !elem_of_cons; tauto).
    + apply properties_from_json_Fails in H. by apply Hsub.
    + apply properties_from_json_Fails in H. by apply Hsub.
  - apply each_Fails in H as (ev & _ & H).
    destruct ev; try (injection H as <-; rewrite !elem_of_cons; tauto).
    cbn [CdpEvent.from_json] in H. fails_inv H; subst; try (rewrite !elem_of_cons; tauto).
    apply properties_from_json_Fails in H. by apply Hsub.
Qed.

(** X16.  From the description to the module: in the module generated
    for a domain that was read from its description, in which no
    reference has more than one dot, every class that a decoder calls by
    name is a class of the module itself or a class of a module that the
    module imports. *)
Theorem described_module_decoders `{Naming} `{Camelize} (j : Json.t) (d : CdpDomain.t)
  (m : module_def) (item : item_def) (e : Py.expr) (cls : string) :
  CdpDomain.from_json j = Json.Parsed d ->
  CdpDomain.generate_code d = Ok m ->
  (forall r, r ∈ CdpDomain.refs d -> length (Str.split "." r) <= 2) ->
  item ∈ mod_items m -> e ∈ decoders item -> cls ∈ Py.classes_of e ->
  Str.contains "." cls = false
  \/ exists module ty,
       cls = module +:+ "." +:+ ty /\ Str.contains "." ty = false
       /\ module ∈ CdpDomain.imports d.
Proof.
  intros (_ & Hdomain & _)%domain_from_json_Parsed Hgen Hdots.
  by apply decoders_imported.
Qed.

(** ** Documentation text *)

Lemma append_nil_r (s : string) : s +:+ "" = s.
Proof.
  induction s as [|a s IH]; [done|].
  change (String a (s +:+ "") = String a s). by rewrite IH.
Qed.

Lemma append_cons (a : ascii) (s1 s2 : string) :
  String a s1 +:+ s2 = String a (s1 +:+ s2).
Proof. done. Qed.

Lemma replace_absent (c : ascii) (t s : string) :
  Str.contains c s = false -> Str.replace c t s = s.
Proof.
  induction s as [|a s IH]; simpl; [done|].
  destruct (Ascii.eqb a c); [done|]. intros Hs. by rewrite IH.
Qed.

Lemma replace_app (c : ascii) (t s1 s2 : string) :
  Str.replace c t (s1 +:+ s2) = Str.replace c t s1 +:+ Str.replace c t s2.
Proof.
  induction s1 as [|a s1 IH]; [done|].
  rewrite append_cons. simpl. rewrite IH.
  destruct (Ascii.eqb a c); [by rewrite append_assoc | done].
Qed.

Lemma replace_gone (c : ascii) (t s : string) :
  Str.contains c t = false -> Str.contains c (Str.replace c t s) = false.
Proof.
  intros Ht. induction s as [|a s IH]; simpl; [done|].
  destruct (Ascii.eqb a c) eqn:Ha.
  - by rewrite contains_app, Ht, IH.
  - simpl. by rewrite Ha.
Qed.

Lemma backtick_sub_outside (s : string) :
  Str.contains "`" s = false -> backtick_sub Outside s = s.
Proof.
  induction s as [|a s IH]; simpl; [done|].
  destruct (Ascii.eqb a "`"); [done|]. intros Hs. by rewrite IH.
Qed.

Lemma backtick_sub_prefix (pre rest : string) :
  Str.contains "`" pre = false ->
  backtick_sub Outside (pre +:+ rest) = pre +:+ backtick_sub Outside rest.
Proof.
  induction pre as [|a pre IH]; [done|].
  rewrite !append_cons. cbn [backtick_sub Str.contains].
  destruct (Ascii.eqb a "`") eqn:Ha; [done|]. intros Hpre.
  by rewrite IH.
Qed.

Lemma backtick_sub_inside (acc inner rest : string) :
  Str.contains "`" inner = false -> acc +:+ inner <> "" ->
  backtick_sub (Inside acc) (inner +:+ String "`" rest)
  = backtick_sub (Behind (acc +:+ inner) "") rest.
Proof.
  revert acc. induction inner as [|a inner IH]; intros acc; simpl.
  - intros _ Hne. rewrite append_nil_r in *.
    destruct (String.eqb_spec acc ""); [done|].
    change ("" +:+ String "`" rest) with (String "`" rest). cbn [backtick_sub].
    cbn. by destruct (String.eqb_spec acc "").
  - destruct (Ascii.eqb a "`") eqn:Ha; [done|]. intros Hinner Hne.
    assert ((acc +:+ String a "") +:+ inner = acc +:+ String a inner) as Happ
      by by rewrite append_assoc.
    rewrite IH; [by rewrite Happ | done | by rewrite Happ].
Qed.

Lemma backtick_sub_behind (inner acc trailer post : string) :
  word trailer -> no_word_ahead post ->
  backtick_sub (Behind inner acc) (trailer +:+ post)
  = replace_one inner (acc +:+ trailer) +:+ backtick_sub Outside post.
Proof.
  unfold word. revert acc. induction trailer as [|a trailer IH]; intros acc; simpl.
  - intros _ Hpost. rewrite append_nil_r.
    change ("" +:+ post) with post.
    destruct post as [|b post]; simpl.
    + by rewrite append_nil_r.
    + simpl in Hpost. by rewrite Hpost.
  - intros [Ha Htrailer]%andb_true_iff Hpost.
    rewrite Ha, IH by done. by rewrite append_assoc.
Qed.

Lemma replace_one_clean (c : ascii) (inner trailer : string) :
  Str.contains c "``'s " = false ->
  Str.contains c inner = false -> Str.contains c trailer = false ->
  Str.contains c (replace_one inner trailer) = false.
Proof.
  intros Hc Hinner Htrailer. unfold replace_one.
  cbn [Str.contains] in Hc. destruct (Ascii.eqb "`" c) eqn:H1; [done|].
  destruct (Ascii.eqb "'" c) eqn:H2; [done|].
  destruct (Ascii.eqb "s" c) eqn:H3; [done|].
  destruct (Ascii.eqb " " c) eqn:H4; [done|].
  assert (Str.contains c "``" = false) as Hticks
    by (cbn [Str.contains]; by rewrite H1).
  destruct (String.eqb trailer "s"); [|destruct (negb _)];
    rewrite !contains_app, ?Hinner, ?Htrailer, ?Hticks; cbn [Str.contains orb];
    by rewrite ?H1, ?H2, ?H3, ?H4.
Qed.

Lemma backtick_sub_clean (c : ascii) (st : backtick_scan) (s : string) :
  Str.contains c "``'s " = false ->
  scan_clean c st -> Str.contains c s = false ->
  Str.contains c (backtick_sub st s) = false.
Proof.
  intros Hc. assert (Ascii.eqb "`" c = false) as Htick.
  { cbn [Str.contains] in Hc. by destruct (Ascii.eqb "`" c). }
  revert st. induction s as [|a s IH]; intros st Hst; cbn [backtick_sub Str.contains].
  - intros _. destruct st as [|inner|inner trailer]; cbn [scan_clean] in Hst; [done| |].
    + cbn [Str.contains]. by rewrite Htick.
    + destruct Hst. by apply replace_one_clean.
  - destruct (Ascii.eqb a c) eqn:Ha; [done|]. intros Hs.
    destruct st as [|inner|inner trailer]; cbn [scan_clean] in Hst.
    + destruct (Ascii.eqb a "`"); [by apply IH|].
      cbn [Str.contains]. rewrite Ha. by apply IH.
    + destruct (Ascii.eqb a "`").
      * destruct (String.eqb inner ""); [|by apply IH].
        cbn [Str.contains]. rewrite Htick. by apply IH.
      * apply IH; [|done]. cbn [scan_clean]. rewrite contains_app, Hst.
        cbn [Str.contains orb]. by rewrite Ha.
    + destruct Hst as [Hinner Htrailer]. destruct (Str.is_word a).
      * apply IH; [|done]. split; [done|].
        rewrite contains_app, Htrailer. cbn [Str.contains orb]. by rewrite Ha.
      * rewrite contains_app, replace_one_clean by done. cbn [orb].
        destruct (Ascii.eqb a "`"); [by apply IH|].
        cbn [Str.contains]. rewrite Ha. by apply IH.
Qed.

(** X17.  [escape_backticks] leaves a text without backtick and without
    pipe as it is, reads a pipe as a backtick, and leaves no pipe in any
    text.  A span between two backticks with something in it comes out
    between doubled backticks; a letter [s] right behind it is set off
    by an apostrophe, any other word right behind it by a space.  Here
    the text in front of the span has no backtick, so the span is the
    first one. *)
Theorem escape_backticks_spans :
  (forall s, Str.contains "`" s = false -> Str.contains "|" s = false ->
             escape_backticks s = s)
  /\ (forall s, escape_backticks (Str.replace "|" "`" s) = escape_backticks s
                /\ Str.contains "|" (escape_backticks s) = false)
  /\ (forall pre inner trailer post,
         Str.contains "`" pre = false -> Str.contains "|" pre = false ->
         inner <> "" ->
         Str.contains "`" inner = false -> Str.contains "|" inner = false ->
         word trailer -> no_word_ahead post ->
         escape_backticks (pre +:+ "`" +:+ inner +:+ "`" +:+ trailer +:+ post)
         = pre
             +:+ (if String.eqb trailer "s" then "``" +:+ inner +:+ "``'s"
                  else if String.eqb trailer "" then "``" +:+ inner +:+ "``"
                  else "``" +:+ inner +:+ "`` " +:+ trailer)
             +:+ escape_backticks post).
Proof.
  unfold escape_backticks. split; [|split].
  - intros s Htick Hpipe. by rewrite replace_absent, backtick_sub_outside.
  - intros s. split.
    + by rewrite (replace_absent "|" "`" (Str.replace "|" "`" s)) by by apply replace_gone.
    + apply backtick_sub_clean; [done..|]. by apply replace_gone.
  - intros pre inner trailer post Hpre Hpre' Hne Hinner Hinner' Htrailer Hpost.
    assert (Str.contains "|" trailer = false) as Htrailer'.
    { clear -Htrailer. unfold word in Htrailer.
      induction trailer as [|a trailer IH]; simpl in *; [done|].
      apply andb_true_iff in Htrailer as [Ha Htrailer].
      destruct (Ascii.eqb_spec a "|") as [->|_]; [done | by apply IH]. }
    rewrite !replace_app, !(replace_absent "|") by done.
    change (Str.replace "|" "`" "`") with "`".
    rewrite backtick_sub_prefix by done.
    change ("`" +:+ inner +:+ "`" +:+ trailer +:+ Str.replace "|" "`" post)
      with (String "`" (inner +:+ String "`" (trailer +:+ Str.replace "|" "`" post))).
    cbn [backtick_sub]. change (Ascii.eqb "`" "`") with true. cbn iota.
    rewrite (backtick_sub_inside "" inner) by done.
    change ("" +:+ inner) with inner.
    rewrite backtick_sub_behind.
    + change ("" +:+ trailer) with trailer. unfold replace_one.
      destruct (String.eqb trailer "s"); [done|]. by destruct (String.eqb trailer "").
    + done.
    + destruct post as [|b post]; simpl; [done|]. simpl in Hpost.
      destruct (Ascii.eqb_spec b "|") as [->|_]; [done|]. done.
Qed.

Lemma split_clean (c : ascii) (s : string) :
  Forall (fun l => Str.contains c l = false) (Str.split c s).
Proof.
  induction s as [|a s IH]; cbn [Str.split]; [by repeat constructor|].
  destruct (Ascii.eqb a c) eqn:Ha; [by constructor|].
  destruct (Str.split c s) as [|w ws]; [by repeat constructor; cbn; rewrite Ha|].
  apply Forall_cons in IH as [Hw Hws]. constructor; [|done].
  cbn [Str.contains]. by rewrite Ha.
Qed.

Lemma join_cons (sep p q : string) (rest : list string) :
  Str.join sep (p :: q :: rest) = p +:+ sep +:+ Str.join sep (q :: rest).
Proof. done. Qed.

Lemma split_join (c : ascii) (ls : list string) :
  ls <> [] -> Forall (fun l => Str.contains c l = false) ls ->
  Str.split c (Str.join (String c "") ls) = ls.
Proof.
  intros Hne Hls. induction Hls as [|p ls Hp Hls IH]; [done|].
  destruct ls as [|q rest].
  - cbn [Str.join]. by apply split_no_sep.
  - rewrite join_cons.
    change (String c "" +:+ Str.join (String c "") (q :: rest))
      with (String c (Str.join (String c "") (q :: rest))).
    rewrite split_app by done. by rewrite IH.
Qed.

Lemma join_snoc (sep x : string) (ls : list string) :
  ls <> [] -> Str.join sep (ls ++ [x]) = Str.join sep ls +:+ sep +:+ x.
Proof.
  intros Hne. induction ls as [|p ls IH]; [done|].
  destruct ls as [|q rest]; [done|].
  change ((p :: q :: rest) ++ [x]) with (p :: q :: (rest ++ [x])).
  rewrite !join_cons, !append_assoc. do 2 f_equal.
  change (q :: rest ++ [x]) with ((q :: rest) ++ [x]). by apply IH.
Qed.

Lemma render_decl_text `{Naming} (p : CdpProperty.t) :
  CdpProperty.generate_decl_text p
  = d ← CdpProperty.generate_decl p;
    Ok (let code := inline_doc (CdpProperty.description p) in
        (if bool_decide (code = "") then code else code +:+ Str.nl) +:+ render_decl d).
Proof.
  unfold CdpProperty.generate_decl_text, CdpProperty.generate_decl.
  destruct (CdpProperty.py_annotation p) as [ann|exc]; [|done]. cbn.
  unfold render_decl. cbn. f_equal.
  destruct (CdpProperty.optional p); by rewrite ?append_assoc, ?append_nil_r.
Qed.

(** X18.  The text that declares a field of a record is, line by line:
    one comment line [#: ...] for each line of the escaped description,
    when there is a description, and then the line [name: annotation],
    with [ = None] behind it for an optional field.  (The name and the
    annotation are taken to hold no line break.) *)
Theorem decl_text_lines `{Naming} (p : CdpProperty.t) (text : string) :
  CdpProperty.generate_decl_text p = Ok text ->
  exists d,
    CdpProperty.generate_decl p = Ok d
    /\ (Str.contains "010" (render_decl d) = false ->
        Str.split "010" text
        = ((fun l => "#: " +:+ l)
             <$> match truthy (CdpProperty.description p) with
                 | Some description => Str.split "010" (escape_backticks description)
                 | None => []
                 end)
            ++ [render_decl d]).
Proof.
  rewrite render_decl_text. intros (d & Hd & [= <-])%bind_Ok.
  exists d. split; [done|]. intros Hclean. unfold inline_doc.
  destruct (truthy (CdpProperty.description p)) as [description|].
  2:{ cbn. by apply split_no_sep. }
  set (ls := (fun l => "#: " +:+ l) <$> Str.split "010" (escape_backticks description)).
  assert (ls <> []) as Hne.
  { unfold ls. pose proof (split_length_pos "010" (escape_backticks description)).
    destruct (Str.split "010" (escape_backticks description)); [simpl in *; lia | done]. }
  assert (Str.join Str.nl ls <> "") as Hcode.
  { unfold ls in *. destruct (Str.split "010" (escape_backticks description)) as [|l [|l' rest]];
      [done|done|]. rewrite !fmap_cons, join_cons. done. }
  cbn zeta. rewrite bool_decide_false by done.
  rewrite append_assoc, <- join_snoc by done.
  apply split_join.
  - by destruct ls.
  - apply Forall_app. split; [|by repeat constructor].
    unfold ls. apply Forall_fmap.
    eapply Forall_impl; [apply (split_clean "010")|].
    intros l Hl. cbn. by rewrite contains_app, Hl.
Qed.

(** X19.  The [:param ...:] entry of a parameter in the docstring of a
    command is one line, when the Python name of the parameter is, and
    so is the text of a return behind [:returns:]: every line break of
    the description has become a space. *)
Theorem generate_doc_one_line `{Naming} (p : CdpProperty.t) :
  (Str.contains "010" (CdpProperty.py_name p) = false ->
   Str.contains "010" (CdpParameter.generate_doc p) = false)
  /\ Str.contains "010" (CdpReturn.generate_doc p) = false.
Proof.
  split.
  - intros Hname. unfold CdpParameter.generate_doc.
    assert (forall (b : bool) (doc extra : string),
               Str.contains "010" doc = false -> Str.contains "010" extra = false ->
               Str.contains "010" (if b then doc +:+ extra else doc) = false) as Hflag.
    { intros [] doc extra Hdoc Hextra; [|done]. by rewrite contains_app, Hdoc, Hextra. }
    assert (Str.contains "010"
              (let doc := ":param " +:+ CdpProperty.py_name p +:+ ":" in
               let doc := if CdpProperty.deprecated p
                          then doc +:+ " **(DEPRECATED)**" else doc in
               let doc := if CdpProperty.experimental p
                          then doc +:+ " **(EXPERIMENTAL)**" else doc in
               if CdpProperty.optional p then doc +:+ " *(Optional)*" else doc) = false)
      as Hdoc.
    { cbn zeta. repeat apply Hflag; try done.
      by rewrite !contains_app, Hname. }
    cbn zeta in *. destruct (truthy (CdpProperty.description p)) as [description|]; [|done].
    rewrite !contains_app, Hdoc. cbn [Str.contains orb].
    by apply replace_gone.
  - unfold CdpReturn.generate_doc.
    destruct (truthy (CdpProperty.description p)) as [description|]; [|done].
    cbn zeta. destruct (CdpProperty.optional p).
    + rewrite contains_app. cbn [orb].
      assert (Str.contains "010" "*(Optional)* " = false) as -> by done.
      by apply replace_gone.
    + by apply replace_gone.
Qed.

(** * The examples *)

(** The examples, as the generator writes them *)
Example generated_Bar :
  CdpType.generate_code (H := Inflection.naming) Scenario.Bar
  = Ok (DataclassDef "Bar" Scenario.Bar_fields Scenario.Bar_to_json Scenario.Bar_from_json).
Proof. reflexivity. Qed.

Example generated_do_thing :
  CdpCommand.generate_code (H := Inflection.naming) Scenario.doThing = Ok Scenario.do_thing.
Proof. reflexivity. Qed.

Example generated_measure :
  CdpCommand.generate_code (H := Inflection.naming) Scenario.measure = Ok Scenario.measure_fn.
Proof. reflexivity. Qed.

(** The text of the encoder and of the decoder of [y] *)
Example text_of_y :
  CdpProperty.generate_to_json_text (H := Inflection.naming) Scenario.y "json" true
  = "if self.y is not None:" +:+ Str.nl +:+ "    json['y'] = self.y"
  /\ CdpProperty.generate_from_json_text (H := Inflection.naming) Scenario.y "json"
     = Ok "str(json['y']) if json.get('y', None) is not None else None".
Proof. split; reflexivity. Qed.

(** Scenario A: [Bar(x=3, y=None)] encodes to [{"x": 3}], which decodes
    to [Bar(x=3, y=None)]. *)
Example scenario_A :
  forall def, CdpType.generate_code (H := Inflection.naming) Scenario.Bar = Ok def ->
  let c := Runtime.class_sem (H := Scenario.builtins) Scenario.no_classes "foo" def in
  let bar := Py.VObj "foo.Bar" [("x", Py.VInt 3); ("y", Py.VNone)] in
  Py.cls_to_json c bar = Ok (Py.VDict [("x", Py.VInt 3)])
  /\ Py.cls_from_json c (Py.VDict [("x", Py.VInt 3)]) = Ok bar.
Proof. intros def [= <-]. split; reflexivity. Qed.

(** Scenario B: [do_thing(a=5)] hands out the request
    [{"method": "Foo.doThing", "params": {"a": 5}}] and, resumed, ends
    with [None]. *)
Example scenario_B :
  exists resume,
    Runtime.call (H := Scenario.builtins) Scenario.no_classes "foo" Scenario.do_thing
      [("a", Py.VInt 5)]
    = Runtime.Yield
        (Py.VDict [("method", Py.VStr "Foo.doThing");
                   ("params", Py.VDict [("a", Py.VInt 5)])])
        resume
    /\ forall json, resume json = Runtime.Done (Ok Py.VNone).
Proof. eexists. split; [reflexivity | done]. Qed.

(** * Instances of the theorems *)



Ltac by_computation := compute_done.



(** A box of the package [Foo]: the record of depth two is written out
    with its nested record and its enumeration members, and read back. *)
Example package_round_trip :
  exists c,
    Package.load (H := Inflection.naming) (H0 := Scenario.builtins) [Scenario.Foo] 2 "foo.Box"
    = Some c
    /\ Py.cls_to_json c Scenario.a_box
       = Ok (Py.VDict [("bar", Py.VDict [("x", Py.VInt 3)]);
                       ("colours", Py.VList [Py.VStr "red"])])
    /\ Py.cls_from_json c
         (Py.VDict [("bar", Py.VDict [("x", Py.VInt 3)]);
                    ("colours", Py.VList [Py.VStr "red"])])
       = Ok Scenario.a_box.
Proof. eexists. split; [reflexivity|]. split; reflexivity. Qed.

Lemma missing_field_decoding_witness :
  (Py.eval (H := Scenario.builtins) Scenario.no_classes "foo" [("json", Py.VDict [])]
     (Py.ECons CdpPrimitiveType.integer (Py.EItem (Py.EName "json") "x"))
   = Raise (KeyError "x"))
  /\ (Py.eval (H := Scenario.builtins) Scenario.no_classes "foo" [("json", Py.VDict [])]
        (Py.EIfNotNone
           (Py.ECons CdpPrimitiveType.string_t (Py.EItem (Py.EName "json") "y"))
           (Py.EGet (Py.EName "json") "y"))
      = Ok Py.VNone)
  /\ exists exc,
      Runtime.dataclass_from_json (H := Scenario.builtins) Scenario.no_classes "foo"
        "foo.Bar" Scenario.Bar_fields Scenario.Bar_from_json
        (Py.VDict [("y", Py.VStr "text")])
      = Raise exc.
Proof.
  pose proof (@missing_field_decoding Inflection.naming Scenario.builtins
                Scenario.no_classes "foo") as [Hfield Hrecord].
  split; [|split].
  - apply (Hfield Scenario.x "json" _ [("json", Py.VDict [])] []);
      [reflexivity | reflexivity | reflexivity | intros cls arg [=]].
  - apply (Hfield Scenario.y "json" _ [("json", Py.VDict [])] []);
      [reflexivity | reflexivity | reflexivity | intros cls arg [=]].
  - apply (Hrecord Scenario.Bar "Bar" _ Scenario.Bar_to_json _ Scenario.x
             [("y", Py.VStr "text")] "foo.Bar");
      [reflexivity | left | reflexivity | reflexivity].
Defined.

Lemma declaration_order_witness :
  (exists name fields to_json from_json,
      CdpType.generate_class_code (H := Inflection.naming) Scenario.Mixed
      = Ok (DataclassDef name fields to_json from_json)
      /\ decl_name <$> fields = ["width"; "height"; "note"; "tag"]
      /\ Forall2 (fun p d => CdpProperty.generate_decl (H := Inflection.naming) p = Ok d
                             /\ decl_default_none d = CdpProperty.optional p)
           (List.filter (fun p => negb (CdpProperty.optional p))
              (CdpType.properties Scenario.Mixed)
              ++ List.filter CdpProperty.optional (CdpType.properties Scenario.Mixed))
           fields)
  /\ CdpCommand.generate_code (H := Inflection.naming) Scenario.measure
     = Ok Scenario.measure_fn
  /\ Forall2 (fun p d => CdpParameter.generate_code (H := Inflection.naming) p = Ok d
                         /\ decl_default_none d = CdpProperty.optional p)
       (List.filter (fun p => negb (CdpProperty.optional p))
          (CdpCommand.parameters Scenario.measure)
          ++ List.filter CdpProperty.optional (CdpCommand.parameters Scenario.measure))
       (fn_params Scenario.measure_fn).
Proof.
  pose proof (@declaration_order_stable_partition Inflection.naming) as [Hty Hcmd].
  split; [|split].
  - do 4 eexists. split; [reflexivity|]. split; [reflexivity|].
    eapply (Hty Scenario.Mixed). reflexivity.
  - reflexivity.
  - eapply (Hcmd Scenario.measure). reflexivity.
Defined.



Lemma optional_null_witness :
  Py.eval (H := Scenario.builtins) Scenario.no_classes "foo"
    [("json", Py.VDict [("y", Py.VNone)])]
    (Py.EIfNotNone
       (Py.ECons CdpPrimitiveType.string_t (Py.EItem (Py.EName "json") "y"))
       (Py.EGet (Py.EName "json") "y"))
  = Ok Py.VNone
  /\ Py.eval (H := Scenario.builtins) Scenario.no_classes "foo"
       [("json", Py.VDict [])]
       (Py.EIfNotNone
          (Py.ECons CdpPrimitiveType.string_t (Py.EItem (Py.EName "json") "y"))
          (Py.EGet (Py.EName "json") "y"))
     = Ok Py.VNone.
Proof.
  apply (@optional_null_decodes_as_missing Inflection.naming Scenario.builtins
           Scenario.no_classes "foo" Scenario.y "json" _
           [("json", Py.VDict [("y", Py.VNone)])] [("json", Py.VDict [])]
           [("y", Py.VNone)] []);
    reflexivity.
Defined.

(** Scenario C: domain [B] imports the module of domain [A], and its
    reference to [A.Widget] reads [a.Widget]. *)
Example scenario_C :
  CdpDomain.import_lines (H := Inflection.naming) Scenario.B = ["from . import a"]
  /\ ref_to_python_domain (H := Inflection.naming) "A.Widget" "B" = Ok "a.Widget".
Proof. split; [by vm_compute | reflexivity]. Qed.


(** A domain that refers to a domain with its own module name imports
    its own module. *)
Lemma own_module_imported :
  well_shaped Scenario.Page
  /\ mentions Scenario.Page "page.Lower"
  /\ "page" <> CdpDomain.domain Scenario.Page
  /\ CdpDomain.module (H := Inflection.naming) Scenario.Page = "page"
  /\ CdpDomain.module (H := Inflection.naming) Scenario.Page
     ∈ CdpDomain.imports (H := Inflection.naming) Scenario.Page
  /\ CdpDomain.import_lines (H := Inflection.naming) Scenario.Page
     = ["from . import page"].
Proof.
  split; [|split; [|split; [|split; [|split]]]].
  - repeat split; repeat constructor. intros its r [=].
  - right; left. eexists _, _. split; [by apply list_elem_of_singleton|].
    split; [by apply list_elem_of_singleton|]. by left.
  - discriminate.
  - by vm_compute.
  - by vm_compute.
  - by vm_compute.
Qed.

(** Two values with one constant name: the type compiles, and the class
    body holds the name twice. *)
Lemma enum_name_collision_compiles :
  "fooBar" <> "foo_bar"
  /\ Str.upper (snake_case (H := Inflection.naming) "fooBar")
     = Str.upper (snake_case (H := Inflection.naming) "foo_bar")
  /\ CdpType.generate_code (H := Inflection.naming) Scenario.Mode
     = Ok (EnumDef "Mode" [("FOO_BAR", "fooBar"); ("FOO_BAR", "foo_bar")]).
Proof. split; [done | split; reflexivity]. Qed.

Lemma enum_constants_witness :
  CdpType.generate_code (H := Inflection.naming) Scenario.Colour
  = Ok (EnumDef "Colour" [("RED", "red"); ("DARK_BLUE", "darkBlue")])
  /\ NoDup ["RED"; "DARK_BLUE"].
Proof.
  destruct (@enum_constants Inflection.naming Scenario.Colour "red" ["darkBlue"] eq_refl)
    as [Hgen Hnames].
  split; [exact Hgen|]. apply Hnames; [by_computation|].
  intros w1 w2 Hw1 Hw2.
  apply elem_of_cons in Hw1 as [->|Hw1]; [|apply list_elem_of_singleton in Hw1 as ->];
    (apply elem_of_cons in Hw2 as [->|Hw2]; [|apply list_elem_of_singleton in Hw2 as ->]);
    first [reflexivity | discriminate].
Defined.

(** A domain [DOM] whose [resolveNode] has no parameters: [parameters[1]]
    raises. *)
Lemma resolve_node_without_parameters_raises :
  fix_protocol_spec [Scenario.DOM_bare] = Raise IndexError.
Proof. reflexivity. Qed.

Lemma fix_protocol_spec_witness :
  Forall target_complete [Scenario.DOM; Scenario.B]
  /\ (exists domains', fix_protocol_spec [Scenario.DOM; Scenario.B] = Ok domains')
  /\ Forall target_absent [Scenario.B]
  /\ fix_protocol_spec [Scenario.B] = Ok [Scenario.B].
Proof.
  assert (Forall target_complete [Scenario.DOM; Scenario.B]) as Hcomplete.
  { apply List.Forall_cons; [|apply List.Forall_cons; [|apply List.Forall_nil]].
    - split; [intros _ | discriminate].
      apply List.Forall_cons; [intros _; cbn; lia | apply List.Forall_nil].
    - split; discriminate. }
  assert (Forall target_absent [Scenario.B]) as Habsent.
  { apply List.Forall_cons; [|apply List.Forall_nil]. repeat split; discriminate. }
  split; [exact Hcomplete|].
  split; [exact (proj1 (fix_protocol_spec_safe _) Hcomplete)|].
  split; [exact Habsent|].
  exact (proj2 (fix_protocol_spec_safe _) Habsent).
Defined.

(** The patch on the protocol's [resolveNode]: the second parameter now
    refers to [BackendNodeId]. *)
Example patched_resolve_node :
  exists domain', fix_protocol_spec [Scenario.DOM] = Ok [domain']
    /\ (CdpCommand.parameters <$> CdpDomain.commands domain')
       = [[Scenario.reference "nodeId" "NodeId" true "DOM";
           Scenario.reference "backendNodeId" "BackendNodeId" true "DOM"]].
Proof. eexists. split; reflexivity. Qed.

(** ** Events, modules, descriptions and documentation *)



(** An entry under a key that is no field of [Bar] changes nothing *)
Lemma decoding_reads_own_keys_witness :
  Runtime.dataclass_from_json (H := Scenario.builtins) Scenario.no_classes "foo" "foo.Bar"
    Scenario.Bar_fields Scenario.Bar_from_json (Py.VDict [("x", Py.VInt 3)])
  = Runtime.dataclass_from_json (H := Scenario.builtins) Scenario.no_classes "foo" "foo.Bar"
      Scenario.Bar_fields Scenario.Bar_from_json
      (Py.VDict [("z", Py.VInt 9); ("x", Py.VInt 3)]).
Proof.
  destruct (@decoding_reads_own_keys Inflection.naming Inflection.camel Scenario.builtins
              Scenario.no_classes "foo" [("x", Py.VInt 3)]
              [("z", Py.VInt 9); ("x", Py.VInt 3)]) as (_ & Hrecord & _).
  apply (Hrecord Scenario.Bar "Bar" _ Scenario.Bar_to_json _ "foo.Bar" eq_refl).
  intros p Hp.
  apply elem_of_cons in Hp as [->|Hp]; [|apply list_elem_of_singleton in Hp as ->];
    reflexivity.
Defined.

Lemma Shop_refs (r : string) :
  mentions Scenario.Shop r -> r = "Foo.Bar" \/ r = "Shop.Item".
Proof.
  intros [(ty & Hty & Hr)|[(cmd & p & Hcmd & Hp & _)|(ev & p & Hev & Hp & Hr)]].
  - apply list_elem_of_singleton in Hty as ->.
    destruct Hr as [(p & Hp & Hr)|(its & Hits & _)]; [|done].
    apply elem_of_cons in Hp as [->|Hp]; [|apply list_elem_of_singleton in Hp as ->].
    + destruct Hr as [Hr|(its & Hits & _)]; [|done]. left. by injection Hr.
    + destruct Hr as [Hr|(its & Hits & Hr)]; [done|].
      injection Hits as <-. right. by injection Hr.
  - apply list_elem_of_singleton in Hcmd as ->. by apply elem_of_nil in Hp.
  - apply list_elem_of_singleton in Hev as ->.
    apply list_elem_of_singleton in Hp as ->.
    by destruct Hr as [Hr|(its & Hits & _)].
Qed.

(** The module of [Shop]: [foo.Bar.from_json] with [foo] imported, and
    [Item.from_json] of the module itself *)
Lemma decoders_use_imported_modules_witness :
  exists m,
    CdpDomain.generate_code (H := Inflection.naming) (H0 := Inflection.camel) Scenario.Shop
    = Ok m
    /\ forall item e cls,
        item ∈ mod_items m -> e ∈ decoders item -> cls ∈ Py.classes_of e ->
        Str.contains "." cls = false
        \/ exists module ty,
            cls = module +:+ "." +:+ ty /\ Str.contains "." ty = false
            /\ module ∈ CdpDomain.imports (H := Inflection.naming) Scenario.Shop.
Proof.
  assert (exists m, CdpDomain.generate_code (H := Inflection.naming)
                      (H0 := Inflection.camel) Scenario.Shop = Ok m) as [m Hgen]
    by (eexists; reflexivity).
  exists m. split; [exact Hgen|]. intros item e cls.
  apply (@decoders_use_imported_modules Inflection.naming Inflection.camel Scenario.Shop
           m item e cls Hgen).
  - repeat (apply List.Forall_cons; [reflexivity|]). apply List.Forall_nil.
  - intros r [->| ->]%refs_sound%Shop_refs; cbn; lia.
Defined.

Lemma deprecated_import_witness :
  exists m,
    CdpDomain.generate_code (H := Inflection.naming) (H0 := Inflection.camel) Scenario.Shop
    = Ok m
    /\ existsb decorated (mod_items m) = true
    /\ mod_imports m
       = "from . import foo" +:+ Str.nl
           +:+ "from deprecated.sphinx import deprecated # type: ignore".
Proof.
  assert (exists m, CdpDomain.generate_code (H := Inflection.naming)
                      (H0 := Inflection.camel) Scenario.Shop = Ok m) as [m Hgen]
    by (eexists; reflexivity).
  exists m.
  destruct (@deprecated_import_iff_decorated Inflection.naming Inflection.camel
              Scenario.Shop m Hgen) as [_ ->].
  injection Hgen as <-. split; [reflexivity|]. split; [reflexivity | by vm_compute].
Defined.

Lemma ref_to_python_by_dots_witness :
  ref_to_python (H := Inflection.naming) "BackendNodeId" = Ok "BackendNodeId"
  /\ ref_to_python (H := Inflection.naming) "DOM.NodeId" = Ok "dom.NodeId"
  /\ ref_to_python (H := Inflection.naming) "a.b.c" = Raise ValueError
  /\ ref_to_python_domain (H := Inflection.naming) "DOM.NodeId" "DOM" = Ok "NodeId".
Proof.
  destruct (@ref_to_python_by_dots Inflection.naming) as (Hplain & Hone & Htwo & Hown).
  split; [|split; [|split]].
  - by apply (Hplain "BackendNodeId" "DOM").
  - by apply (Hone "DOM" "NodeId").
  - apply (Htwo "a" "b" "c").
  - exact (eq_trans (Hown "DOM" "NodeId") (proj1 (Hplain "NodeId" "DOM" eq_refl))).
Defined.

Lemma unknown_type_raises_witness :
  CdpProperty.py_annotation (H := Inflection.naming) Scenario.blob
  = Raise (KeyError "binary")
  /\ CdpProperty.generate_from_json (H := Inflection.naming) Scenario.blob "json"
     = Raise (KeyError "binary").
Proof.
  destruct (@unknown_type_raises Inflection.naming Scenario.blob "binary" "json")
    as (Hann & Hfrom & _); [reflexivity | reflexivity | reflexivity | by_computation |].
  by split.
Defined.

Lemma enum_accepts_declared_values_witness :
  exists def,
    CdpType.generate_code (H := Inflection.naming) Scenario.Colour = Ok def
    /\ Py.cls_from_json
         (Runtime.class_sem (H := Scenario.builtins) Scenario.no_classes "foo" def)
         (Py.VStr "darkBlue")
       = Ok (Py.VEnum "foo.Colour" "darkBlue")
    /\ Py.cls_from_json
         (Runtime.class_sem (H := Scenario.builtins) Scenario.no_classes "foo" def)
         (Py.VStr "green")
       = Raise ValueError.
Proof.
  eexists. split; [reflexivity|].
  split.
  - apply (@enum_accepts_declared_values Inflection.naming Scenario.builtins
             Scenario.no_classes "foo" Scenario.Colour "red" ["darkBlue"] _ "darkBlue"
             eq_refl); [by_computation | reflexivity | by_computation].
  - apply (@enum_accepts_declared_values Inflection.naming Scenario.builtins
             Scenario.no_classes "foo" Scenario.Colour "red" ["darkBlue"] _ "green"
             eq_refl); [by_computation | reflexivity | by_computation].
Defined.

Lemma array_alias_keeps_items_witness :
  exists def,
    CdpType.generate_code (H := Inflection.naming) Scenario.ArrayOfStrings = Ok def
    /\ Py.cls_from_json
         (Runtime.class_sem (H := Scenario.builtins) Scenario.no_classes "foo" def)
         (Py.VList [Py.VStr "a"; Py.VInt 1])
       = Ok (Py.VNew "foo.ArrayOfStrings" (Py.VList [Py.VStr "a"; Py.VInt 1])).
Proof.
  eexists. split; [reflexivity|].
  apply (@array_alias_keeps_items Inflection.naming Scenario.builtins Scenario.no_classes
           "foo" Scenario.ArrayOfStrings (CdpItems.mk (Some "string") None) _
           [Py.VStr "a"; Py.VInt 1]); [by left | reflexivity | reflexivity | reflexivity].
Defined.

Lemma fix_protocol_spec_idempotent_witness :
  exists domains',
    fix_protocol_spec [Scenario.DOM; Scenario.Network] = Ok domains'
    /\ fix_protocol_spec domains' = Ok domains'.
Proof.
  eexists. split; [reflexivity|].
  apply (fix_protocol_spec_idempotent [Scenario.DOM; Scenario.Network]). reflexivity.
Defined.

Lemma cookie_expires_after_fix_witness :
  exists domains',
    fix_protocol_spec [Scenario.Network] = Ok domains'
    /\ exists d' ty',
        d' ∈ domains' /\ ty' ∈ CdpDomain.types d'
        /\ set_optional true Scenario.expires ∈ CdpType.properties ty'
        /\ Runtime.decoded (H := Scenario.builtins) (H0 := Inflection.naming)
             Scenario.no_classes "network" (set_optional true Scenario.expires)
             (Py.VDict [("name", Py.VStr "sid")])
           = Ok Py.VNone.
Proof.
  eexists. split; [reflexivity|].
  destruct (@cookie_expires_after_fix Inflection.naming Scenario.builtins
              Scenario.no_classes "network" [Scenario.Network] _ Scenario.Network
              Scenario.Cookie Scenario.expires
              (Py.ECons CdpPrimitiveType.number (Py.EItem (Py.EName "json") "expires"))
              eq_refl)
    as (d' & ty' & Hd' & _ & Hty' & _ & _ & Hp & Hdecoded);
    [left | reflexivity | left | reflexivity | by_computation | by right; left
    | reflexivity | reflexivity |].
  exists d', ty'. split; [exact Hd'|]. split; [exact Hty'|]. split; [exact Hp|].
  apply Hdecoded. by left.
Defined.

Lemma resolve_node_after_fix_witness :
  exists domains' d' cmd',
    fix_protocol_spec [Scenario.DOM] = Ok domains'
    /\ d' ∈ domains' /\ cmd' ∈ CdpDomain.commands d'
    /\ CdpCommand.parameters cmd'
       = [Scenario.reference "nodeId" "NodeId" true "DOM";
          Scenario.reference "backendNodeId" "BackendNodeId" true "DOM"]
    /\ CdpParameter.generate_code (H := Inflection.naming)
         (Scenario.reference "backendNodeId" "BackendNodeId" true "DOM")
       = Ok (Decl "backend_node_id" "typing.Optional[BackendNodeId]" true).
Proof.
  destruct (@resolve_node_after_fix Inflection.naming [Scenario.DOM] _ Scenario.DOM
              (CdpCommand.mk "resolveNode" None false false
                 [Scenario.reference "nodeId" "NodeId" true "DOM";
                  Scenario.reference "backendNodeId" "DOM.BackendNodeId" true "DOM"]
                 [] "DOM")
              (Scenario.reference "backendNodeId" "DOM.BackendNodeId" true "DOM") eq_refl)
    as (d' & cmd' & Hd' & _ & Hcmd' & _ & Hparams & Hcode & _);
    [left | reflexivity | by_computation | left | reflexivity | reflexivity | reflexivity |].
  eexists _, d', cmd'. split; [reflexivity|]. split; [exact Hd'|]. split; [exact Hcmd'|].
  split; [exact Hparams | exact Hcode].
Defined.

Lemma from_json_carries_domain_witness :
  exists d,
    CdpDomain.from_json Scenario.Foo_json = Json.Parsed d
    /\ CdpDomain.domain d = "Foo"
    /\ CdpDomain.types d = [Scenario.Bar]
    /\ Forall (fun p => CdpProperty.domain p = "Foo") (CdpDomain.all_properties d).
Proof.
  eexists. split; [reflexivity|]. split; [reflexivity|]. split; [reflexivity|].
  by destruct (from_json_carries_domain Scenario.Foo_json _ eq_refl) as (_ & Hprops & _).
Defined.

(** A type without [id], and a description without [domain] *)
Lemma from_json_exceptions_witness :
  CdpDomain.from_json Scenario.nameless_json = Json.Fails (KeyError "id")
  /\ CdpDomain.from_json (Json.JObject [("types", Json.JInt 1)])
     = Json.Fails (KeyError "domain")
  /\ KeyError "id" ∈ [KeyError "domain"; KeyError "id"; KeyError "type"; KeyError "name";
                      AttributeError; TypeError].
Proof.
  split; [reflexivity|]. split.
  - by apply (proj2 (from_json_exceptions (Json.JObject [("types", Json.JInt 1)])
                       TypeError) [("types", Json.JInt 1)]).
  - by apply (proj1 (from_json_exceptions Scenario.nameless_json (KeyError "id"))).
Defined.

Lemma described_module_decoders_witness :
  exists d m,
    CdpDomain.from_json Scenario.Shop_json = Json.Parsed d
    /\ CdpDomain.generate_code (H := Inflection.naming) (H0 := Inflection.camel) d = Ok m
    /\ forall item e cls,
        item ∈ mod_items m -> e ∈ decoders item -> cls ∈ Py.classes_of e ->
        Str.contains "." cls = false
        \/ exists module ty,
            cls = module +:+ "." +:+ ty /\ Str.contains "." ty = false
            /\ module ∈ CdpDomain.imports (H := Inflection.naming) d.
Proof.
  assert (exists d, CdpDomain.from_json Scenario.Shop_json = Json.Parsed d) as [d Hd]
    by (eexists; reflexivity).
  assert (exists m, CdpDomain.generate_code (H := Inflection.naming)
                      (H0 := Inflection.camel) d = Ok m) as [m Hgen]
    by (injection Hd as <-; eexists; reflexivity).
  exists d, m. split; [exact Hd|]. split; [exact Hgen|]. intros item e cls.
  apply (@described_module_decoders Inflection.naming Inflection.camel Scenario.Shop_json
           d m item e cls Hd Hgen).
  injection Hd as <-.
  intros r [(ty & Hty & Hr)|[(cmd & p & Hcmd & _)|(ev & p & Hev & _)]]%refs_sound.
  - apply list_elem_of_singleton in Hty as ->.
    destruct Hr as [(p & Hp & Hr)|(its & Hits & _)]; [|done].
    apply elem_of_cons in Hp as [->|Hp]; [|apply list_elem_of_singleton in Hp as ->];
      (destruct Hr as [Hr|(its & Hits & _)]; [|done]); injection Hr as <-; cbn; lia.
  - by apply elem_of_nil in Hcmd.
  - by apply elem_of_nil in Hev.
Defined.

(** [`Node`s] and [|DOM|] in a description *)
Lemma escape_backticks_spans_witness :
  escape_backticks "Id of the `Node`s. See |DOM|."
  = "Id of the ``Node``'s. See ``DOM``."
  /\ escape_backticks "no markup" = "no markup".
Proof.
  destruct escape_backticks_spans as (Hplain & _ & Hspan). split.
  - by apply (Hspan "Id of the " "Node" "s" ". See |DOM|.").
  - by apply Hplain.
Defined.

Lemma decl_text_lines_witness :
  exists text,
    CdpProperty.generate_decl_text (H := Inflection.naming) Scenario.documented = Ok text
    /\ Str.split "010" text
       = ["#: Id of the ``Node``'s."; "#: See ``DOM``.";
          "node_id: typing.Optional[int] = None"].
Proof.
  eexists. split; [reflexivity|].
  destruct (@decl_text_lines Inflection.naming Scenario.documented _ eq_refl)
    as (d & Hd & Hlines).
  injection Hd as <-. exact (Hlines eq_refl).
Defined.

Lemma generate_doc_one_line_witness :
  Str.contains "010" (CdpParameter.generate_doc (H := Inflection.naming) Scenario.documented)
  = false
  /\ CdpParameter.generate_doc (H := Inflection.naming) Scenario.documented
     = ":param node_id: **(DEPRECATED)** *(Optional)* Id of the ``Node``s. See |DOM|.".
Proof.
  split; [|reflexivity].
  by apply (proj1 (@generate_doc_one_line Inflection.naming Scenario.documented)).
Defined.
